(** * xmlrunner: result collection and JUnit-style XML reports

    A shallow embedding of [src/xmlrunner/__init__.py] (Python 3 reading of the
    module) and the properties its specification states about it.

    Conventions of the embedding.
    - A Python [str] is a sequence of Unicode code points: [text := list N].
      Literals are written [u "..."].
    - [time.time()] readings and durations are binary64 floats ([PrimFloat]),
      and ['%.3f' % x] is [format_3f x].
    - A raised exception is the [Raise] branch of [result]; code that touches
      the process ([sys.stdout], the file system, the console) threads a
      [world] and returns the outcome together with the world it leaves.
    - [_TestInfo] objects are mutable and shared between the result's lists
      and the pending callback: they live in a store ([infos]) and are named
      by their position in it.
    - Library functions the module calls are either modelled after CPython
      ([posixpath], the [minidom] tree operations) or, for codecs and the XML
      serializer, taken as parameters of the development. *)

From Stdlib Require Import ZArith NArith List String Ascii Floats DecimalString.
From Stdlib Require Import Sorting.Sorted Sorting.Permutation Lia Bool.
From stdpp Require Import gmap strings list.

Open Scope nat_scope.

(** ** Text *)

Abbreviation text := (list N) (only parsing).

Definition u (s : string) : text :=
  map N_of_ascii (list_ascii_of_string s).

Definition text_eqb (a b : text) : bool := bool_decide (a = b).

(** [s.startswith(p)] *)
Fixpoint startswith (s p : text) : bool :=
  match p, s with
  | [], _ => true
  | _ :: _, [] => false
  | c :: p', d :: s' => N.eqb c d && startswith s' p'
  end.

(** [s.endswith(p)] *)
Definition endswith (s p : text) : bool := startswith (rev s) (rev p).

(** [s.lower()] on the ASCII letters; other code points are left alone
    (enough for the extension test, whose pattern is ASCII). *)
Definition lower_char (c : N) : N :=
  if (N.leb 65 c && N.leb c 90)%bool then (c + 32)%N else c.

Definition lower (s : text) : text := map lower_char s.

(** [sep.join(parts)] *)
Fixpoint join (sep : text) (parts : list text) : text :=
  match parts with
  | [] => []
  | [p] => p
  | p :: rest => p ++ sep ++ join sep rest
  end.

(** [s.split(sep)] for a one-character separator: the pieces between the
    occurrences of [sep]; always at least one piece. *)
Fixpoint split_on (sep : N) (s : text) : list text :=
  match s with
  | [] => [[]]
  | c :: s' =>
      if N.eqb c sep then [] :: split_on sep s'
      else match split_on sep s' with
           | [] => [[c]]
           | p :: ps => (c :: p) :: ps
           end
  end.

(** [str(n)] for a non-negative integer. *)
Definition str_of_N (n : N) : text := u (NilZero.string_of_uint (N.to_uint n)).

Definition str_of_nat (n : nat) : text := str_of_N (N.of_nat n).

(** ** Floats and ['%.3f'] *)

(** [round_half_even n d] is the integer nearest to [n / d] ([d > 0]), ties
    going to the even one: the rounding of CPython's float formatting. *)
Definition round_half_even (n d : Z) : Z :=
  let q := (n / d)%Z in
  let r := (n mod d)%Z in
  match (2 * r ?= d)%Z with
  | Lt => q
  | Gt => (q + 1)%Z
  | Eq => if Z.even q then q else (q + 1)%Z
  end.

(** The magnitude of a finite float [m * 2^e] in thousandths, rounded. *)
Definition thousandths (m : positive) (e : Z) : Z :=
  if (0 <=? e)%Z then (Z.pos m * 1000 * 2 ^ e)%Z
  else round_half_even (Z.pos m * 1000) (2 ^ (- e)).

Definition three_digits (n : Z) : text :=
  match str_of_N (Z.to_N (1000 + n mod 1000)) with
  | [] => []
  | _ :: ds => ds
  end.

Definition fixed3 (neg : bool) (n : Z) : text :=
  (if neg then u "-" else []) ++ str_of_N (Z.to_N (n / 1000)) ++ u "." ++ three_digits n.

(** ['%.3f' % x] *)
Definition format_3f (x : float) : text :=
  match Prim2SF x with
  | S754_nan => u "nan"
  | S754_infinity s => if s then u "-inf" else u "inf"
  | S754_zero s => fixed3 s 0
  | S754_finite s m e => fixed3 s (thousandths m e)
  end.

(** ['%.3f' % sum(xs)]'s argument: [sum] adds left to right from [0]. *)
Definition sum_floats (xs : list float) : float :=
  fold_left PrimFloat.add xs 0%float.

(** ** Exceptions *)

(** Python's exception classes, as far as the module meets them.
    [Dangling] has no Python counterpart: it is what reading a position
    outside the [_TestInfo] store yields, which no reachable state does. *)
Inductive exn : Type :=
  | AttributeError
  | TypeError
  | ValueError
  | IndexError
  | UnicodeDecodeError
  | HierarchyRequestErr
  | KeyboardInterrupt
  | Dangling.

Inductive result (A : Type) : Type :=
  | Ok (a : A)
  | Raise (e : exn).

Arguments Ok {A} a.
Arguments Raise {A} e.

#[global] Instance result_ret : MRet result := fun A a => Ok a.

#[global] Instance result_bind : MBind result :=
  fun A B f m => match m with Ok a => f a | Raise e => Raise e end.

Definition is_ok {A} (r : result A) : bool :=
  match r with Ok _ => true | Raise _ => false end.

(** ** [xml.dom.minidom] trees

    The nodes the module creates: the document, elements with their
    attributes in the order they were set, and CDATA sections. *)

#[warnings="-register-all"]
Inductive node : Type :=
  | Document (childNodes : list node)
  | Element (tagName : text) (attributes : list (text * text)) (childNodes : list node)
  | CDATASection (data : text).

Module minidom.

Definition createElement (tagName : text) : node := Element tagName [] [].

Definition createCDATASection (data : text) : node := CDATASection data.

Definition is_element (n : node) : bool :=
  match n with Element _ _ _ => true | _ => false end.

(** [attrs[name] = value]: an attribute already present keeps its place. *)
Fixpoint set_attr (name value : text) (attrs : list (text * text)) : list (text * text) :=
  match attrs with
  | [] => [(name, value)]
  | (k, v) :: rest =>
      if text_eqb k name then (k, value) :: rest
      else (k, v) :: set_attr name value rest
  end.

(** [node.setAttribute(name, value)]; only elements have the method. *)
Definition setAttribute (n : node) (name value : text) : result node :=
  match n with
  | Element tag attrs children => Ok (Element tag (set_attr name value attrs) children)
  | _ => Raise AttributeError
  end.

(** [parent.appendChild(child)].  A document takes element children only
    and at most one of them; a CDATA section takes none. *)
Definition appendChild (parent child : node) : result node :=
  match parent with
  | Document children =>
      if is_element child && negb (existsb is_element children)
      then Ok (Document (children ++ [child]))
      else Raise HierarchyRequestErr
  | Element tag attrs children =>
      match child with
      | Document _ => Raise HierarchyRequestErr
      | _ => Ok (Element tag attrs (children ++ [child]))
      end
  | CDATASection _ => Raise HierarchyRequestErr
  end.

(** [parent.appendChild(child)] for the node [parent] found in [doc] by
    following child positions [where_]; the tree [doc] with the child
    attached is returned.  [[]] is [doc] itself. *)
Fixpoint appendChild_at (where_ : list nat) (child : node) (doc : node) : result node :=
  match where_ with
  | [] => appendChild doc child
  | i :: rest =>
      match doc with
      | Document children =>
          match children !! i with
          | Some c => c' ← appendChild_at rest child c; Ok (Document (<[i:=c']> children))
          | None => Raise AttributeError
          end
      | Element tag attrs children =>
          match children !! i with
          | Some c => c' ← appendChild_at rest child c; Ok (Element tag attrs (<[i:=c']> children))
          | None => Raise AttributeError
          end
      | CDATASection _ => Raise AttributeError
      end
  end.

Definition get_attr (name : text) (n : node) : option text :=
  match n with
  | Element _ attrs _ => snd <$> List.find (fun kv => text_eqb (fst kv) name) attrs
  | _ => None
  end.

Definition children (n : node) : list node :=
  match n with
  | Document cs => cs
  | Element _ _ cs => cs
  | CDATASection _ => []
  end.

Definition has_tag (tag : text) (n : node) : bool :=
  match n with Element t _ _ => text_eqb t tag | _ => false end.

(** The element children of [n] named [tag], in document order. *)
Definition children_named (tag : text) (n : node) : list node :=
  List.filter (has_tag tag) (children n).

End minidom.

(** ** [posixpath] *)

Module posixpath.

Definition sep : N := 47.
Definition extsep : N := 46.

(** [p.rfind(c) + 1]: the length of the prefix of [p] that ends with the
    last [c], [0] when [c] does not occur. *)
Fixpoint after_last (c : N) (p : text) : nat :=
  match p with
  | [] => 0
  | d :: p' =>
      match after_last c p' with
      | 0 => if N.eqb d c then 1 else 0
      | S k => S (S k)
      end
  end.

Fixpoint rstrip (c : N) (p : text) : text :=
  match p with
  | [] => []
  | d :: p' =>
      match rstrip c p' with
      | [] => if N.eqb d c then [] else [d]
      | r => d :: r
      end
  end.

(** [posixpath.split(p)] *)
Definition split (p : text) : text * text :=
  let i := after_last sep p in
  let head := take i p in
  let tail := drop i p in
  let head :=
    if negb (text_eqb head []) && negb (forallb (N.eqb sep) head)
    then rstrip sep head else head in
  (head, tail).

(** [posixpath.splitext(p)]: the extension starts at the last dot of the
    last component, unless only dots precede it there. *)
Definition splitext (p : text) : text * text :=
  let sepIndex := after_last sep p in
  let dotIndex := after_last extsep p in
  if (sepIndex <? dotIndex) &&
     negb (forallb (N.eqb extsep) (take (dotIndex - 1 - sepIndex) (drop sepIndex p)))
  then (take (dotIndex - 1) p, drop (dotIndex - 1) p)
  else (p, []).

Definition isabs (p : text) : bool := startswith p [sep].

(** [posixpath.join(a, b)] *)
Definition join2 (a b : text) : text :=
  if isabs b then b
  else if text_eqb a [] || endswith a [sep] then a ++ b
  else a ++ [sep] ++ b.

(** The component loop of [normpath]. *)
Fixpoint norm_comps (initial_slashes : nat) (comps new_comps : list text) : list text :=
  match comps with
  | [] => new_comps
  | comp :: rest =>
      if text_eqb comp [] || text_eqb comp (u ".") then
        norm_comps initial_slashes rest new_comps
      else if negb (text_eqb comp (u ".."))
              || (Nat.eqb initial_slashes 0 && Nat.eqb (length new_comps) 0)
              || (match last new_comps with Some c => text_eqb c (u "..") | None => false end)
      then norm_comps initial_slashes rest (new_comps ++ [comp])
      else norm_comps initial_slashes rest (removelast new_comps)
  end.

(** [posixpath.normpath(path)] *)
Definition normpath (path : text) : text :=
  if text_eqb path [] then u "." else
  let initial_slashes :=
    if startswith path [sep] then
      if startswith path [sep; sep] && negb (startswith path [sep; sep; sep]) then 2 else 1
    else 0 in
  let comps := norm_comps initial_slashes (split_on sep path) [] in
  let path := replicate initial_slashes sep ++ join [sep] comps in
  if text_eqb path [] then u "." else path.

(** [posixpath.abspath(path)] in a process whose working directory is [cwd]. *)
Definition abspath (cwd path : text) : text :=
  normpath (if isabs path then path else join2 cwd path).

End posixpath.

(** ** The process: streams, console, file system *)

(** A writable object bound to [sys.stdout] or [sys.stderr]: an ordinary
    stream (the terminal, a file), known by a handle, or the module's
    [_DelegateIO] wrapper with the text it captured and the stream it
    forwards to. *)
Inductive stream : Type :=
  | RawStream (handle : nat)
  | DelegateIO (captured : text) (delegate : stream).

Record world : Type := World {
  sys_stdout : stream;
  sys_stderr : stream;
  (** what ordinary streams received, oldest first *)
  console : list (nat * text);
  (** what binary sinks received *)
  sink : list (nat * list Byte.byte);
  cwd : text;
  fs_dirs : gset text;
  fs_files : gmap text (list Byte.byte)
}.

Definition set_sys_stdout (s : stream) (w : world) : world :=
  World s (sys_stderr w) (console w) (sink w) (cwd w) (fs_dirs w) (fs_files w).

Definition set_sys_stderr (s : stream) (w : world) : world :=
  World (sys_stdout w) s (console w) (sink w) (cwd w) (fs_dirs w) (fs_files w).

Definition set_console (c : list (nat * text)) (w : world) : world :=
  World (sys_stdout w) (sys_stderr w) c (sink w) (cwd w) (fs_dirs w) (fs_files w).

Definition set_sink (s : list (nat * list Byte.byte)) (w : world) : world :=
  World (sys_stdout w) (sys_stderr w) (console w) s (cwd w) (fs_dirs w) (fs_files w).

Definition set_fs_dirs (d : gset text) (w : world) : world :=
  World (sys_stdout w) (sys_stderr w) (console w) (sink w) (cwd w) d (fs_files w).

Definition set_fs_files (f : gmap text (list Byte.byte)) (w : world) : world :=
  World (sys_stdout w) (sys_stderr w) (console w) (sink w) (cwd w) (fs_dirs w) f.

(** Computations that may raise and that act on the process.  The world is
    returned on both branches: what was written before an exception stays
    written. *)
Definition M (A : Type) : Type := world -> result A * world.

#[global] Instance M_ret : MRet M := fun A a w => (Ok a, w).

#[global] Instance M_bind : MBind M :=
  fun A B f m w =>
    match m w with
    | (Ok a, w') => f a w'
    | (Raise e, w') => (Raise e, w')
    end.

Definition raise {A} (e : exn) : M A := fun w => (Raise e, w).

Definition lift {A} (r : result A) : M A := fun w => (r, w).

Definition gets {A} (f : world -> A) : M A := fun w => (Ok (f w), w).

Definition modify (f : world -> world) : M unit := fun w => (Ok tt, f w).

(** [try: body finally: cleanup].  The cleanup runs on both exits; an
    exception of the cleanup replaces the body's outcome. *)
Definition try_finally {A} (body : M A) (cleanup : M unit) : M A :=
  fun w =>
    let '(r, w1) := body w in
    match cleanup w1 with
    | (Ok _, w2) => (r, w2)
    | (Raise e, w2) => (Raise e, w2)
    end.

(** [if not b: m] *)
Definition unless (b : bool) (m : M unit) : M unit :=
  if b then mret tt else m.

(** [for x in xs: body(x)], threading an accumulator. *)
Fixpoint foldM {A B} (f : B -> A -> M B) (xs : list A) (acc : B) : M B :=
  match xs with
  | [] => mret acc
  | x :: rest => acc' ← f acc x; foldM f rest acc'
  end.

Fixpoint forM_ {A} (f : A -> M unit) (xs : list A) : M unit :=
  match xs with
  | [] => mret tt
  | x :: rest => f x;; forM_ f rest
  end.

Fixpoint mapR {A B} (f : A -> result B) (xs : list A) : result (list B) :=
  match xs with
  | [] => Ok []
  | x :: rest => y ← f x; ys ← mapR f rest; Ok (y :: ys)
  end.

Fixpoint foldR {A B} (f : B -> A -> result B) (xs : list A) (acc : B) : result B :=
  match xs with
  | [] => Ok acc
  | x :: rest => acc' ← f acc x; foldR f rest acc'
  end.

(** *** [_DelegateIO] *)

(** [stream.write(text)]: an ordinary stream shows the text; a
    [_DelegateIO] keeps a copy and forwards it. *)
Fixpoint stream_write (s : stream) (t : text) (c : list (nat * text))
  : stream * list (nat * text) :=
  match s with
  | RawStream h => (s, c ++ [(h, t)])
  | DelegateIO captured delegate =>
      let '(delegate', c') := stream_write delegate t c in
      (DelegateIO (captured ++ t) delegate', c')
  end.

(** [stream.getvalue()], found on the capture buffer through [__getattr__];
    an ordinary stream has no such method. *)
Definition getvalue (s : stream) : result text :=
  match s with
  | DelegateIO captured _ => Ok captured
  | RawStream _ => Raise AttributeError
  end.

(** [stream.reset()] *)
Definition reset (s : stream) : result stream :=
  match s with
  | DelegateIO _ delegate => Ok (DelegateIO [] delegate)
  | RawStream _ => Raise AttributeError
  end.

(** [stream.delegate] *)
Definition delegate_of (s : stream) : result stream :=
  match s with
  | DelegateIO _ delegate => Ok delegate
  | RawStream _ => Raise AttributeError
  end.

(** [sys.stdout.write(t)] and [sys.stderr.write(t)] *)
Definition write_stdout (t : text) : M unit :=
  fun w =>
    let '(s, c) := stream_write (sys_stdout w) t (console w) in
    (Ok tt, set_console c (set_sys_stdout s w)).

Definition write_stderr (t : text) : M unit :=
  fun w =>
    let '(s, c) := stream_write (sys_stderr w) t (console w) in
    (Ok tt, set_console c (set_sys_stderr s w)).

(** The runner's progress stream (a [_WritelnDecorator] over an ordinary
    stream, known by its handle). *)
Definition write (h : nat) (t : text) : M unit :=
  modify (fun w => set_console (console w ++ [(h, t)]) w).

(** [stream.writeln(arg)]: [if arg: write(arg)], then a newline. *)
Definition writeln (h : nat) (t : text) : M unit :=
  (if text_eqb t [] then mret tt else write h t);; write h (u (String "010" EmptyString)).

(** *** [os] and files; I/O faults (permissions, a full disk, a file where
    a directory is expected) are outside the model. *)

Definition os_sep : text := [posixpath.sep].

Definition os_path_exists (p : text) : M bool :=
  gets (fun w => bool_decide (p ∈ fs_dirs w) || bool_decide (is_Some (fs_files w !! p))).

Definition os_makedirs (p : text) : M unit :=
  modify (fun w => set_fs_dirs ({[p]} ∪ fs_dirs w) w).

(** [open(filename, 'wb')]: the file exists and is empty from here on. *)
Definition open_wb (filename : text) : M unit :=
  modify (fun w => set_fs_files (<[filename := []]> (fs_files w)) w).

(** [report_file.write(content)] on a file opened by [open_wb]. *)
Definition file_write (filename : text) (content : list Byte.byte) : M unit :=
  modify (fun w =>
    set_fs_files (<[filename := default [] (fs_files w !! filename) ++ content]> (fs_files w)) w).

(** [stream.write(content)] on a binary sink. *)
Definition sink_write (h : nat) (content : list Byte.byte) : M unit :=
  modify (fun w => set_sink (sink w ++ [(h, content)]) w).

(** ** What the test engine hands over *)

(** A test object, as far as the module looks at it. *)
Record TestCase : Type := {
  tc_module : text;                    (** [type(test).__module__] *)
  tc_class : text;                     (** [type(test).__name__] *)
  tc_id : text;                        (** [test.id()] *)
  tc_str : text;                       (** [str(test)] *)
  tc_shortDescription : option text    (** [test.shortDescription()] *)
}.

(** An error triple [(type, value, traceback)], as far as the module looks
    at it. *)
Record exc_info : Type := {
  exc_type_name : text;   (** [err[0].__name__] *)
  exc_value_str : text;   (** [str(err[1])] *)
  exc_formatted : text    (** [result._exc_info_to_string(err, test)] *)
}.

(** The [err] attribute of a [_TestInfo]: [None], an error triple, or the
    reason of a skip. *)
Inductive err_t : Type :=
  | ErrNone
  | ErrExcInfo (e : exc_info)
  | ErrReason (reason : text).

Definition testcase_name (test_method : TestCase) : text :=
  let module := tc_module test_method ++ u "." in
  let module := if text_eqb module (u "__main__.") then [] else module in
  module ++ tc_class test_method.

(** [TextTestResult.getDescription] *)
Definition getDescription (descriptions : bool) (test : TestCase) : text :=
  match tc_shortDescription test with
  | Some (c :: doc) =>
      if descriptions then tc_str test ++ u (String "010" EmptyString) ++ (c :: doc)
      else tc_str test
  | _ => tc_str test
  end.

(** [TestResult._exc_info_to_string(err, test)]; it unpacks a triple. *)
Definition _exc_info_to_string (err : err_t) : result text :=
  match err with
  | ErrExcInfo e => Ok (exc_formatted e)
  | _ => Raise TypeError
  end.

(** ** [_TestInfo] *)

(** [(SUCCESS, FAILURE, ERROR, SKIP) = range(4)] *)
Inductive outcome_t : Type := SUCCESS | FAILURE | ERROR | SKIP.

#[global] Instance outcome_eq_dec : EqDecision outcome_t.
Proof. solve_decision. Defined.

Definition outcome_code (o : outcome_t) : nat :=
  match o with SUCCESS => 0 | FAILURE => 1 | ERROR => 2 | SKIP => 3 end.

Module TestInfo.

Record t : Type := mk {
  test_method : TestCase;
  outcome : outcome_t;
  test_index : nat;
  elapsed_time : float;
  err : err_t;
  std_output : option text;
  err_output : option text;
  test_description : text;
  test_exception_info : text;
  test_name : text;
  test_id : text
}.

(** [_TestInfo(test_result, test_method, outcome, err, std_output,
    err_output)]; [descriptions] is what [test_result.getDescription]
    needs of the result. *)
Definition __init__ (descriptions : bool) (test_method : TestCase)
    (outcome : outcome_t) (err : err_t) (std_output err_output : option text)
  : result t :=
  test_exception_info ←
    (match outcome with
     | SUCCESS | SKIP => Ok []
     | _ => _exc_info_to_string err
     end);
  Ok {| test_method := test_method;
        outcome := outcome;
        test_index := 0;
        elapsed_time := 0%float;
        err := err;
        std_output := std_output;
        err_output := err_output;
        test_description := getDescription descriptions test_method;
        test_exception_info := test_exception_info;
        test_name := testcase_name test_method;
        test_id := tc_id test_method |}.

Definition id (self : t) : text := tc_id (test_method self).

Definition get_description (self : t) : text := test_description self.

Definition get_error_info (self : t) : text := test_exception_info self.

Definition get_std_output (self : t) : option text := std_output self.

Definition get_err_output (self : t) : option text := err_output self.

(** The two assignments of [test_finished], given what it reads of the
    result. *)
Definition finished (index : nat) (elapsed : float) (self : t) : t :=
  mk (test_method self) (outcome self) index elapsed (err self)
     (std_output self) (err_output self) (test_description self)
     (test_exception_info self) (test_name self) (test_id self).

End TestInfo.

Abbreviation _TestInfo := TestInfo.t.

(** ** [_XMLTestResult] *)

(** An element of one of the result's lists: a [_TestInfo] (named by its
    place in the store) or a tuple of one and a text. *)
Inductive entry : Type :=
  | Info (i : nat)
  | Pair (i : nat) (detail : text).

(** The closure [callback] of [_prepare_callback]: the variables it
    captured. *)
Record callback_t : Type := {
  cb_test_info : nat;
  cb_verbose_str : text;
  cb_short_str : text
}.

(** The list handed to [_prepare_callback]: the result's [successes], or a
    list literal nobody else holds. *)
Inductive target_list_t : Type :=
  | self_successes
  | fresh_list.

Module XMLTestResult.

Record t : Type := mk {
  (** of [unittest]'s result classes *)
  stream : nat;
  descriptions : bool;
  showAll : bool;
  dots : bool;
  failures : list entry;
  errors : list entry;
  skipped : list entry;
  expectedFailures : list entry;
  unexpectedSuccesses : list entry;
  testsRun : nat;
  (** of the module *)
  successes : list entry;
  callback : option callback_t;
  elapsed_times : bool;
  per_test_output : bool;
  encoding : text;
  test_index : nat;
  start_time : option float;
  stop_time : option float;
  (** the [_TestInfo] objects created so far *)
  infos : list _TestInfo
}.

Definition set_errors (v : list entry) (r : t) : t :=
  mk (stream r) (descriptions r) (showAll r) (dots r) (failures r) v (skipped r)
     (expectedFailures r) (unexpectedSuccesses r) (testsRun r) (successes r)
     (callback r) (elapsed_times r) (per_test_output r) (encoding r)
     (test_index r) (start_time r) (stop_time r) (infos r).

Definition set_skipped (v : list entry) (r : t) : t :=
  mk (stream r) (descriptions r) (showAll r) (dots r) (failures r) (errors r) v
     (expectedFailures r) (unexpectedSuccesses r) (testsRun r) (successes r)
     (callback r) (elapsed_times r) (per_test_output r) (encoding r)
     (test_index r) (start_time r) (stop_time r) (infos r).

Definition set_testsRun (v : nat) (r : t) : t :=
  mk (stream r) (descriptions r) (showAll r) (dots r) (failures r) (errors r)
     (skipped r) (expectedFailures r) (unexpectedSuccesses r) v (successes r)
     (callback r) (elapsed_times r) (per_test_output r) (encoding r)
     (test_index r) (start_time r) (stop_time r) (infos r).

Definition set_successes (v : list entry) (r : t) : t :=
  mk (stream r) (descriptions r) (showAll r) (dots r) (failures r) (errors r)
     (skipped r) (expectedFailures r) (unexpectedSuccesses r) (testsRun r) v
     (callback r) (elapsed_times r) (per_test_output r) (encoding r)
     (test_index r) (start_time r) (stop_time r) (infos r).

Definition set_callback (v : option callback_t) (r : t) : t :=
  mk (stream r) (descriptions r) (showAll r) (dots r) (failures r) (errors r)
     (skipped r) (expectedFailures r) (unexpectedSuccesses r) (testsRun r)
     (successes r) v (elapsed_times r) (per_test_output r) (encoding r)
     (test_index r) (start_time r) (stop_time r) (infos r).

Definition set_test_index (v : nat) (r : t) : t :=
  mk (stream r) (descriptions r) (showAll r) (dots r) (failures r) (errors r)
     (skipped r) (expectedFailures r) (unexpectedSuccesses r) (testsRun r)
     (successes r) (callback r) (elapsed_times r) (per_test_output r) (encoding r)
     v (start_time r) (stop_time r) (infos r).

Definition set_start_time (v : option float) (r : t) : t :=
  mk (stream r) (descriptions r) (showAll r) (dots r) (failures r) (errors r)
     (skipped r) (expectedFailures r) (unexpectedSuccesses r) (testsRun r)
     (successes r) (callback r) (elapsed_times r) (per_test_output r) (encoding r)
     (test_index r) v (stop_time r) (infos r).

Definition set_stop_time (v : option float) (r : t) : t :=
  mk (stream r) (descriptions r) (showAll r) (dots r) (failures r) (errors r)
     (skipped r) (expectedFailures r) (unexpectedSuccesses r) (testsRun r)
     (successes r) (callback r) (elapsed_times r) (per_test_output r) (encoding r)
     (test_index r) (start_time r) v (infos r).

Definition set_infos (v : list _TestInfo) (r : t) : t :=
  mk (stream r) (descriptions r) (showAll r) (dots r) (failures r) (errors r)
     (skipped r) (expectedFailures r) (unexpectedSuccesses r) (testsRun r)
     (successes r) (callback r) (elapsed_times r) (per_test_output r) (encoding r)
     (test_index r) (start_time r) (stop_time r) v.

(** [_XMLTestResult(stream, descriptions, verbosity, elapsed_times,
    per_test_output, encoding)]; the base classes set [showAll] to
    [verbosity > 1] and [dots] to [verbosity == 1]. *)
Definition __init__ (stream : nat) (descriptions : bool) (verbosity : Z)
    (elapsed_times per_test_output : bool) (encoding : text) : t :=
  {| stream := stream;
     descriptions := descriptions;
     showAll := (1 <? verbosity)%Z;
     dots := (verbosity =? 1)%Z;
     failures := [];
     errors := [];
     skipped := [];
     expectedFailures := [];
     unexpectedSuccesses := [];
     testsRun := 0;
     successes := [];
     callback := None;
     elapsed_times := elapsed_times;
     per_test_output := per_test_output;
     encoding := encoding;
     test_index := 0;
     start_time := None;
     stop_time := None;
     infos := [] |}.

End XMLTestResult.

Abbreviation _XMLTestResult := XMLTestResult.t.

(** *** The lifecycle methods *)

(** The [_TestInfo] at place [i] of the result's store. *)
Definition info_at (self : _XMLTestResult) (i : nat) : result _TestInfo :=
  match XMLTestResult.infos self !! i with
  | Some test_info => Ok test_info
  | None => Raise Dangling
  end.

(** [_TestInfo.test_finished], on the object at place [i]: it copies the
    result's [test_index] and the difference of its two clock readings. *)
Definition test_finished (i : nat) (self : _XMLTestResult) : result _XMLTestResult :=
  test_info ← info_at self i;
  match XMLTestResult.stop_time self, XMLTestResult.start_time self with
  | Some stop_time, Some start_time =>
      Ok (XMLTestResult.set_infos
            (<[i := TestInfo.finished (XMLTestResult.test_index self)
                                      (stop_time - start_time)%float test_info]>
               (XMLTestResult.infos self))
            self)
  | _, _ => Raise AttributeError
  end.

(** The body of [callback], the closure [_prepare_callback] leaves for
    [stopTest]. *)
Definition call_callback (cb : callback_t) (self : _XMLTestResult) : M _XMLTestResult :=
  self ← lift (test_finished (cb_test_info cb) self);
  let self :=
    if XMLTestResult.elapsed_times self then self
    else XMLTestResult.set_stop_time (Some 0%float)
           (XMLTestResult.set_start_time (Some 0%float) self) in
  if XMLTestResult.showAll self then
    test_info ← lift (info_at self (cb_test_info cb));
    writeln (XMLTestResult.stream self)
      (cb_verbose_str cb ++ u " (" ++ format_3f (TestInfo.elapsed_time test_info) ++ u "s)");;
    mret self
  else if XMLTestResult.dots self then
    write (XMLTestResult.stream self) (cb_short_str cb);;
    mret self
  else mret self.

(** [_prepare_callback(test_info, target_list, verbose_str, short_str)] *)
Definition _prepare_callback (self : _XMLTestResult) (test_info : nat)
    (target_list : target_list_t) (verbose_str short_str : text) : _XMLTestResult :=
  let self :=
    match target_list with
    | self_successes =>
        XMLTestResult.set_successes (XMLTestResult.successes self ++ [Info test_info]) self
    | fresh_list => self
    end in
  XMLTestResult.set_callback
    (Some {| cb_test_info := test_info;
             cb_verbose_str := verbose_str;
             cb_short_str := short_str |})
    self.

(** [startTest(test)]; [now] is what [time.time()] returns. *)
Definition startTest (self : _XMLTestResult) (test : TestCase) (now : float)
  : M _XMLTestResult :=
  let self := XMLTestResult.set_start_time (Some now) self in
  let self := XMLTestResult.set_testsRun (S (XMLTestResult.testsRun self)) self in
  if XMLTestResult.showAll self then
    write (XMLTestResult.stream self)
      (u "  " ++ getDescription (XMLTestResult.descriptions self) test);;
    write (XMLTestResult.stream self) (u " ... ");;
    mret self
  else mret self.

(** [stopTest(test)]; [now] is what [time.time()] returns. *)
Definition stopTest (self : _XMLTestResult) (test : TestCase) (now : float)
  : M _XMLTestResult :=
  let self := XMLTestResult.set_stop_time (Some now) self in
  self ←
    (match XMLTestResult.callback self with
     | Some cb =>
         self ← call_callback cb self;
         mret (XMLTestResult.set_callback None self)
     | None => mret self
     end);
  mret (XMLTestResult.set_test_index (S (XMLTestResult.test_index self)) self).

Definition sys_stdout_getvalue : M text := fun w => (getvalue (sys_stdout w), w).

Definition sys_stderr_getvalue : M text := fun w => (getvalue (sys_stderr w), w).

Definition sys_stdout_reset : M unit :=
  fun w =>
    match reset (sys_stdout w) with
    | Ok s => (Ok tt, set_sys_stdout s w)
    | Raise e => (Raise e, w)
    end.

Definition sys_stderr_reset : M unit :=
  fun w =>
    match reset (sys_stderr w) with
    | Ok s => (Ok tt, set_sys_stderr s w)
    | Raise e => (Raise e, w)
    end.

(** Creating a [_TestInfo]: the new object takes the next place of the
    store. *)
Definition new_TestInfo (self : _XMLTestResult) (test : TestCase) (outcome : outcome_t)
    (err : err_t) (std_output err_output : option text)
  : result (nat * _XMLTestResult) :=
  test_info ← TestInfo.__init__ (XMLTestResult.descriptions self) test outcome err
                 std_output err_output;
  Ok (length (XMLTestResult.infos self),
      XMLTestResult.set_infos (XMLTestResult.infos self ++ [test_info]) self).

(** The statement the four [add...] methods open with; they differ in the
    [outcome] and [err] they pass. *)
Definition make_testinfo (self : _XMLTestResult) (test : TestCase) (outcome : outcome_t)
    (err : err_t) : M (nat * _XMLTestResult) :=
  if XMLTestResult.per_test_output self then
    std_output ← sys_stdout_getvalue;
    err_output ← sys_stderr_getvalue;
    created ← lift (new_TestInfo self test outcome err (Some std_output) (Some err_output));
    sys_stdout_reset;;
    sys_stderr_reset;;
    mret created
  else
    lift (new_TestInfo self test outcome err None None).

(** [addSuccess(test)] *)
Definition addSuccess (self : _XMLTestResult) (test : TestCase) : M _XMLTestResult :=
  '(testinfo, self) ← make_testinfo self test SUCCESS ErrNone;
  mret (_prepare_callback self testinfo self_successes (u "OK") (u ".")).

(** [addFailure(test, err)] *)
Definition addFailure (self : _XMLTestResult) (test : TestCase) (err : exc_info)
  : M _XMLTestResult :=
  '(testinfo, self) ← make_testinfo self test ERROR (ErrExcInfo err);
  detail ← lift (_exc_info_to_string (ErrExcInfo err));
  let self :=
    XMLTestResult.set_errors (XMLTestResult.errors self ++ [Pair testinfo detail]) self in
  mret (_prepare_callback self testinfo fresh_list (u "FAIL") (u "F")).

(** [addError(test, err)] *)
Definition addError (self : _XMLTestResult) (test : TestCase) (err : exc_info)
  : M _XMLTestResult :=
  '(testinfo, self) ← make_testinfo self test ERROR (ErrExcInfo err);
  detail ← lift (_exc_info_to_string (ErrExcInfo err));
  let self :=
    XMLTestResult.set_errors (XMLTestResult.errors self ++ [Pair testinfo detail]) self in
  mret (_prepare_callback self testinfo fresh_list (u "ERROR") (u "E")).

(** [addSkip(test, reason)] *)
Definition addSkip (self : _XMLTestResult) (test : TestCase) (reason : text)
  : M _XMLTestResult :=
  '(testinfo, self) ← make_testinfo self test SKIP (ErrReason reason);
  let self :=
    XMLTestResult.set_skipped (XMLTestResult.skipped self ++ [Pair testinfo reason]) self in
  mret (_prepare_callback self testinfo fresh_list (u "SKIP") (u "S")).

(** *** The engine's side

    What the test engine does with the result it is given: a sequence of
    calls of the lifecycle methods, with the clock readings [startTest] and
    [stopTest] take, and of writes of the running test to the standard
    channels; after them it returns or lets an exception escape. *)

Inductive engine_call : Type :=
  | call_startTest (test : TestCase) (now : float)
  | call_stopTest (test : TestCase) (now : float)
  | call_addSuccess (test : TestCase)
  | call_addFailure (test : TestCase) (err : exc_info)
  | call_addError (test : TestCase) (err : exc_info)
  | call_addSkip (test : TestCase) (reason : text)
  | call_print (t : text)
  | call_print_stderr (t : text).

Definition do_call (self : _XMLTestResult) (c : engine_call) : M _XMLTestResult :=
  match c with
  | call_startTest test now => startTest self test now
  | call_stopTest test now => stopTest self test now
  | call_addSuccess test => addSuccess self test
  | call_addFailure test err => addFailure self test err
  | call_addError test err => addError self test err
  | call_addSkip test reason => addSkip self test reason
  | call_print t => write_stdout t;; mret self
  | call_print_stderr t => write_stderr t;; mret self
  end.

Record engine_run : Type := {
  calls : list engine_call;
  escapes : option exn
}.

(** [test(result)] *)
Definition call_test (test : engine_run) (result : _XMLTestResult) : M _XMLTestResult :=
  result ← foldM do_call (calls test) result;
  match escapes test with
  | Some e => raise e
  | None => mret result
  end.

(** The lifecycle the engine follows for one test (start, the test's own
    output, exactly one outcome call, stop). *)
Inductive test_outcome : Type :=
  | Succeeded
  | Failed (err : exc_info)
  | Errored (err : exc_info)
  | Skipped (reason : text).

Record executed_test : Type := {
  et_test : TestCase;
  et_started : float;
  et_stopped : float;
  et_stdout : text;
  et_stderr : text;
  et_outcome : test_outcome
}.

Definition outcome_call (test : TestCase) (o : test_outcome) : engine_call :=
  match o with
  | Succeeded => call_addSuccess test
  | Failed err => call_addFailure test err
  | Errored err => call_addError test err
  | Skipped reason => call_addSkip test reason
  end.

Definition lifecycle (e : executed_test) : list engine_call :=
  [ call_startTest (et_test e) (et_started e);
    call_print (et_stdout e);
    call_print_stderr (et_stderr e);
    outcome_call (et_test e) (et_outcome e);
    call_stopTest (et_test e) (et_stopped e) ].

Definition lifecycles (tests : list executed_test) : list engine_call :=
  concat (map lifecycle tests).

(** *** Grouping by test case *)

(** [list.sort(key=...)]: ascending by key, elements of equal key in their
    original order. *)
Fixpoint insert_by_key {A} (key : A -> nat) (x : A) (l : list A) : list A :=
  match l with
  | [] => [x]
  | y :: l' => if key x <=? key y then x :: l else y :: insert_by_key key x l'
  end.

Definition sort_by_key {A} (key : A -> nat) (l : list A) : list A :=
  fold_right (insert_by_key key) [] l.

(** An [OrderedDict] whose values are lists, as the pairs it iterates over.
    [odict_append k v d] is [if not k in d: d[k] = []] followed by
    [d[k].append(v)]. *)
Fixpoint odict_append {V} (k : text) (v : V) (d : list (text * list V))
  : list (text * list V) :=
  match d with
  | [] => [(k, [v])]
  | (k', vs) :: rest =>
      if text_eqb k' k then (k', vs ++ [v]) :: rest
      else (k', vs) :: odict_append k v rest
  end.

(** [test_info = test_info[0]] when [isinstance(test_info, tuple)] *)
Definition entry_info (e : entry) : nat :=
  match e with
  | Info i => i
  | Pair i _ => i
  end.

(** [_get_info_by_testcase(outsuffix)] *)
Definition _get_info_by_testcase (self : _XMLTestResult) (outsuffix : text)
  : result (list (text * list _TestInfo)) :=
  testcase_list ←
    mapR (fun e =>
            test_info ← info_at self (entry_info e);
            Ok (TestInfo.test_name test_info, test_info))
         (XMLTestResult.successes self ++ XMLTestResult.failures self
            ++ XMLTestResult.errors self ++ XMLTestResult.skipped self);
  let testcase_list :=
    sort_by_key (fun x : text * _TestInfo => TestInfo.test_index (snd x)) testcase_list in
  Ok (fold_left (fun tests_by_testcase test => odict_append (fst test) (snd test) tests_by_testcase)
        testcase_list []).

(** ** [XMLTestRunner] (its attributes) *)

(** The [output] of a runner: a [str] or a writable object. *)
Inductive output_t : Type :=
  | output_str (path : text)
  | output_stream (handle : nat).

Module XMLTestRunner.

Record t : Type := mk {
  stream : nat;
  descriptions : bool;
  verbosity : Z;
  output : output_t;
  outsuffix : text;
  elapsed_times : bool;
  per_test_output : bool;
  encoding : text
}.

(** [XMLTestRunner(output, outsuffix, stream, descriptions, verbosity,
    elapsed_times, per_test_output, encoding)]; [now] is what
    [time.strftime("%Y%m%d%H%M%S")] returns. *)
Definition __init__ (output : output_t) (outsuffix : option text) (stream : nat)
    (descriptions : bool) (verbosity : Z) (elapsed_times per_test_output : bool)
    (encoding : text) (now : text) : t :=
  {| stream := stream;
     descriptions := descriptions;
     verbosity := verbosity;
     output := output;
     outsuffix :=
       match outsuffix with
       | Some (c :: s) => c :: s
       | _ => now
       end;
     elapsed_times := elapsed_times;
     per_test_output := per_test_output;
     encoding := encoding |}.

End XMLTestRunner.

Abbreviation XMLTestRunner := XMLTestRunner.t.

(** ** Sanitizing *)

(** The character class of [INVALID_XML_1_0_UNICODE_RE]: the code points
    00-08, 0B, 0C, 0E-1F, D800-DFFF, FFFE and FFFF (hexadecimal). *)
Definition INVALID_XML_1_0_UNICODE_RE (c : N) : bool :=
  (c <=? 0x08)%N
  || (c =? 0x0B)%N
  || (c =? 0x0C)%N
  || ((0x0E <=? c)%N && (c <=? 0x1F)%N)
  || ((0xD800 <=? c)%N && (c <=? 0xDFFF)%N)
  || (c =? 0xFFFE)%N
  || (c =? 0xFFFF)%N.

(** [INVALID_XML_1_0_UNICODE_RE.sub('', base)] *)
Definition sub_empty (base : text) : text :=
  List.filter (fun c => negb (INVALID_XML_1_0_UNICODE_RE c)) base.

(** The argument of [xml_safe_unicode]: a [str] or a byte string. *)
Inductive pystring : Type :=
  | PyStr (s : text)
  | PyBytes (b : list Byte.byte).

(** ** Instances of the library parameters, for examples

    [bytes.decode] for two codecs, and a serializer that writes a tree
    without pretty-printing and refuses, as minidom does, a CDATA section
    that holds the closing mark. *)

Definition decode_latin_1_or_ascii (b : list Byte.byte) (encoding : text) : result text :=
  let s := map Byte.to_N b in
  if text_eqb encoding (u "latin-1") then Ok s
  else if forallb (fun c => (c <? 128)%N) s then Ok s
  else Raise UnicodeDecodeError.

Fixpoint contains (s p : text) : bool :=
  match s with
  | [] => text_eqb p []
  | _ :: s' => startswith s p || contains s' p
  end.

Definition encode_latin_1 (s : text) : result (list Byte.byte) :=
  mapR (fun c => match Byte.of_N c with Some b => Ok b | None => Raise ValueError end) s.

Fixpoint writexml (n : node) : result text :=
  let fix each (ns : list node) : result text :=
    match ns with
    | [] => Ok []
    | c :: rest => a ← writexml c; b ← each rest; Ok (a ++ b)
    end in
  match n with
  | Document children => each children
  | Element tag attrs children =>
      inner ← each children;
      Ok (u "<" ++ tag
            ++ concat (map (fun kv : text * text =>
                              u " " ++ fst kv ++ u "='" ++ snd kv ++ u "'") attrs)
            ++ u ">" ++ inner ++ u "</" ++ tag ++ u ">")
  | CDATASection data =>
      if contains data (u "]]>") then Raise ValueError
      else Ok (u "<![CDATA[" ++ data ++ u "]]>")
  end.

Definition plain_toprettyxml (doc : node) (encoding : text) : result (list Byte.byte) :=
  s ← writexml doc;
  encode_latin_1 s.


(** ** Reports *)

Section Reports.

(** [b.decode(encoding)], by the codec registry. *)
Variable bytes_decode : list Byte.byte -> text -> result text.

(** [doc.toprettyxml(indent='\t', encoding=encoding)], by minidom. *)
Variable toprettyxml : node -> text -> result (list Byte.byte).

(** [xml_safe_unicode(base, encoding)] *)
Definition xml_safe_unicode (base : pystring) (encoding : text) : result text :=
  base ←
    (match base with
     | PyBytes b => bytes_decode b encoding
     | PyStr s => Ok s
     end);
  Ok (sub_empty base).

(** [_report_testsuite(suite_name, outsuffix, tests, xml_node,
    xml_document)].  The source attaches the new element to [xml_node]
    before it fills it; minidom keeps a reference, so the tree is the same
    when the filled element is attached, which is what [_add_xml_report]
    below does with the element returned here. *)
Definition _report_testsuite (suite_name outsuffix : text) (tests : list _TestInfo)
  : result node :=
  let testsuite := minidom.createElement (u "testsuite") in
  testsuite ← minidom.setAttribute testsuite (u "name") (suite_name ++ u "-" ++ outsuffix);
  testsuite ← minidom.setAttribute testsuite (u "tests") (str_of_nat (length tests));
  testsuite ← minidom.setAttribute testsuite (u "time")
                 (format_3f (sum_floats (map TestInfo.elapsed_time tests)));
  let failures :=
    List.filter (fun e => bool_decide (TestInfo.outcome e = FAILURE)) tests in
  testsuite ← minidom.setAttribute testsuite (u "failures") (str_of_nat (length failures));
  let errors :=
    List.filter (fun e => bool_decide (TestInfo.outcome e = ERROR)) tests in
  testsuite ← minidom.setAttribute testsuite (u "errors") (str_of_nat (length errors));
  Ok testsuite.

(** [_test_method_name(test_id)]: [test_id.split('.')[-1]] *)
Definition _test_method_name (test_id : text) : text :=
  List.last (split_on 46 test_id) [].

(** [test_result.get_std_output()] as a condition: text that is there and
    not empty. *)
Definition truthy (s : option text) : bool :=
  match s with
  | Some (_ :: _) => true
  | _ => false
  end.

(** [_report_testcase(suite_name, test_result, xml_testsuite, xml_document,
    encoding)]; it returns [xml_testsuite] with the new entry.  As in
    [_report_testsuite], an element is attached once it is filled. *)
Definition _report_testcase (suite_name : text) (test_result : _TestInfo)
    (xml_testsuite : node) (encoding : text) : result node :=
  let testcase := minidom.createElement (u "testcase") in
  testcase ← minidom.setAttribute testcase (u "classname") suite_name;
  testcase ← minidom.setAttribute testcase (u "name")
                (_test_method_name (TestInfo.test_id test_result));
  testcase ← minidom.setAttribute testcase (u "time")
                (format_3f (TestInfo.elapsed_time test_result));
  testcase ←
    (if bool_decide (TestInfo.outcome test_result ≠ SUCCESS) then
       elem_name ←
         (match [u "failure"; u "error"; u "skipped"]
                  !! (outcome_code (TestInfo.outcome test_result) - 1) with
          | Some name => Ok name
          | None => Raise IndexError
          end);
       let failure := minidom.createElement elem_name in
       failure ←
         (if bool_decide (TestInfo.outcome test_result ≠ SKIP) then
            match TestInfo.err test_result with
            | ErrExcInfo err =>
                failure ← minidom.setAttribute failure (u "type") (exc_type_name err);
                message ← xml_safe_unicode (PyStr (exc_value_str err)) encoding;
                failure ← minidom.setAttribute failure (u "message") message;
                error_info ←
                  xml_safe_unicode (PyStr (TestInfo.get_error_info test_result)) encoding;
                let failureText := minidom.createCDATASection error_info in
                minidom.appendChild failure failureText
            | ErrNone => Raise TypeError
            | ErrReason [] => Raise IndexError
            | ErrReason (_ :: _) => Raise AttributeError
            end
          else
            failure ← minidom.setAttribute failure (u "type") (u "skip");
            match TestInfo.err test_result with
            | ErrReason reason =>
                message ← xml_safe_unicode (PyStr reason) encoding;
                minidom.setAttribute failure (u "message") message
            | _ => Raise TypeError
            end);
       minidom.appendChild testcase failure
     else Ok testcase);
  testcase ←
    (if truthy (TestInfo.get_std_output test_result) then
       let systemout := minidom.createElement (u "system-out") in
       text_ ← xml_safe_unicode
                 (PyStr (default [] (TestInfo.get_std_output test_result))) encoding;
       systemout ← minidom.appendChild systemout (minidom.createCDATASection text_);
       minidom.appendChild testcase systemout
     else Ok testcase);
  testcase ←
    (if truthy (TestInfo.get_err_output test_result) then
       let systemerr := minidom.createElement (u "system-err") in
       text_ ← xml_safe_unicode
                 (PyStr (default [] (TestInfo.get_err_output test_result))) encoding;
       systemerr ← minidom.appendChild systemerr (minidom.createCDATASection text_);
       minidom.appendChild testcase systemerr
     else Ok testcase);
  minidom.appendChild xml_testsuite testcase.

(** [_report_output(test_runner, xml_testsuite, xml_document, encoding)] *)
Definition _report_output (xml_testsuite : node) (encoding : text) : M node :=
  let systemout := minidom.createElement (u "system-out") in
  captured ← sys_stdout_getvalue;
  text_ ← lift (xml_safe_unicode (PyStr captured) encoding);
  systemout ← lift (minidom.appendChild systemout (minidom.createCDATASection text_));
  xml_testsuite ← lift (minidom.appendChild xml_testsuite systemout);
  let systemerr := minidom.createElement (u "system-err") in
  captured ← sys_stderr_getvalue;
  text_ ← lift (xml_safe_unicode (PyStr captured) encoding);
  systemerr ← lift (minidom.appendChild systemerr (minidom.createCDATASection text_));
  lift (minidom.appendChild xml_testsuite systemerr).

(** [_add_xml_report(test_runner, suite, tests, node, doc)]: [node] is
    given as the place of the node inside [doc] ([[]] for [doc] itself).
    The tree is returned beside the serialized text. *)
Definition _add_xml_report (self : _XMLTestResult) (test_runner : XMLTestRunner)
    (suite : text) (tests : list _TestInfo) (node_ : list nat) (doc : node)
  : M (list Byte.byte * node) :=
  testsuite ← lift (_report_testsuite suite (XMLTestRunner.outsuffix test_runner) tests);
  testsuite ←
    lift (foldR (fun testsuite test =>
                   _report_testcase suite test testsuite (XMLTestResult.encoding self))
            tests testsuite);
  testsuite ←
    (if XMLTestResult.per_test_output self then mret testsuite
     else _report_output testsuite (XMLTestResult.encoding self));
  doc ← lift (minidom.appendChild_at node_ testsuite doc);
  xml_content ← lift (toprettyxml doc (XMLTestResult.encoding self));
  mret (xml_content, doc).

Definition dot_xml : text := u ".xml".

(** The file name of directory mode. *)
Definition directory_filename (output suite outsuffix : text) : text :=
  if text_eqb outsuffix [] then
    output ++ os_sep ++ u "TEST-" ++ suite ++ u ".xml"
  else
    output ++ os_sep ++ u "TEST-" ++ suite ++ u "-" ++ outsuffix ++ u ".xml".

(** [generate_reports(test_runner)] *)
Definition generate_reports (self : _XMLTestResult) (test_runner : XMLTestRunner)
  : M unit :=
  all_results ← lift (_get_info_by_testcase self (XMLTestRunner.outsuffix test_runner));
  match XMLTestRunner.output test_runner with
  | output_str output =>
      if negb (endswith (lower output) dot_xml) then
        exists_ ← os_path_exists output;
        unless exists_ (os_makedirs output);;
        forM_ (fun item : text * list _TestInfo =>
                 let '(suite, tests) := item in
                 let doc := Document [] in
                 '(_, doc) ← _add_xml_report self test_runner suite tests [] doc;
                 xml_content ← lift (toprettyxml doc (XMLTestResult.encoding self));
                 let filename :=
                   directory_filename output suite (XMLTestRunner.outsuffix test_runner) in
                 open_wb filename;;
                 file_write filename xml_content)
              all_results
      else
        abs ← gets (fun w => posixpath.abspath (cwd w) output);
        let '(file, ext) := posixpath.splitext abs in
        let '(dir, base) := posixpath.split abs in
        exists_ ← os_path_exists dir;
        unless exists_ (os_makedirs dir);;
        let doc := Document [] in
        let xml_suites := minidom.createElement (u "testsuites") in
        doc ← lift (minidom.appendChild doc xml_suites);
        let filename :=
          if text_eqb (XMLTestRunner.outsuffix test_runner) [] then file ++ ext
          else file ++ u "-" ++ XMLTestRunner.outsuffix test_runner ++ ext in
        open_wb filename;;
        doc ← foldM (fun doc (item : text * list _TestInfo) =>
                       let '(suite, tests) := item in
                       '(_, doc) ← _add_xml_report self test_runner suite tests [0] doc;
                       mret doc)
                    all_results doc;
        xml_content ← lift (toprettyxml doc (XMLTestResult.encoding self));
        file_write filename xml_content
  | output_stream handle =>
      forM_ (fun item : text * list _TestInfo =>
               let '(suite, tests) := item in
               let doc := Document [] in
               '(_, doc) ← _add_xml_report self test_runner suite tests [] doc;
               xml_content ← lift (toprettyxml doc (XMLTestResult.encoding self));
               sink_write handle xml_content)
            all_results
  end.

(** *** Printing the errors (the override of [printErrorList]) *)

Definition separator1 : text := replicate 70 61%N.

Definition separator2 : text := replicate 70 45%N.

(** [printErrorList(flavour, errors)] *)
Definition printErrorList (self : _XMLTestResult) (flavour : text) (errors : list entry)
  : M unit :=
  forM_ (fun e =>
           match e with
           | Pair i error =>
               test_info ← lift (info_at self i);
               writeln (XMLTestResult.stream self) separator1;;
               writeln (XMLTestResult.stream self)
                 (flavour ++ u " [" ++ format_3f (TestInfo.elapsed_time test_info)
                    ++ u "s]: " ++ TestInfo.get_description test_info);;
               writeln (XMLTestResult.stream self) separator2;;
               writeln (XMLTestResult.stream self) (TestInfo.get_error_info test_info)
           | Info _ => raise TypeError
           end)
        errors.

(** [TextTestResult.printErrors()] *)
Definition printErrors (self : _XMLTestResult) : M unit :=
  unless (negb (XMLTestResult.dots self || XMLTestResult.showAll self))
    (writeln (XMLTestResult.stream self) []);;
  printErrorList self (u "ERROR") (XMLTestResult.errors self);;
  printErrorList self (u "FAIL") (XMLTestResult.failures self).

(** [TestResult.wasSuccessful()] *)
Definition wasSuccessful (self : _XMLTestResult) : bool :=
  Nat.eqb (length (XMLTestResult.failures self)) 0
  && Nat.eqb (length (XMLTestResult.errors self)) 0
  && Nat.eqb (length (XMLTestResult.unexpectedSuccesses self)) 0.

(** ** [XMLTestRunner] (its methods) *)

(** [_make_result()] *)
Definition _make_result (self : XMLTestRunner) : _XMLTestResult :=
  XMLTestResult.__init__ (XMLTestRunner.stream self) (XMLTestRunner.descriptions self)
    (XMLTestRunner.verbosity self) (XMLTestRunner.elapsed_times self)
    (XMLTestRunner.per_test_output self) (XMLTestRunner.encoding self).

(** [sys.stdout = value] and [sys.stderr = value], for a right-hand side
    that may raise. *)
Definition assign_sys_stdout (value : world -> result stream) : M unit :=
  fun w =>
    match value w with
    | Ok s => (Ok tt, set_sys_stdout s w)
    | Raise e => (Raise e, w)
    end.

Definition assign_sys_stderr (value : world -> result stream) : M unit :=
  fun w =>
    match value w with
    | Ok s => (Ok tt, set_sys_stderr s w)
    | Raise e => (Raise e, w)
    end.

(** [_patch_standard_output()] *)
Definition _patch_standard_output : M unit :=
  assign_sys_stdout (fun w => Ok (DelegateIO [] (sys_stdout w)));;
  assign_sys_stderr (fun w => Ok (DelegateIO [] (sys_stderr w))).

(** [_restore_standard_output()] *)
Definition _restore_standard_output : M unit :=
  assign_sys_stdout (fun w => delegate_of (sys_stdout w));;
  assign_sys_stderr (fun w => delegate_of (sys_stderr w)).

(** The summary line's bracket: the counts that are not zero. *)
Definition summary_infos (self : _XMLTestResult) : list text :=
  let expectedFails := length (XMLTestResult.expectedFailures self) in
  let unexpectedSuccesses := length (XMLTestResult.unexpectedSuccesses self) in
  let skipped := length (XMLTestResult.skipped self) in
  let failed := length (XMLTestResult.failures self) in
  let errored := length (XMLTestResult.errors self) in
  (if wasSuccessful self then []
   else (if Nat.eqb failed 0 then [] else [u "failures=" ++ str_of_nat failed])
          ++ (if Nat.eqb errored 0 then [] else [u "errors=" ++ str_of_nat errored]))
  ++ (if Nat.eqb skipped 0 then [] else [u "skipped=" ++ str_of_nat skipped])
  ++ (if Nat.eqb expectedFails 0 then []
      else [u "expected failures=" ++ str_of_nat expectedFails])
  ++ (if Nat.eqb unexpectedSuccesses 0 then []
      else [u "unexpected successes=" ++ str_of_nat unexpectedSuccesses]).

(** The body of [run]'s [try]; [start_time] and [stop_time] are the two
    clock readings around [test(result)].  Like [run] it returns nothing:
    the method has no [return] statement. *)
Definition run_body (self : XMLTestRunner) (test : engine_run)
    (start_time stop_time : float) : M unit :=
  let stream := XMLTestRunner.stream self in
  _patch_standard_output;;
  let result := _make_result self in
  writeln stream [];;
  writeln stream (u "Running tests...");;
  writeln stream separator2;;
  result ← call_test test result;
  let time_taken := (stop_time - start_time)%float in
  printErrors result;;
  writeln stream separator2;;
  let run := XMLTestResult.testsRun result in
  writeln stream
    (u "Ran " ++ str_of_nat run ++ u " test" ++ (if Nat.eqb run 1 then [] else u "s")
       ++ u " in " ++ format_3f time_taken ++ u "s");;
  writeln stream [];;
  write stream (if wasSuccessful result then u "OK" else u "FAILED");;
  (match summary_infos result with
   | [] => write stream (u (String "010" EmptyString))
   | infos => writeln stream (u " (" ++ join (u ", ") infos ++ u ")")
   end);;
  writeln stream [];;
  writeln stream (u "Generating XML reports...");;
  generate_reports result self.

(** [run(test)] *)
Definition run (self : XMLTestRunner) (test : engine_run) (start_time stop_time : float)
  : M unit :=
  try_finally (run_body self test start_time stop_time) _restore_standard_output.

(** ** Vocabulary of the properties *)

(** The characters XML 1.0 does not allow, as the specification lists
    them: below U+0020 other than tab, newline and carriage return; the
    surrogates; U+FFFE and U+FFFF. *)
Definition illegal_xml_char (c : N) : Prop :=
  ((c < 0x20)%N ∧ c ≠ 0x09%N ∧ c ≠ 0x0A%N ∧ c ≠ 0x0D%N)
  ∨ ((0xD800 <= c)%N ∧ (c <= 0xDFFF)%N)
  ∨ c = 0xFFFE%N
  ∨ c = 0xFFFF%N.

(** The keys of a list of pairs in the order of their first occurrence. *)
Fixpoint first_seen (l : list (list N)) : list (list N) :=
  match l with
  | [] => []
  | k :: rest => k :: List.filter (fun k' => negb (text_eqb k' k)) (first_seen rest)
  end.

(** The second components of the pairs of [l] whose first is [k], in the
    order of [l]. *)
Definition members {A} (k : text) (l : list (list N * A)) : list A :=
  map snd (List.filter (fun x => text_eqb (fst x) k) l).

(** [l] grouped by first component: one pair per key, keys in the order
    they are first seen in [l], each with its members in the order of [l]. *)
Definition grouped {A} (l : list (list N * A)) : list (list N * list A) :=
  map (fun k => (k, members k l)) (first_seen (map fst l)).

(** The elements of the four lists the grouping reads, in its order. *)
Definition all_entries (self : _XMLTestResult) : list entry :=
  XMLTestResult.successes self ++ XMLTestResult.failures self
    ++ XMLTestResult.errors self ++ XMLTestResult.skipped self.

(** Ascending execution index. *)
Definition index_le (a b : _TestInfo) : Prop :=
  TestInfo.test_index a ≤ TestInfo.test_index b.

#[global] Instance In_text_dec (k : list N) (l : list (list N)) : Decision (In k l) :=
  in_dec (fun x y => decide (x = y)) k l.

(** A record whose [err] has the shape its [outcome] goes with: an error
    triple for a failure or an error, a reason for a skip. *)
Definition consistent (test_info : _TestInfo) : Prop :=
  match TestInfo.outcome test_info with
  | SUCCESS => True
  | FAILURE | ERROR => ∃ e, TestInfo.err test_info = ErrExcInfo e
  | SKIP => ∃ reason, TestInfo.err test_info = ErrReason reason
  end.

(** A block of captured text under a test case entry: present for text
    that is there and not empty. *)
Definition output_block (tag : text) (captured : option text) : list node :=
  match captured with
  | Some (c :: s) => [Element tag [] [CDATASection (sub_empty (c :: s))]]
  | _ => []
  end.

(** The nested block of a record that did not succeed. *)
Definition diagnostic_block (test_info : _TestInfo) : list node :=
  match TestInfo.outcome test_info, TestInfo.err test_info with
  | FAILURE, ErrExcInfo e =>
      [Element (u "failure")
         [(u "type", exc_type_name e); (u "message", sub_empty (exc_value_str e))]
         [CDATASection (sub_empty (TestInfo.test_exception_info test_info))]]
  | ERROR, ErrExcInfo e =>
      [Element (u "error")
         [(u "type", exc_type_name e); (u "message", sub_empty (exc_value_str e))]
         [CDATASection (sub_empty (TestInfo.test_exception_info test_info))]]
  | SKIP, ErrReason reason =>
      [Element (u "skipped") [(u "type", u "skip"); (u "message", sub_empty reason)] []]
  | _, _ => []
  end.

(** The first line of a text. *)
Fixpoint first_line (s : list N) : list N :=
  match s with
  | [] => []
  | c :: s' => if N.eqb c 10 then [] else c :: first_line s'
  end.

(** [same_stream s s']: [s'] is the object [s], whatever was written
    through it meanwhile (an ordinary stream is known by its handle; a
    [_DelegateIO] may have captured more, over the same delegate). *)
Fixpoint same_stream (s s' : stream) : Prop :=
  match s, s' with
  | RawStream h, RawStream h' => h = h'
  | DelegateIO _ d, DelegateIO _ d' => same_stream d d'
  | _, _ => False
  end.

(** The standard channels are bound to the same objects in [w'] as in [w]. *)
Definition same_channels (w w' : world) : Prop :=
  same_stream (sys_stdout w) (sys_stdout w')
  ∧ same_stream (sys_stderr w) (sys_stderr w').

(** Both standard channels of [w'] are [_DelegateIO] wrappers over the
    objects they were bound to in [w]. *)
Definition channels_wrapped (w w' : world) : Prop :=
  ∃ c1 d1 c2 d2,
    sys_stdout w' = DelegateIO c1 d1 ∧ same_stream (sys_stdout w) d1
    ∧ sys_stderr w' = DelegateIO c2 d2 ∧ same_stream (sys_stderr w) d2.

(** The file system of [w'] is that of [w]. *)
Definition same_files (w w' : world) : Prop :=
  fs_dirs w' = fs_dirs w ∧ fs_files w' = fs_files w ∧ cwd w' = cwd w.

(** [m], on either exit, leaves a world related by [R] to the one it found. *)
Definition preserves {A} (R : world → world → Prop) (m : M A) : Prop :=
  ∀ w, R w (snd (m w)).

(** What collecting and printing leave alone: the objects bound to the
    standard channels and the file system. *)
Definition undisturbed (w w' : world) : Prop :=
  same_channels w w' ∧ same_files w w'.

(** What the collector stores for the outcome the engine reports. *)
Definition stored_outcome (o : test_outcome) : outcome_t :=
  match o with
  | Succeeded => SUCCESS
  | Failed _ => ERROR
  | Errored _ => ERROR
  | Skipped _ => SKIP
  end.

Definition stored_err (o : test_outcome) : err_t :=
  match o with
  | Succeeded => ErrNone
  | Failed err => ErrExcInfo err
  | Errored err => ErrExcInfo err
  | Skipped reason => ErrReason reason
  end.

(** The text a [_DelegateIO] holds. *)
Definition captured_of (s : stream) : list N :=
  match s with
  | DelegateIO captured _ => captured
  | RawStream _ => []
  end.

Definition is_DelegateIO (s : stream) : bool :=
  match s with
  | DelegateIO _ _ => true
  | RawStream _ => false
  end.

(** Both standard channels are bound to [_DelegateIO] wrappers. *)
Definition patched (w : world) : Prop :=
  is_DelegateIO (sys_stdout w) = true ∧ is_DelegateIO (sys_stderr w) = true.

(** The record of a test, once the test has stopped: [self] is the result
    the test started with, [captured_out] and [captured_err] what the
    capture buffers held then. *)
Definition recorded (self : _XMLTestResult) (e : executed_test)
    (captured_out captured_err : list N) : _TestInfo :=
  {| TestInfo.test_method := et_test e;
     TestInfo.outcome := stored_outcome (et_outcome e);
     TestInfo.test_index := XMLTestResult.test_index self;
     TestInfo.elapsed_time := (et_stopped e - et_started e)%float;
     TestInfo.err := stored_err (et_outcome e);
     TestInfo.std_output :=
       if XMLTestResult.per_test_output self
       then Some (captured_out ++ et_stdout e) else None;
     TestInfo.err_output :=
       if XMLTestResult.per_test_output self
       then Some (captured_err ++ et_stderr e) else None;
     TestInfo.test_description :=
       getDescription (XMLTestResult.descriptions self) (et_test e);
     TestInfo.test_exception_info :=
       match et_outcome e with
       | Failed err | Errored err => exc_formatted err
       | _ => []
       end;
     TestInfo.test_name := testcase_name (et_test e);
     TestInfo.test_id := tc_id (et_test e) |}.

(** The result after one test has run its lifecycle. *)
Definition after_test (self : _XMLTestResult) (e : executed_test)
    (captured_out captured_err : list N) : _XMLTestResult :=
  let n := length (XMLTestResult.infos self) in
  XMLTestResult.mk
    (XMLTestResult.stream self) (XMLTestResult.descriptions self)
    (XMLTestResult.showAll self) (XMLTestResult.dots self)
    (XMLTestResult.failures self)
    (XMLTestResult.errors self
       ++ match et_outcome e with
          | Failed err | Errored err => [Pair n (exc_formatted err)]
          | _ => []
          end)
    (XMLTestResult.skipped self
       ++ match et_outcome e with
          | Skipped reason => [Pair n reason]
          | _ => []
          end)
    (XMLTestResult.expectedFailures self) (XMLTestResult.unexpectedSuccesses self)
    (S (XMLTestResult.testsRun self))
    (XMLTestResult.successes self
       ++ match et_outcome e with
          | Succeeded => [Info n]
          | _ => []
          end)
    None
    (XMLTestResult.elapsed_times self) (XMLTestResult.per_test_output self)
    (XMLTestResult.encoding self)
    (S (XMLTestResult.test_index self))
    (Some (if XMLTestResult.elapsed_times self then et_started e else 0%float))
    (Some (if XMLTestResult.elapsed_times self then et_stopped e else 0%float))
    (XMLTestResult.infos self ++ [recorded self e captured_out captured_err]).

(** The record an outcome call creates, before the test has stopped. *)
Definition created (self : _XMLTestResult) (test : TestCase) (o : test_outcome) (w : world)
  : _TestInfo :=
  {| TestInfo.test_method := test;
     TestInfo.outcome := stored_outcome o;
     TestInfo.test_index := 0;
     TestInfo.elapsed_time := 0%float;
     TestInfo.err := stored_err o;
     TestInfo.std_output :=
       if XMLTestResult.per_test_output self
       then Some (captured_of (sys_stdout w)) else None;
     TestInfo.err_output :=
       if XMLTestResult.per_test_output self
       then Some (captured_of (sys_stderr w)) else None;
     TestInfo.test_description := getDescription (XMLTestResult.descriptions self) test;
     TestInfo.test_exception_info :=
       match o with
       | Failed err | Errored err => exc_formatted err
       | _ => []
       end;
     TestInfo.test_name := testcase_name test;
     TestInfo.test_id := tc_id test |}.

(** The closure an outcome call leaves for [stopTest]. *)
Definition pending (n : nat) (o : test_outcome) : callback_t :=
  match o with
  | Succeeded => {| cb_test_info := n; cb_verbose_str := u "OK"; cb_short_str := u "." |}
  | Failed _ => {| cb_test_info := n; cb_verbose_str := u "FAIL"; cb_short_str := u "F" |}
  | Errored _ => {| cb_test_info := n; cb_verbose_str := u "ERROR"; cb_short_str := u "E" |}
  | Skipped _ => {| cb_test_info := n; cb_verbose_str := u "SKIP"; cb_short_str := u "S" |}
  end.

(** The result after an outcome call. *)
Definition after_outcome_call (self : _XMLTestResult) (test : TestCase) (o : test_outcome)
    (w : world) : _XMLTestResult :=
  let n := length (XMLTestResult.infos self) in
  XMLTestResult.mk
    (XMLTestResult.stream self) (XMLTestResult.descriptions self)
    (XMLTestResult.showAll self) (XMLTestResult.dots self)
    (XMLTestResult.failures self)
    (XMLTestResult.errors self
       ++ match o with
          | Failed err | Errored err => [Pair n (exc_formatted err)]
          | _ => []
          end)
    (XMLTestResult.skipped self
       ++ match o with
          | Skipped reason => [Pair n reason]
          | _ => []
          end)
    (XMLTestResult.expectedFailures self) (XMLTestResult.unexpectedSuccesses self)
    (XMLTestResult.testsRun self)
    (XMLTestResult.successes self
       ++ match o with
          | Succeeded => [Info n]
          | _ => []
          end)
    (Some (pending n o))
    (XMLTestResult.elapsed_times self) (XMLTestResult.per_test_output self)
    (XMLTestResult.encoding self)
    (XMLTestResult.test_index self)
    (XMLTestResult.start_time self) (XMLTestResult.stop_time self)
    (XMLTestResult.infos self ++ [created self test o w]).

(** The result after the tests have run their lifecycles, one after the
    other, from empty capture buffers. *)
Definition collected (self : _XMLTestResult) (tests : list executed_test)
  : _XMLTestResult :=
  fold_left (fun self e => after_test self e [] []) tests self.

(** The world is ready for a test: with per-test capture on, the standard
    channels are patched and their capture buffers empty. *)
Definition ready (self : _XMLTestResult) (w : world) : Prop :=
  XMLTestResult.per_test_output self = true →
  patched w ∧ captured_of (sys_stdout w) = [] ∧ captured_of (sys_stderr w) = [].

(** The record of the test that is the [k]-th to run after [self]. *)
Definition nth_record (self : _XMLTestResult) (k : nat) (e : executed_test) : _TestInfo :=
  recorded (XMLTestResult.set_test_index (XMLTestResult.test_index self + k) self) e [] [].

(** The list element an outcome call appends for the record at place [n]. *)
Definition entry_of (n : nat) (o : test_outcome) : entry :=
  match o with
  | Succeeded => Info n
  | Failed err | Errored err => Pair n (exc_formatted err)
  | Skipped reason => Pair n reason
  end.

Definition is_Pair (e : entry) : Prop :=
  match e with
  | Pair _ _ => True
  | Info _ => False
  end.

(** The attributes of a result that collecting never changes. *)
Definition settings (self : _XMLTestResult)
  : nat * bool * bool * bool * bool * bool * list N :=
  (XMLTestResult.stream self, XMLTestResult.descriptions self,
   XMLTestResult.showAll self, XMLTestResult.dots self,
   XMLTestResult.elapsed_times self, XMLTestResult.per_test_output self,
   XMLTestResult.encoding self).

(** The entry of a record under its suite's element. *)
Definition testcase_element (suite_name : list N) (test_info : _TestInfo) : node :=
  Element (u "testcase")
    [(u "classname", suite_name);
     (u "name", List.last (split_on 46 (TestInfo.test_id test_info)) []);
     (u "time", format_3f (TestInfo.elapsed_time test_info))]
    (diagnostic_block test_info
       ++ output_block (u "system-out") (TestInfo.std_output test_info)
       ++ output_block (u "system-err") (TestInfo.err_output test_info)).

(** The two blocks of whole-run output at the end of a suite's element,
    when per-test capture is off. *)
Definition aggregate_blocks (self : _XMLTestResult) (captured_out captured_err : list N)
  : list node :=
  if XMLTestResult.per_test_output self then []
  else [Element (u "system-out") [] [CDATASection (sub_empty captured_out)];
        Element (u "system-err") [] [CDATASection (sub_empty captured_err)]].

(** The element of a suite. *)
Definition testsuite_element (self : _XMLTestResult) (outsuffix : list N) (suite : list N)
    (tests : list _TestInfo) (captured_out captured_err : list N) : node :=
  Element (u "testsuite")
    [(u "name", suite ++ u "-" ++ outsuffix);
     (u "tests", str_of_nat (length tests));
     (u "time", format_3f (sum_floats (map TestInfo.elapsed_time tests)));
     (u "failures",
      str_of_nat (length (List.filter
                            (fun e => bool_decide (TestInfo.outcome e = FAILURE)) tests)));
     (u "errors",
      str_of_nat (length (List.filter
                            (fun e => bool_decide (TestInfo.outcome e = ERROR)) tests)))]
    (map (testcase_element suite) tests
       ++ aggregate_blocks self captured_out captured_err).

(** The files [files] after the reports (name and content) were written,
    in order. *)
Definition write_files (reports : list (list N * list Byte.byte))
    (files : gmap (list N) (list Byte.byte)) : gmap (list N) (list Byte.byte) :=
  fold_left (fun m r => <[fst r := snd r]> m) reports files.

(** The document of one suite in directory mode and in stream mode. *)
Definition standalone_document (self : _XMLTestResult) (outsuffix : list N)
    (captured_out captured_err : list N) (item : list N * list _TestInfo) : node :=
  Document [testsuite_element self outsuffix (fst item) (snd item)
              captured_out captured_err].

(** The document of single-file mode once the suites [items] are in. *)
Definition combined_document (self : _XMLTestResult) (outsuffix : list N)
    (captured_out captured_err : list N) (items : list (list N * list _TestInfo)) : node :=
  Document
    [Element (u "testsuites") []
       (map (fun item => testsuite_element self outsuffix (fst item) (snd item)
                           captured_out captured_err) items)].

(** [p] names a directory or a file in [w]. *)
Definition path_exists (p : list N) (w : world) : bool :=
  bool_decide (p ∈ fs_dirs w) || bool_decide (is_Some (fs_files w !! p)).

(** [w] with the directory [p] made if nothing is there under that name. *)
Definition with_directory (p : list N) (w : world) : world :=
  if path_exists p w then w else set_fs_dirs ({[p]} ∪ fs_dirs w) w.

(** The name of the single file: the root and the extension of the absolute
    target path, the suffix (if any) between them. *)
Definition single_filename (output outsuffix : list N) (w : world) : list N :=
  let abs := posixpath.abspath (cwd w) output in
  if text_eqb outsuffix [] then fst (posixpath.splitext abs) ++ snd (posixpath.splitext abs)
  else fst (posixpath.splitext abs) ++ u "-" ++ outsuffix ++ snd (posixpath.splitext abs).

(** The serializations single-file mode asks for: the document after each
    suite is attached, and the complete document once more, whose text is
    the one written. *)
Definition combined_serializations (serialize : node → result (list Byte.byte))
    (self : _XMLTestResult) (outsuffix : list N) (captured_out captured_err : list N)
    (items : list (list N * list _TestInfo)) : result (list Byte.byte) :=
  mapR (fun k => serialize (combined_document self outsuffix captured_out captured_err
                              (take k items)))
       (seq 1 (length items));;
  serialize (combined_document self outsuffix captured_out captured_err items).

(** [m] does not raise: it returns [a], and leaves the channels and the
    file system as they were. *)
Definition quiet {A} (m : M A) (a : A) : Prop :=
  ∀ w, ∃ w', m w = (Ok a, w') ∧ undisturbed w w'.

(** A record paired with its suite's name, as the grouping lists it. *)
Definition named (test_info : _TestInfo) : list N * _TestInfo :=
  (TestInfo.test_name test_info, test_info).

(** ** A sample run *)

(** A world before a run: ordinary streams on both channels, an empty file
    system, the working directory [/w]. *)
Definition sample_world : world :=
  World (RawStream 1) (RawStream 2) [] [] (u "/w") ∅ ∅.

(** The same world inside a run, both channels patched and empty. *)
Definition patched_world : world :=
  World (DelegateIO [] (RawStream 1)) (DelegateIO [] (RawStream 2)) [] [] (u "/w") ∅ ∅.

(** The test method [name] of the class [cls] of the module [m]. *)
Definition sample_case (cls name : string) : TestCase :=
  {| tc_module := u "m";
     tc_class := u cls;
     tc_id := u "m." ++ u cls ++ u "." ++ u name;
     tc_str := u name ++ u " (m." ++ u cls ++ u ")";
     tc_shortDescription := None |}.

(** An error whose text has two lines. *)
Definition sample_error : exc_info :=
  {| exc_type_name := u "AssertionError";
     exc_value_str := u "1 != 2" ++ [10%N] ++ u "values differ";
     exc_formatted := u "Traceback (most recent call last): AssertionError: 1 != 2" |}.

Definition passing_test : executed_test :=
  {| et_test := sample_case "A" "test_a";
     et_started := 1%float;
     et_stopped := 3.5%float;
     et_stdout := u "hello";
     et_stderr := [];
     et_outcome := Succeeded |}.

Definition failing_test : executed_test :=
  {| et_test := sample_case "A" "test_b";
     et_started := 4%float;
     et_stopped := 4.25%float;
     et_stdout := [];
     et_stderr := [];
     et_outcome := Failed sample_error |}.

Definition skipped_test : executed_test :=
  {| et_test := sample_case "B" "test_c";
     et_started := 5%float;
     et_stopped := 5.5%float;
     et_stdout := [];
     et_stderr := [];
     et_outcome := Skipped (u "not today") |}.

Definition erroring_test : executed_test :=
  {| et_test := sample_case "A" "test_d";
     et_started := 6%float;
     et_stopped := 6.5%float;
     et_stdout := [];
     et_stderr := u "oops";
     et_outcome := Errored sample_error |}.

Definition sample_tests : list executed_test :=
  [passing_test; failing_test; skipped_test; erroring_test].

(** A runner with the suffix [X], writing its progress to the stream [2]. *)
Definition sample_runner (output : list N) (elapsed_times per_test_output : bool)
  : XMLTestRunner :=
  XMLTestRunner.__init__ (output_str output) (Some (u "X")) 2 true 1
    elapsed_times per_test_output (u "latin-1") (u "20260101120000").

(** ** Vocabulary of the further properties *)

(** The ordinary stream at the bottom of a chain of [_DelegateIO]
    wrappers. *)
Fixpoint underlying (s : stream) : nat :=
  match s with
  | RawStream h => h
  | DelegateIO _ delegate => underlying delegate
  end.

(** The engine's calls by kind. *)
Definition is_startTest (c : engine_call) : bool :=
  match c with call_startTest _ _ => true | _ => false end.

Definition is_stopTest (c : engine_call) : bool :=
  match c with call_stopTest _ _ => true | _ => false end.

Definition is_outcome_call (c : engine_call) : bool :=
  match c with
  | call_addSuccess _ | call_addFailure _ _ | call_addError _ _ | call_addSkip _ _ => true
  | _ => false
  end.

Definition count_calls (kind : engine_call → bool) (cs : list engine_call) : nat :=
  length (List.filter kind cs).

(** A result whose lists and pending callback refer to records of the
    store, each record's [err] fitting its outcome. *)
Definition sound (self : _XMLTestResult) : Prop :=
  Forall (fun e => entry_info e < length (XMLTestResult.infos self)) (all_entries self)
  ∧ (∀ cb, XMLTestResult.callback self = Some cb →
           cb_test_info cb < length (XMLTestResult.infos self))
  ∧ Forall consistent (XMLTestResult.infos self).

(** The stream [s] after [t] was written through it: every wrapper of the
    chain has captured [t]. *)
Fixpoint absorb (s : stream) (t : list N) : stream :=
  match s with
  | RawStream h => RawStream h
  | DelegateIO captured delegate => DelegateIO (captured ++ t) (absorb delegate t)
  end.

(** The world after the texts [texts] were written, in order, to the
    ordinary stream [h]. *)
Definition said (h : nat) (texts : list (list N)) (w : world) : world :=
  set_console (console w ++ map (pair h) texts) w.

(** [m] returns [a] and does nothing but write [texts] to the stream [h]. *)
Definition emits {A} (m : M A) (a : A) (h : nat) (texts : list (list N)) : Prop :=
  ∀ w, m w = (Ok a, said h texts w).

Definition newline : list N := u (String "010" EmptyString).

(** What [writeln(t)] writes. *)
Definition line (t : list N) : list (list N) :=
  (if text_eqb t [] then [] else [t]) ++ [newline].

(** A stream after [reset()], where it has the method. *)
Definition emptied (s : stream) : stream :=
  match s with
  | DelegateIO _ delegate => DelegateIO [] delegate
  | RawStream h => RawStream h
  end.

(** What [startTest] writes to the runner's stream. *)
Definition progress_start (self : _XMLTestResult) (test : TestCase) : list (list N) :=
  if XMLTestResult.showAll self
  then [u "  " ++ getDescription (XMLTestResult.descriptions self) test; u " ... "]
  else [].

(** What [stopTest] writes to the runner's stream for a test of outcome [o]
    that took [elapsed] seconds. *)
Definition progress_stop (self : _XMLTestResult) (o : test_outcome) (elapsed : float)
  : list (list N) :=
  if XMLTestResult.showAll self
  then [cb_verbose_str (pending 0 o) ++ u " (" ++ format_3f elapsed ++ u "s)"; newline]
  else if XMLTestResult.dots self then [cb_short_str (pending 0 o)]
  else [].

(** What the console receives during the lifecycle of one test, [out] and
    [err] being the ordinary streams under the two standard channels. *)
Definition test_transcript (self : _XMLTestResult) (out err : nat) (e : executed_test)
  : list (nat * list N) :=
  map (pair (XMLTestResult.stream self)) (progress_start self (et_test e))
    ++ [(out, et_stdout e); (err, et_stderr e)]
    ++ map (pair (XMLTestResult.stream self))
         (progress_stop self (et_outcome e) (et_stopped e - et_started e)%float).

(** The world after the tests have run their lifecycles. *)
Definition world_after_tests (self : _XMLTestResult) (tests : list executed_test)
    (w : world) : world :=
  let keep (s : stream) :=
    if XMLTestResult.per_test_output self then emptied s else s in
  World (keep (absorb (sys_stdout w) (concat (map et_stdout tests))))
        (keep (absorb (sys_stderr w) (concat (map et_stderr tests))))
        (console w
           ++ concat (map (test_transcript self (underlying (sys_stdout w))
                             (underlying (sys_stderr w))) tests))
        (sink w) (cwd w) (fs_dirs w) (fs_files w).

(** What [printErrorList] writes for one element of the list. *)
Definition error_report (self : _XMLTestResult) (flavour : list N) (e : entry)
  : list (list N) :=
  match XMLTestResult.infos self !! entry_info e with
  | Some test_info =>
      line separator1
        ++ line (flavour ++ u " [" ++ format_3f (TestInfo.elapsed_time test_info)
                   ++ u "s]: " ++ TestInfo.get_description test_info)
        ++ line separator2
        ++ line (TestInfo.get_error_info test_info)
  | None => []
  end.

(** What [run] writes to the runner's stream before the tests. *)
Definition run_header : list (list N) :=
  [newline; u "Running tests..."; newline; separator2; newline].

(** What [run] writes to the runner's stream after the tests, [time_taken]
    being the duration it measured. *)
Definition run_footer (result : _XMLTestResult) (time_taken : float) : list (list N) :=
  (if XMLTestResult.dots result || XMLTestResult.showAll result then [newline] else [])
    ++ concat (map (error_report result (u "ERROR")) (XMLTestResult.errors result))
    ++ concat (map (error_report result (u "FAIL")) (XMLTestResult.failures result))
    ++ [separator2; newline;
        u "Ran " ++ str_of_nat (XMLTestResult.testsRun result) ++ u " test"
          ++ (if Nat.eqb (XMLTestResult.testsRun result) 1 then [] else u "s")
          ++ u " in " ++ format_3f time_taken ++ u "s";
        newline; newline;
        if wasSuccessful result then u "OK" else u "FAILED"]
    ++ match summary_infos result with
       | [] => [newline]
       | infos => [u " (" ++ join (u ", ") infos ++ u ")"; newline]
       end
    ++ [newline; u "Generating XML reports..."; newline].

(** [run]'s clean-up applied to a world whose channels are wrappers. *)
Definition unwrapped (w : world) : world :=
  let inner (s : stream) :=
    match s with DelegateIO _ delegate => delegate | RawStream h => RawStream h end in
  set_sys_stderr (inner (sys_stderr w)) (set_sys_stdout (inner (sys_stdout w)) w).

(** Report generation leaves the console and the two channels alone. *)
Definition silent (w w' : world) : Prop :=
  sys_stdout w' = sys_stdout w ∧ sys_stderr w' = sys_stderr w ∧ console w' = console w.

(** The world [_patch_standard_output] leaves. *)
Definition wrapped (w : world) : world :=
  set_sys_stderr (DelegateIO [] (sys_stderr w)) (set_sys_stdout (DelegateIO [] (sys_stdout w)) w).

(** The world in which [run] has collected the tests, before it prints the
    results. *)
Definition world_after_collecting (self : XMLTestRunner) (tests : list executed_test)
    (w : world) : world :=
  world_after_tests (_make_result self) tests
    (said (XMLTestRunner.stream self) run_header (wrapped w)).

(** The world in which [run] starts generating the reports. *)
Definition world_before_reports (self : XMLTestRunner) (tests : list executed_test)
    (time_taken : float) (w : world) : world :=
  said (XMLTestRunner.stream self)
    (run_footer (collected (_make_result self) tests) time_taken)
    (world_after_collecting self tests w).

(** The tests the engine reported as failed or errored, as skipped, as
    passed. *)
Definition is_failed_or_errored (e : executed_test) : bool :=
  match et_outcome e with Failed _ | Errored _ => true | _ => false end.

Definition is_skipped (e : executed_test) : bool :=
  match et_outcome e with Skipped _ => true | _ => false end.

Definition is_passed (e : executed_test) : bool :=
  match et_outcome e with Succeeded => true | _ => false end.

(** The sample runner with a writable object, the binary sink [7], as its
    target. *)
Definition stream_runner : XMLTestRunner :=
  XMLTestRunner.__init__ (output_stream 7) (Some (u "X")) 2 true 1 true true
    (u "latin-1") (u "20260101120000").

(** A fresh result with per-test capture on. *)
Definition sample_result : _XMLTestResult :=
  XMLTestResult.__init__ 2 true 1 true true (u "latin-1").

(** * Properties *)

(** ** Sanitizing *)

Lemma INVALID_XML_1_0_UNICODE_RE_spec (c : N) :
  INVALID_XML_1_0_UNICODE_RE c = true ↔ illegal_xml_char c.
Proof.
  unfold INVALID_XML_1_0_UNICODE_RE, illegal_xml_char.
  rewrite !orb_true_iff, !andb_true_iff, !N.leb_le, !N.eqb_eq.
  lia.
Qed.

Lemma sub_empty_elem (c : N) (s : text) :
  In c (sub_empty s) ↔ In c s ∧ ¬ illegal_xml_char c.
Proof.
  unfold sub_empty. rewrite filter_In, negb_true_iff.
  rewrite <- INVALID_XML_1_0_UNICODE_RE_spec.
  destruct (INVALID_XML_1_0_UNICODE_RE c); intuition congruence.
Qed.

Lemma xml_safe_unicode_str (s encoding : text) :
  xml_safe_unicode (PyStr s) encoding = Ok (sub_empty s).
Proof. reflexivity. Qed.

(** C4.  Given a [str], or a byte string that the configured encoding
    decodes, [xml_safe_unicode] returns (it does not raise) the decoded text
    with the illegal characters dropped: the result holds no character of
    the illegal set and keeps every other character, in order. *)
Theorem xml_safe_unicode_strips_illegal (base : pystring) (encoding decoded : text) :
  match base with
  | PyStr s => s = decoded
  | PyBytes b => bytes_decode b encoding = Ok decoded
  end →
  ∃ safe : text,
    xml_safe_unicode base encoding = Ok safe
    ∧ (∀ c, In c safe → ¬ illegal_xml_char c)
    ∧ safe = List.filter (fun c => negb (bool_decide (illegal_xml_char c))) decoded.
Proof.
  intros Hdec. exists (sub_empty decoded). split; [|split].
  - destruct base as [s|b]; unfold xml_safe_unicode.
    + subst. reflexivity.
    + rewrite Hdec. reflexivity.
  - intros c Hc. apply sub_empty_elem in Hc. tauto.
  - unfold sub_empty. apply filter_ext. intros c. f_equal.
    destruct (INVALID_XML_1_0_UNICODE_RE c) eqn:E.
    + symmetry. apply bool_decide_eq_true. by apply INVALID_XML_1_0_UNICODE_RE_spec.
    + symmetry. apply bool_decide_eq_false. rewrite <- INVALID_XML_1_0_UNICODE_RE_spec.
      congruence.
Qed.

(** ** Sorting and grouping *)

Lemma text_eqb_eq (a b : text) : text_eqb a b = true ↔ a = b.
Proof. unfold text_eqb. apply bool_decide_eq_true. Qed.

Lemma text_eqb_refl (a : text) : text_eqb a a = true.
Proof. by apply text_eqb_eq. Qed.

Lemma text_eqb_neq (a b : text) : text_eqb a b = false ↔ a ≠ b.
Proof. unfold text_eqb. apply bool_decide_eq_false. Qed.

Section Sorting.

Context {A : Type} (key : A → nat).

Lemma insert_by_key_perm (x : A) (l : list A) :
  Permutation (insert_by_key key x l) (x :: l).
Proof.
  induction l as [|y l IH]; simpl; [done|].
  destruct (key x <=? key y); [done|].
  rewrite IH. apply perm_swap.
Qed.

Lemma sort_by_key_perm (l : list A) : Permutation (sort_by_key key l) l.
Proof.
  induction l as [|x l IH]; simpl; [done|].
  rewrite insert_by_key_perm. by constructor.
Qed.

Lemma insert_by_key_sorted (x : A) (l : list A) :
  StronglySorted (fun a b => key a ≤ key b) l →
  StronglySorted (fun a b => key a ≤ key b) (insert_by_key key x l).
Proof.
  induction 1 as [|y l Hl IH Hy]; simpl.
  - repeat constructor.
  - destruct (key x <=? key y) eqn:E.
    + apply Nat.leb_le in E. constructor; [by constructor|].
      constructor; [done|]. eapply Forall_impl; [exact Hy|]. simpl. lia.
    + apply Nat.leb_gt in E. constructor; [done|].
      eapply Permutation_Forall; [symmetry; apply insert_by_key_perm|].
      constructor; [lia|done].
Qed.

Lemma sort_by_key_sorted (l : list A) :
  StronglySorted (fun a b => key a ≤ key b) (sort_by_key key l).
Proof.
  induction l as [|x l IH]; simpl; [constructor|].
  by apply insert_by_key_sorted.
Qed.

Lemma insert_by_key_stable (k : nat) (x : A) (l : list A) :
  List.filter (fun a => key a =? k) (insert_by_key key x l)
  = List.filter (fun a => key a =? k) (x :: l).
Proof.
  induction l as [|y l IH]; [done|].
  simpl insert_by_key. destruct (key x <=? key y) eqn:E; [done|].
  apply Nat.leb_gt in E.
  cbn [List.filter]. rewrite IH. cbn [List.filter].
  destruct (key y =? k) eqn:Ey, (key x =? k) eqn:Ex; try done.
  apply Nat.eqb_eq in Ey, Ex. lia.
Qed.

(** Elements of equal key keep their original order. *)
Lemma sort_by_key_stable (k : nat) (l : list A) :
  List.filter (fun a => key a =? k) (sort_by_key key l)
  = List.filter (fun a => key a =? k) l.
Proof.
  induction l as [|x l IH]; [done|].
  simpl sort_by_key. rewrite insert_by_key_stable. simpl. by rewrite IH.
Qed.

End Sorting.

Lemma first_seen_snoc (l : list (list N)) (k : list N) :
  first_seen (l ++ [k])
  = if bool_decide (In k l) then first_seen l else first_seen l ++ [k].
Proof.
  induction l as [|x l IH]; [done|].
  cbn [first_seen app]. rewrite IH.
  destruct (decide (In k l)) as [Hin|Hin].
  - rewrite bool_decide_eq_true_2 by done.
    rewrite bool_decide_eq_true_2 by (by right). done.
  - rewrite bool_decide_eq_false_2 by done.
    rewrite List.filter_app. cbn [List.filter].
    destruct (text_eqb k x) eqn:E; cbn [negb].
    + apply text_eqb_eq in E. subst.
      rewrite bool_decide_eq_true_2 by (by left). by rewrite app_nil_r.
    + apply text_eqb_neq in E.
      rewrite bool_decide_eq_false_2; [done|]. intros [->|?]; done.
Qed.

Lemma first_seen_elem (l : list (list N)) (k : list N) :
  In k (first_seen l) ↔ In k l.
Proof.
  induction l as [|x l IH]; simpl; [done|].
  rewrite filter_In, IH, negb_true_iff, text_eqb_neq.
  destruct (decide (x = k)); [subst|]; intuition congruence.
Qed.

Lemma first_seen_NoDup (l : list (list N)) : List.NoDup (first_seen l).
Proof.
  induction l as [|x l IH]; simpl; constructor.
  - rewrite filter_In, negb_true_iff, text_eqb_neq. tauto.
  - by apply List.NoDup_filter.
Qed.

Section Grouping.

Context {A : Type}.

Lemma members_snoc (k : list N) (l : list (list N * A)) (x : list N * A) :
  members k (l ++ [x]) = members k l ++ (if text_eqb (fst x) k then [snd x] else []).
Proof.
  unfold members. rewrite List.filter_app, map_app. simpl.
  by destruct (text_eqb (fst x) k).
Qed.

Lemma members_absent (k : list N) (l : list (list N * A)) :
  ¬ In k (map fst l) → members k l = [].
Proof.
  unfold members. induction l as [|y l IH]; simpl; [done|].
  intros Hk. destruct (text_eqb (fst y) k) eqn:E.
  - apply text_eqb_eq in E. tauto.
  - apply IH. tauto.
Qed.

Lemma odict_append_keys (k : list N) (v : A) (keys : list (list N))
    (f : list N → list A) :
  List.NoDup keys →
  odict_append k v (map (fun k' => (k', f k')) keys)
  = if bool_decide (In k keys)
    then map (fun k' => (k', f k' ++ (if text_eqb k k' then [v] else []))) keys
    else map (fun k' => (k', f k')) keys ++ [(k, [v])].
Proof.
  induction 1 as [|k0 keys Hk0 Hnd IH]; [done|].
  cbn [map odict_append].
  destruct (text_eqb k0 k) eqn:E.
    + apply text_eqb_eq in E. subst k0.
      rewrite bool_decide_eq_true_2 by (by left). rewrite text_eqb_refl.
      f_equal. apply map_ext_in. intros k' Hk'.
      destruct (text_eqb k k') eqn:E'.
      * apply text_eqb_eq in E'. by subst.
      * by rewrite app_nil_r.
    + apply text_eqb_neq in E. rewrite IH.
      destruct (decide (In k keys)) as [Hin|Hin].
      * rewrite !bool_decide_eq_true_2 by (done || by right).
        replace (text_eqb k k0) with false; [by rewrite app_nil_r|].
        symmetry. apply text_eqb_neq. congruence.
      * rewrite (bool_decide_eq_false_2 (In k keys)) by done.
        rewrite bool_decide_eq_false_2; [done|].
        intros [?|?]; done.
Qed.

Lemma group_fold (l : list (list N * A)) :
  fold_left (fun d x => odict_append (fst x) (snd x) d) l [] = grouped l.
Proof.
  induction l as [|x l IH] using rev_ind; [done|].
  rewrite (fold_left_app _ l [x] []). cbn [fold_left]. rewrite IH. unfold grouped.
  rewrite odict_append_keys by apply first_seen_NoDup.
  rewrite map_app. cbn [map]. rewrite first_seen_snoc.
  rewrite (bool_decide_ext (In (fst x) (first_seen (map fst l)))
             (In (fst x) (map fst l))) by apply first_seen_elem.
  destruct (decide (In (fst x) (map fst l))) as [Hin|Hin].
  - rewrite !bool_decide_eq_true_2 by done.
    apply map_ext. intros k. by rewrite members_snoc.
  - rewrite !bool_decide_eq_false_2 by done.
    rewrite map_app. simpl. f_equal.
    + apply map_ext_in. intros k Hk. rewrite members_snoc.
      apply (proj1 (first_seen_elem _ _)) in Hk.
      destruct (text_eqb (fst x) k) eqn:E.
      * apply text_eqb_eq in E. by subst.
      * by rewrite app_nil_r.
    + rewrite members_snoc, members_absent by done.
      by rewrite text_eqb_refl.
Qed.

Lemma grouped_keys (l : list (list N * A)) :
  map fst (grouped l) = first_seen (map fst l).
Proof.
  unfold grouped. rewrite map_map. simpl. apply map_id.
Qed.

Lemma grouped_elem (l : list (list N * A)) (k : list N) (vs : list A) :
  In (k, vs) (grouped l) ↔ In k (map fst l) ∧ vs = members k l.
Proof.
  unfold grouped. rewrite in_map_iff. split.
  - intros (k' & [= <- <-] & Hk). split; [|done].
    by apply (proj1 (first_seen_elem _ _)) in Hk.
  - intros [Hk ->]. exists k. split; [done|]. by apply first_seen_elem.
Qed.

Lemma members_sorted (R : A → A → Prop) (k : list N) (l : list (list N * A)) :
  StronglySorted (fun a b => R (snd a) (snd b)) l →
  StronglySorted R (members k l).
Proof.
  unfold members. induction 1 as [|x l Hl IH Hx]; simpl; [constructor|].
  destruct (text_eqb (fst x) k); [|done].
  simpl. constructor; [done|].
  apply List.Forall_forall. intros b Hb. apply in_map_iff in Hb as (y & <- & Hy).
  apply filter_In in Hy as [Hy _].
  rewrite List.Forall_forall in Hx. by apply Hx.
Qed.

End Grouping.

Lemma mapR_Forall2 {A B} (f : A → result B) (l : list A) (l' : list B) :
  Forall2 (fun x y => f x = Ok y) l l' → mapR f l = Ok l'.
Proof.
  induction 1 as [|x y l l' Hxy _ IH]; [done|].
  cbn [mapR]. rewrite Hxy. cbn. rewrite IH. done.
Qed.

(** C5.  The grouping step reads the records of the four lists in the
    order successes, failures, errors, skipped, sorts them by execution
    index (ascending, records of equal index keeping their order) and
    groups them by suite name: the mapping it returns lists the suites in
    the order they are first met in the sorted sequence, each with its
    records in that sequence's order, hence by ascending execution index. *)
Theorem get_info_by_testcase_groups (self : _XMLTestResult) (outsuffix : text)
    (records : list _TestInfo) :
  Forall2 (fun e test_info => XMLTestResult.infos self !! entry_info e = Some test_info)
    (all_entries self) records →
  let flat := map (fun test_info => (TestInfo.test_name test_info, test_info)) records in
  let sorted := sort_by_key (fun x : list N * _TestInfo => TestInfo.test_index (snd x)) flat in
  Permutation sorted flat
  ∧ StronglySorted (fun a b => index_le (snd a) (snd b)) sorted
  ∧ (∀ k, List.filter (fun x => TestInfo.test_index (snd x) =? k) sorted
          = List.filter (fun x => TestInfo.test_index (snd x) =? k) flat)
  ∧ _get_info_by_testcase self outsuffix = Ok (grouped sorted)
  ∧ map fst (grouped sorted) = first_seen (map fst sorted)
  ∧ List.NoDup (map fst (grouped sorted))
  ∧ (∀ suite tests, In (suite, tests) (grouped sorted) →
       tests = members suite sorted ∧ StronglySorted index_le tests).
Proof.
  intros Hrecords flat sorted.
  assert (Hsorted : StronglySorted (fun a b => index_le (snd a) (snd b)) sorted)
    by apply (sort_by_key_sorted (fun x : list N * _TestInfo => TestInfo.test_index (snd x))).
  split; [apply sort_by_key_perm|]. split; [exact Hsorted|].
  split; [intros k; apply sort_by_key_stable|].
  split; [|split; [apply grouped_keys|split]].
  - unfold _get_info_by_testcase. fold (all_entries self).
    rewrite (mapR_Forall2 _ _ flat).
    + cbn. f_equal. apply group_fold.
    + subst flat. clear -Hrecords.
      induction Hrecords as [|e ti es tis He _ IH]; cbn [map]; constructor; [|done].
      unfold info_at. rewrite He. done.
  - rewrite grouped_keys. apply first_seen_NoDup.
  - intros suite tests Hin. apply grouped_elem in Hin as [_ ->].
    split; [done|]. by apply members_sorted.
Qed.

(** ** Test case entries *)

(** What [_report_testcase] appends for a consistent record. *)
Lemma report_testcase_entry (suite_name : text) (test_result : _TestInfo)
    (tag : text) (attrs : list (list N * list N)) (entries : list node) (encoding : text) :
  consistent test_result →
  _report_testcase suite_name test_result (Element tag attrs entries) encoding
  = Ok (Element tag attrs
          (entries ++
             [Element (u "testcase")
                [(u "classname", suite_name);
                 (u "name", _test_method_name (TestInfo.test_id test_result));
                 (u "time", format_3f (TestInfo.elapsed_time test_result))]
                (diagnostic_block test_result
                   ++ output_block (u "system-out") (TestInfo.std_output test_result)
                   ++ output_block (u "system-err") (TestInfo.err_output test_result))])).
Proof.
  destruct test_result as [tm o ix el er so eo td tei tn tid].
  unfold consistent, _report_testcase, diagnostic_block, TestInfo.get_std_output,
    TestInfo.get_err_output, TestInfo.get_error_info.
  cbn [TestInfo.outcome TestInfo.err TestInfo.std_output TestInfo.err_output
       TestInfo.test_id TestInfo.elapsed_time TestInfo.test_exception_info].
  intros Hc.
  destruct o; [|destruct Hc as [e ->]..];
    destruct so as [[|c1 s1]|], eo as [[|c2 s2]|]; reflexivity.
Qed.

(** C6 (amended).  For a record whose outcome is Failure or Error, the entry
    [_report_testcase] appends starts with a diagnostic element (named
    [failure] or [error]) whose [type] attribute is the exception's
    category name, whose [message] attribute is the whole text of the
    error value with the illegal characters dropped (every line of it,
    not only the first), and whose only child is a CDATA section holding
    the formatted trace, sanitized the same way. *)
Theorem report_testcase_diagnostic (suite_name : text) (test_result : _TestInfo)
    (tag : text) (attrs : list (list N * list N)) (entries : list node)
    (encoding : text) (e : exc_info) :
  TestInfo.outcome test_result = FAILURE ∨ TestInfo.outcome test_result = ERROR →
  TestInfo.err test_result = ErrExcInfo e →
  ∃ (testcase_attrs : list (list N * list N)) (message trace : list N) (blocks : list node),
    _report_testcase suite_name test_result (Element tag attrs entries) encoding
    = Ok (Element tag attrs
            (entries ++
               [Element (u "testcase") testcase_attrs
                  (Element
                     (if bool_decide (TestInfo.outcome test_result = FAILURE)
                      then u "failure" else u "error")
                     [(u "type", exc_type_name e); (u "message", message)]
                     [CDATASection trace]
                   :: blocks)]))
    ∧ xml_safe_unicode (PyStr (exc_value_str e)) encoding = Ok message
    ∧ message = sub_empty (exc_value_str e)
    ∧ xml_safe_unicode (PyStr (TestInfo.get_error_info test_result)) encoding = Ok trace
    ∧ Forall (fun b => minidom.has_tag (u "system-out") b = true
                       ∨ minidom.has_tag (u "system-err") b = true) blocks.
Proof.
  intros Ho He.
  assert (Hc : consistent test_result).
  { unfold consistent. destruct Ho as [-> | ->]; eauto. }
  rewrite (report_testcase_entry _ _ _ _ _ _ Hc).
  exists [(u "classname", suite_name);
          (u "name", _test_method_name (TestInfo.test_id test_result));
          (u "time", format_3f (TestInfo.elapsed_time test_result))],
    (sub_empty (exc_value_str e)),
    (sub_empty (TestInfo.test_exception_info test_result)),
    (output_block (u "system-out") (TestInfo.std_output test_result)
       ++ output_block (u "system-err") (TestInfo.err_output test_result)).
  split; [|split; [done|split; [done|split; [done|]]]].
  - unfold diagnostic_block. rewrite He.
    destruct Ho as [-> | ->]; reflexivity.
  - apply Forall_app. split.
    + destruct (TestInfo.std_output test_result) as [[|c s]|];
        [constructor| |constructor].
      constructor; [by left|constructor].
    + destruct (TestInfo.err_output test_result) as [[|c s]|];
        [constructor| |constructor].
      constructor; [by right|constructor].
Qed.

Lemma diagnostic_block_tags (tag : list N) (test_info : _TestInfo) :
  tag = u "system-out" ∨ tag = u "system-err" →
  List.filter (minidom.has_tag tag) (diagnostic_block test_info) = [].
Proof.
  unfold diagnostic_block.
  intros [-> | ->]; destruct (TestInfo.outcome test_info), (TestInfo.err test_info);
    reflexivity.
Qed.

Lemma output_block_tags (tag tag' : list N) (captured : option (list N)) :
  List.filter (minidom.has_tag tag) (output_block tag' captured)
  = if text_eqb tag' tag then output_block tag' captured else [].
Proof.
  destruct captured as [[|c s]|]; cbn; by destruct (text_eqb tag' tag).
Qed.

Lemma output_block_present (tag : list N) (captured : option (list N)) :
  output_block tag captured ≠ [] ↔ ∃ c s, captured = Some (c :: s).
Proof.
  destruct captured as [[|c s]|]; cbn; split; try done; eauto.
  - intros (c & s & [=]).
  - intros (c & s & [=]).
Qed.

(** C10.  The entry of a consistent record has a [system-out] block exactly
    when the record's captured standard output is there and not empty, and
    a [system-err] block exactly when its captured standard error is; and
    with per-test capture on, an outcome call made while both capture
    buffers are empty stores a record whose entry has neither block. *)
Theorem report_testcase_output_blocks :
  (∀ (suite_name : text) (test_result : _TestInfo) (tag : text)
     (attrs : list (list N * list N)) (entries : list node) (encoding : text),
     consistent test_result →
     ∃ testcase,
       _report_testcase suite_name test_result (Element tag attrs entries) encoding
       = Ok (Element tag attrs (entries ++ [testcase]))
       ∧ (minidom.children_named (u "system-out") testcase ≠ []
          ↔ ∃ c s, TestInfo.std_output test_result = Some (c :: s))
       ∧ (minidom.children_named (u "system-err") testcase ≠ []
          ↔ ∃ c s, TestInfo.err_output test_result = Some (c :: s)))
  ∧ (∀ (self : _XMLTestResult) (test : TestCase) (o : test_outcome) (w : world)
       (out err : stream),
       XMLTestResult.per_test_output self = true →
       sys_stdout w = DelegateIO [] out →
       sys_stderr w = DelegateIO [] err →
       ∃ self' w' test_info,
         do_call self (outcome_call test o) w = (Ok self', w')
         ∧ XMLTestResult.infos self' = XMLTestResult.infos self ++ [test_info]
         ∧ consistent test_info
         ∧ TestInfo.std_output test_info = Some []
         ∧ TestInfo.err_output test_info = Some []).
Proof.
  split.
  - intros suite_name test_result tag attrs entries encoding Hc.
    eexists. split; [by apply report_testcase_entry|].
    unfold minidom.children_named. cbn [minidom.children].
    rewrite !List.filter_app, !diagnostic_block_tags, !output_block_tags by auto.
    change (text_eqb (u "system-out") (u "system-out")) with true.
    change (text_eqb (u "system-err") (u "system-err")) with true.
    change (text_eqb (u "system-err") (u "system-out")) with false.
    change (text_eqb (u "system-out") (u "system-err")) with false.
    rewrite app_nil_r. cbn [app].
    split; apply output_block_present.
  - intros self test o w out err Hp Hout Herr.
    destruct w as [so se co si cw fd ff]. cbn in Hout, Herr. subst so se.
    destruct o; unfold do_call, outcome_call, addSuccess, addFailure, addError, addSkip,
      make_testinfo; rewrite Hp; cbn;
      (eexists _, _, _; split; [reflexivity|]); cbn;
      (split; [reflexivity|]); unfold consistent; cbn; eauto.
Qed.

(** ** What a computation leaves alone *)

Section Frame.

Context (R : world → world → Prop) `{!PreOrder R}.

Lemma preserves_ret {A} (a : A) : preserves R (mret a).
Proof. intros w. reflexivity. Qed.

Lemma preserves_raise {A} (e : exn) : preserves R (raise e : M A).
Proof. intros w. reflexivity. Qed.

Lemma preserves_lift {A} (r : result A) : preserves R (lift r).
Proof. intros w. reflexivity. Qed.

Lemma preserves_gets {A} (f : world → A) : preserves R (gets f).
Proof. intros w. reflexivity. Qed.

Lemma preserves_bind {A B} (m : M A) (f : A → M B) :
  preserves R m → (∀ a, preserves R (f a)) → preserves R (m ≫= f).
Proof.
  intros Hm Hf w. unfold mbind, M_bind.
  specialize (Hm w). destruct (m w) as [[a|e] w1]; cbn in *; [|done].
  etransitivity; [exact Hm|apply Hf].
Qed.

Lemma preserves_unless (b : bool) (m : M unit) :
  preserves R m → preserves R (unless b m).
Proof. destruct b; [intros _; apply preserves_ret|done]. Qed.

Lemma preserves_foldM {A B} (f : B → A → M B) (xs : list A) (acc : B) :
  (∀ b a, preserves R (f b a)) → preserves R (foldM f xs acc).
Proof.
  intros Hf. revert acc. induction xs as [|x xs IH]; intros acc; cbn [foldM].
  - apply preserves_ret.
  - apply preserves_bind; [apply Hf|exact IH].
Qed.

Lemma preserves_forM_ {A} (f : A → M unit) (xs : list A) :
  (∀ a, preserves R (f a)) → preserves R (forM_ f xs).
Proof.
  intros Hf. induction xs as [|x xs IH]; cbn [forM_].
  - apply preserves_ret.
  - apply preserves_bind; [apply Hf|intros _; exact IH].
Qed.

Lemma preserves_modify (f : world → world) :
  (∀ w, R w (f w)) → preserves R (modify f).
Proof. intros Hf w. apply Hf. Qed.

End Frame.

#[global] Instance same_stream_preorder : PreOrder same_stream.
Proof.
  split.
  - intros s. induction s; cbn; done.
  - intros s1. induction s1 as [h|c d IH]; intros [h2|c2 d2] [h3|c3 d3]; cbn; try done.
    + congruence.
    + apply IH.
Qed.

#[global] Instance same_channels_preorder : PreOrder same_channels.
Proof.
  split.
  - intros w. split; reflexivity.
  - intros w1 w2 w3 [H1 H2] [H3 H4]. split; etransitivity; eauto.
Qed.

#[global] Instance same_files_preorder : PreOrder same_files.
Proof.
  split.
  - intros w. by repeat split.
  - intros w1 w2 w3 (H1 & H2 & H3) (H4 & H5 & H6). repeat split; congruence.
Qed.

Lemma stream_write_same (s : stream) (t : list N) (c : list (nat * list N)) :
  same_stream s (fst (stream_write s t c)).
Proof.
  revert c. induction s as [h|cap d IH]; intros c; cbn; [done|].
  specialize (IH c). destruct (stream_write d t c) as [d' c']. done.
Qed.

#[global] Instance undisturbed_preorder : PreOrder undisturbed.
Proof.
  split.
  - intros w. split; reflexivity.
  - intros w1 w2 w3 [H1 H2] [H3 H4]. split; etransitivity; eauto.
Qed.

Lemma preserves_weaken {A} (R R' : world → world → Prop) (m : M A) :
  (∀ w w', R w w' → R' w w') → preserves R m → preserves R' m.
Proof. intros HR Hm w. apply HR, Hm. Qed.

Create HintDb frame.

Ltac tc := try (solve [apply _]).

Ltac frame_step :=
  first
    [ apply preserves_ret; tc
    | apply preserves_raise; tc
    | apply preserves_lift; tc
    | apply preserves_gets; tc
    | apply preserves_bind; tc; [ | intro]
    | apply preserves_unless; tc
    | apply preserves_foldM; tc; intros ? ?
    | apply preserves_forM_; tc; intro
    | progress cbv zeta
    | match goal with
      | |- preserves _ (if ?b then _ else _) => destruct b
      | |- preserves _ (match ?x with _ => _ end) => destruct x
      end ].

Ltac frame := repeat frame_step; eauto with frame.

Lemma write_undisturbed (h : nat) (t : list N) : preserves undisturbed (write h t).
Proof. apply preserves_modify; tc. intros w. repeat split; reflexivity. Qed.

#[local] Hint Resolve write_undisturbed : frame.

Lemma writeln_undisturbed (h : nat) (t : list N) : preserves undisturbed (writeln h t).
Proof. unfold writeln. frame. Qed.

#[local] Hint Resolve writeln_undisturbed : frame.

Lemma write_stdout_undisturbed (t : list N) : preserves undisturbed (write_stdout t).
Proof.
  intros w. unfold write_stdout.
  pose proof (stream_write_same (sys_stdout w) t (console w)) as Hs.
  destruct (stream_write (sys_stdout w) t (console w)) as [s c]. cbn in *.
  repeat split; try done; reflexivity.
Qed.

Lemma write_stderr_undisturbed (t : list N) : preserves undisturbed (write_stderr t).
Proof.
  intros w. unfold write_stderr.
  pose proof (stream_write_same (sys_stderr w) t (console w)) as Hs.
  destruct (stream_write (sys_stderr w) t (console w)) as [s c]. cbn in *.
  repeat split; try done; reflexivity.
Qed.

Lemma sys_stdout_getvalue_undisturbed : preserves undisturbed sys_stdout_getvalue.
Proof. intros w. reflexivity. Qed.

Lemma sys_stderr_getvalue_undisturbed : preserves undisturbed sys_stderr_getvalue.
Proof. intros w. reflexivity. Qed.

Lemma sys_stdout_reset_undisturbed : preserves undisturbed sys_stdout_reset.
Proof.
  intros w. unfold sys_stdout_reset.
  destruct (sys_stdout w) as [h|c d] eqn:E; cbn; [reflexivity|].
  repeat split; cbn; try reflexivity. rewrite E. cbn. reflexivity.
Qed.

Lemma sys_stderr_reset_undisturbed : preserves undisturbed sys_stderr_reset.
Proof.
  intros w. unfold sys_stderr_reset.
  destruct (sys_stderr w) as [h|c d] eqn:E; cbn; [reflexivity|].
  repeat split; cbn; try reflexivity. rewrite E. cbn. reflexivity.
Qed.

#[local] Hint Resolve write_stdout_undisturbed write_stderr_undisturbed
  sys_stdout_getvalue_undisturbed sys_stderr_getvalue_undisturbed
  sys_stdout_reset_undisturbed sys_stderr_reset_undisturbed : frame.

Lemma call_callback_undisturbed (cb : callback_t) (self : _XMLTestResult) :
  preserves undisturbed (call_callback cb self).
Proof. unfold call_callback. frame. Qed.

#[local] Hint Resolve call_callback_undisturbed : frame.

Lemma startTest_undisturbed (self : _XMLTestResult) (test : TestCase) (now : float) :
  preserves undisturbed (startTest self test now).
Proof. unfold startTest. frame. Qed.

Lemma stopTest_undisturbed (self : _XMLTestResult) (test : TestCase) (now : float) :
  preserves undisturbed (stopTest self test now).
Proof. unfold stopTest. frame. Qed.

Lemma make_testinfo_undisturbed (self : _XMLTestResult) (test : TestCase)
    (outcome : outcome_t) (err : err_t) :
  preserves undisturbed (make_testinfo self test outcome err).
Proof. unfold make_testinfo. frame. Qed.

#[local] Hint Resolve startTest_undisturbed stopTest_undisturbed
  make_testinfo_undisturbed : frame.

Lemma do_call_undisturbed (self : _XMLTestResult) (c : engine_call) :
  preserves undisturbed (do_call self c).
Proof.
  destruct c; cbn [do_call]; unfold addSuccess, addFailure, addError, addSkip; frame.
Qed.

#[local] Hint Resolve do_call_undisturbed : frame.

Lemma call_test_undisturbed (test : engine_run) (result : _XMLTestResult) :
  preserves undisturbed (call_test test result).
Proof. unfold call_test. frame. Qed.

Lemma printErrorList_undisturbed (self : _XMLTestResult) (flavour : list N)
    (errors : list entry) :
  preserves undisturbed (printErrorList self flavour errors).
Proof. unfold printErrorList. frame. Qed.

#[local] Hint Resolve call_test_undisturbed printErrorList_undisturbed : frame.

Lemma printErrors_undisturbed (self : _XMLTestResult) :
  preserves undisturbed (printErrors self).
Proof. unfold printErrors. frame. Qed.

#[local] Hint Resolve printErrors_undisturbed : frame.

Lemma undisturbed_channels {A} (m : M A) :
  preserves undisturbed m → preserves same_channels m.
Proof. apply preserves_weaken. by intros w w' [? _]. Qed.

Ltac frame_channels := repeat frame_step; eauto using undisturbed_channels with frame.

Lemma os_makedirs_channels (p : list N) : preserves same_channels (os_makedirs p).
Proof. apply preserves_modify; tc. intros w. split; reflexivity. Qed.

Lemma open_wb_channels (p : list N) : preserves same_channels (open_wb p).
Proof. apply preserves_modify; tc. intros w. split; reflexivity. Qed.

Lemma file_write_channels (p : list N) (content : list Byte.byte) :
  preserves same_channels (file_write p content).
Proof. apply preserves_modify; tc. intros w. split; reflexivity. Qed.

Lemma sink_write_channels (h : nat) (content : list Byte.byte) :
  preserves same_channels (sink_write h content).
Proof. apply preserves_modify; tc. intros w. split; reflexivity. Qed.

#[local] Hint Resolve os_makedirs_channels open_wb_channels file_write_channels
  sink_write_channels : frame.

Lemma report_output_channels (xml_testsuite : node) (encoding : list N) :
  preserves same_channels (_report_output xml_testsuite encoding).
Proof. unfold _report_output. frame_channels. Qed.

#[local] Hint Resolve report_output_channels : frame.

Lemma add_xml_report_channels (self : _XMLTestResult) (test_runner : XMLTestRunner)
    (suite : list N) (tests : list _TestInfo) (node_ : list nat) (doc : node) :
  preserves same_channels (_add_xml_report self test_runner suite tests node_ doc).
Proof. unfold _add_xml_report. frame_channels. Qed.

#[local] Hint Resolve add_xml_report_channels : frame.

Lemma generate_reports_channels (self : _XMLTestResult) (test_runner : XMLTestRunner) :
  preserves same_channels (generate_reports self test_runner).
Proof. unfold generate_reports, os_path_exists. frame_channels. Qed.

#[local] Hint Resolve generate_reports_channels : frame.

(** The world [_patch_standard_output] leaves. *)
Lemma patch_standard_output_bind {A} (k : unit → M A) (w : world) :
  (_patch_standard_output ≫= k) w
  = k tt (set_sys_stderr (DelegateIO [] (sys_stderr w))
            (set_sys_stdout (DelegateIO [] (sys_stdout w)) w)).
Proof. reflexivity. Qed.

Lemma same_stream_raw (h : nat) (s : stream) :
  same_stream (RawStream h) s → s = RawStream h.
Proof. destruct s; cbn; [congruence|done]. Qed.

(** How [run] ends: its body leaves both channels wrapped, the cleanup
    unwraps them without raising, and nothing else changes. *)
Lemma run_unwinds (self : XMLTestRunner) (test : engine_run)
    (start_time stop_time : float) (w : world) :
  ∃ (outcome : result unit) (w_body w_end : world),
    run_body self test start_time stop_time w = (outcome, w_body)
    ∧ channels_wrapped w w_body
    ∧ run self test start_time stop_time w = (outcome, w_end)
    ∧ same_channels w w_end
    ∧ same_files w_body w_end.
Proof.
  assert (∃ k, run_body self test start_time stop_time = _patch_standard_output ≫= k
               ∧ ∀ x, preserves same_channels (k x)) as (k & Hbody & Hk).
  { unfold run_body. eexists. split; [reflexivity|]. intros x. cbv beta.
    frame_channels. }
  unfold run, try_finally. rewrite Hbody, patch_standard_output_bind.
  specialize (Hk tt (set_sys_stderr (DelegateIO [] (sys_stderr w))
                       (set_sys_stdout (DelegateIO [] (sys_stdout w)) w))).
  destruct (k tt _) as [outcome w1]. cbn in Hk. destruct Hk as [Hout Herr].
  destruct (sys_stdout w1) as [?|c1 d1] eqn:E1; [done|].
  destruct (sys_stderr w1) as [?|c2 d2] eqn:E2; [done|].
  assert (Hrestore : _restore_standard_output w1
                     = (Ok tt, set_sys_stderr d2 (set_sys_stdout d1 w1))).
  { unfold _restore_standard_output, assign_sys_stdout, assign_sys_stderr, mbind, M_bind.
    rewrite E1. cbn. rewrite E2. reflexivity. }
  exists outcome, w1, (set_sys_stderr d2 (set_sys_stdout d1 w1)).
  split; [done|]. split; [by exists c1, d1, c2, d2|].
  split; [by rewrite Hrestore|].
  split; [by split|]. by destruct w1.
Qed.

(** C9.  Whatever the engine does and however the run ends, normally or by
    an exception of the tests or of report generation: when the body of
    [run] ends, both standard channels are [_DelegateIO] wrappers over the
    objects that were bound before the run, and when [run] itself ends,
    with the same outcome as its body, the channels are bound to those
    objects again (for an ordinary stream: to that very stream). *)
Theorem run_restores_standard_channels (self : XMLTestRunner) (test : engine_run)
    (start_time stop_time : float) (w : world) :
  ∃ (outcome : result unit) (w_body w_end : world),
    run_body self test start_time stop_time w = (outcome, w_body)
    ∧ channels_wrapped w w_body
    ∧ run self test start_time stop_time w = (outcome, w_end)
    ∧ same_channels w w_end
    ∧ (∀ h, sys_stdout w = RawStream h → sys_stdout w_end = RawStream h)
    ∧ (∀ h, sys_stderr w = RawStream h → sys_stderr w_end = RawStream h).
Proof.
  destruct (run_unwinds self test start_time stop_time w)
    as (outcome & w_body & w_end & Hbody & Hwrapped & Hrun & [Hout Herr] & _).
  exists outcome, w_body, w_end. repeat (split; [done|]).
  split; intros h Hh; rewrite Hh in *; by apply same_stream_raw.
Qed.

(** ** One test's lifecycle *)

Arguments u : simpl never.
Arguments format_3f : simpl never.
Arguments getDescription : simpl never.
Arguments testcase_name : simpl never.

Lemma bind_run {A B} (m : M A) (f : A → M B) (w w1 : world) (a : A) :
  m w = (Ok a, w1) → (m ≫= f) w = f a w1.
Proof. intros H. unfold mbind, M_bind. by rewrite H. Qed.

Lemma preserves_run {A} (R : world → world → Prop) (m : M A) (w : world) :
  preserves R m → ∃ r w', m w = (r, w') ∧ R w w'.
Proof. intros H. specialize (H w). destruct (m w) as [r w']. eauto. Qed.

Lemma same_stream_captured_kind (s s' : stream) :
  same_stream s s' → is_DelegateIO s' = is_DelegateIO s.
Proof. destruct s, s'; cbn; done. Qed.

Lemma undisturbed_patched (w w' : world) : undisturbed w w' → patched w → patched w'.
Proof.
  intros [[H1 H2] _] [P1 P2]. split.
  - by rewrite (same_stream_captured_kind _ _ H1).
  - by rewrite (same_stream_captured_kind _ _ H2).
Qed.

Lemma write_keeps (h : nat) (t : list N) (w : world) :
  ∃ w', write h t w = (Ok tt, w')
        ∧ sys_stdout w' = sys_stdout w ∧ sys_stderr w' = sys_stderr w.
Proof. eexists. split; [reflexivity|]. split; reflexivity. Qed.

Lemma writeln_keeps (h : nat) (t : list N) (w : world) :
  ∃ w', writeln h t w = (Ok tt, w')
        ∧ sys_stdout w' = sys_stdout w ∧ sys_stderr w' = sys_stderr w.
Proof.
  unfold writeln. destruct (text_eqb t []); eexists; (split; [reflexivity|]);
    split; reflexivity.
Qed.

Lemma startTest_runs (self : _XMLTestResult) (test : TestCase) (now : float) (w : world) :
  ∃ w',
    startTest self test now w
    = (Ok (XMLTestResult.set_testsRun (S (XMLTestResult.testsRun self))
             (XMLTestResult.set_start_time (Some now) self)), w')
    ∧ sys_stdout w' = sys_stdout w ∧ sys_stderr w' = sys_stderr w.
Proof.
  unfold startTest. cbv zeta. cbn [XMLTestResult.showAll XMLTestResult.set_testsRun
    XMLTestResult.set_start_time XMLTestResult.stream XMLTestResult.descriptions
    XMLTestResult.testsRun].
  destruct (XMLTestResult.showAll self); eexists; (split; [reflexivity|]);
    split; reflexivity.
Qed.

Lemma write_stdout_runs (t : list N) (w : world) :
  ∃ w',
    write_stdout t w = (Ok tt, w')
    ∧ sys_stderr w' = sys_stderr w
    ∧ is_DelegateIO (sys_stdout w') = is_DelegateIO (sys_stdout w)
    ∧ captured_of (sys_stdout w')
      = if is_DelegateIO (sys_stdout w) then captured_of (sys_stdout w) ++ t else [].
Proof.
  unfold write_stdout. destruct (sys_stdout w) as [h|c d]; cbn [stream_write].
  - eexists. split; [reflexivity|]. done.
  - destruct (stream_write d t (console w)) as [d' c']. eexists.
    split; [reflexivity|]. done.
Qed.

Lemma write_stderr_runs (t : list N) (w : world) :
  ∃ w',
    write_stderr t w = (Ok tt, w')
    ∧ sys_stdout w' = sys_stdout w
    ∧ is_DelegateIO (sys_stderr w') = is_DelegateIO (sys_stderr w)
    ∧ captured_of (sys_stderr w')
      = if is_DelegateIO (sys_stderr w) then captured_of (sys_stderr w) ++ t else [].
Proof.
  unfold write_stderr. destruct (sys_stderr w) as [h|c d]; cbn [stream_write].
  - eexists. split; [reflexivity|]. done.
  - destruct (stream_write d t (console w)) as [d' c']. eexists.
    split; [reflexivity|]. done.
Qed.

Lemma outcome_call_runs (self : _XMLTestResult) (test : TestCase) (o : test_outcome)
    (w : world) :
  (XMLTestResult.per_test_output self = true → patched w) →
  ∃ w',
    do_call self (outcome_call test o) w = (Ok (after_outcome_call self test o w), w')
    ∧ (if XMLTestResult.per_test_output self
       then patched w' ∧ captured_of (sys_stdout w') = [] ∧ captured_of (sys_stderr w') = []
       else sys_stdout w' = sys_stdout w ∧ sys_stderr w' = sys_stderr w).
Proof.
  intros Hp.
  destruct self as [st de sa dt fa er sk ef us tr su cb el pt en ti s0 s1 inf].
  destruct w as [so se co si cw fd ff].
  cbn in Hp. unfold after_outcome_call, created.
  cbn [XMLTestResult.per_test_output XMLTestResult.infos XMLTestResult.stream
       XMLTestResult.descriptions XMLTestResult.showAll XMLTestResult.dots
       XMLTestResult.failures XMLTestResult.errors XMLTestResult.skipped
       XMLTestResult.expectedFailures XMLTestResult.unexpectedSuccesses
       XMLTestResult.testsRun XMLTestResult.successes XMLTestResult.elapsed_times
       XMLTestResult.encoding XMLTestResult.test_index XMLTestResult.start_time
       XMLTestResult.stop_time sys_stdout sys_stderr].
  destruct pt.
  - destruct Hp as [H1 H2]; [done|]. cbn in H1, H2.
    destruct so as [|c1 d1]; [done|]. destruct se as [|c2 d2]; [done|].
    destruct o; rewrite ?app_nil_r; eexists; (split; [reflexivity|]); done.
  - destruct o; rewrite ?app_nil_r; eexists; (split; [reflexivity|]); done.
Qed.

Lemma stopTest_runs (self : _XMLTestResult) (test : TestCase) (now start : float)
    (cb : callback_t) (test_info : _TestInfo) (w : world) :
  XMLTestResult.callback self = Some cb →
  XMLTestResult.infos self !! cb_test_info cb = Some test_info →
  XMLTestResult.start_time self = Some start →
  ∃ w',
    stopTest self test now w
    = (Ok (XMLTestResult.mk
             (XMLTestResult.stream self) (XMLTestResult.descriptions self)
             (XMLTestResult.showAll self) (XMLTestResult.dots self)
             (XMLTestResult.failures self) (XMLTestResult.errors self)
             (XMLTestResult.skipped self) (XMLTestResult.expectedFailures self)
             (XMLTestResult.unexpectedSuccesses self) (XMLTestResult.testsRun self)
             (XMLTestResult.successes self) None
             (XMLTestResult.elapsed_times self) (XMLTestResult.per_test_output self)
             (XMLTestResult.encoding self)
             (S (XMLTestResult.test_index self))
             (Some (if XMLTestResult.elapsed_times self then start else 0%float))
             (Some (if XMLTestResult.elapsed_times self then now else 0%float))
             (<[cb_test_info cb :=
                  TestInfo.finished (XMLTestResult.test_index self) (now - start)%float
                    test_info]> (XMLTestResult.infos self))),
       w')
    ∧ sys_stdout w' = sys_stdout w ∧ sys_stderr w' = sys_stderr w.
Proof.
  intros Hcb Hinfo Hstart.
  destruct self as [st de sa dt fa er sk ef us tr su cb0 el pt en ti s0 s1 inf].
  cbn in Hcb, Hinfo, Hstart. subst cb0 s0.
  unfold stopTest, call_callback, test_finished, info_at.
  cbv [XMLTestResult.callback XMLTestResult.set_stop_time XMLTestResult.infos
       XMLTestResult.stop_time XMLTestResult.start_time XMLTestResult.test_index
       XMLTestResult.set_infos XMLTestResult.set_start_time XMLTestResult.set_callback
       XMLTestResult.set_test_index XMLTestResult.elapsed_times XMLTestResult.showAll
       XMLTestResult.dots XMLTestResult.stream XMLTestResult.descriptions
       XMLTestResult.failures XMLTestResult.errors XMLTestResult.skipped
       XMLTestResult.expectedFailures XMLTestResult.unexpectedSuccesses
       XMLTestResult.testsRun XMLTestResult.successes XMLTestResult.per_test_output
       XMLTestResult.encoding mbind M_bind result_bind lift mret M_ret].
  rewrite Hinfo.
  assert (Hlen : cb_test_info cb < length inf) by (by eapply lookup_lt_Some).
  destruct el, sa, dt; cbn;
    rewrite ?list_lookup_insert_eq by done; cbn;
    repeat match goal with
      | |- context [writeln ?h ?t ?w0] =>
          destruct (writeln_keeps h t w0) as (? & -> & ? & ?)
      | |- context [write ?h ?t ?w0] =>
          destruct (write_keeps h t w0) as (? & -> & ? & ?)
      end;
    (eexists; split; [reflexivity|]; split; (reflexivity || congruence)).
Qed.

Lemma insert_at_end {A} (l : list A) (x y : A) :
  <[length l := y]> (l ++ [x]) = l ++ [y].
Proof.
  rewrite insert_app_r_alt by done. by rewrite Nat.sub_diag.
Qed.

Lemma lookup_at_end {A} (l : list A) (x : A) : (l ++ [x]) !! length l = Some x.
Proof. by apply list_lookup_middle. Qed.

(** A test's lifecycle, run on a result and a world (with the standard
    channels patched when per-test capture is on): it does not raise, the
    result becomes [after_test], the channels and the file system stay,
    and with per-test capture on both capture buffers end empty. *)
Lemma lifecycle_runs (self : _XMLTestResult) (e : executed_test) (w : world) :
  (XMLTestResult.per_test_output self = true → patched w) →
  ∃ w',
    foldM do_call (lifecycle e) self w
    = (Ok (after_test self e (captured_of (sys_stdout w)) (captured_of (sys_stderr w))), w')
    ∧ undisturbed w w'
    ∧ (XMLTestResult.per_test_output self = true →
       captured_of (sys_stdout w') = [] ∧ captured_of (sys_stderr w') = []).
Proof.
  intros Hp.
  destruct (preserves_run undisturbed (foldM do_call (lifecycle e) self) w)
    as (r & w' & Hrun & Hund).
  { apply preserves_foldM; tc. intros; apply do_call_undisturbed. }
  exists w'. rewrite Hrun. revert Hrun.
  destruct e as [test started stopped out err o].
  unfold lifecycle. cbn [foldM do_call et_test et_started et_stopped et_stdout
                         et_stderr et_outcome].
  destruct (startTest_runs self test started w) as (w1 & H1 & Ho1 & He1).
  rewrite (bind_run _ _ _ _ _ H1).
  destruct (write_stdout_runs out w1) as (w2 & H2 & He2 & Hk2 & Hc2).
  rewrite (bind_run _ _ w1 w2 _ (bind_run _ _ _ _ _ H2)).
  destruct (write_stderr_runs err w2) as (w3 & H3 & Ho3 & Hk3 & Hc3).
  rewrite (bind_run _ _ w2 w3 _ (bind_run _ _ _ _ _ H3)).
  set (self1 := XMLTestResult.set_testsRun _ _).
  assert (Hp3 : XMLTestResult.per_test_output self1 = true → patched w3).
  { intros Ht. destruct (Hp Ht) as [P1 P2]. split.
    - by rewrite Ho3, Hk2, Ho1.
    - by rewrite Hk3, He2, He1. }
  destruct (outcome_call_runs self1 test o w3 Hp3) as (w4 & H4 & Hw4).
  rewrite (bind_run _ _ _ _ _ H4).
  destruct (stopTest_runs (after_outcome_call self1 test o w3) test stopped started
              (pending (length (XMLTestResult.infos self)) o)
              (created self1 test o w3) w4) as (w5 & H5 & Ho5 & He5).
  { reflexivity. }
  { destruct o; apply lookup_at_end. }
  { reflexivity. }
  rewrite (bind_run _ _ _ _ _ H5). cbn [mret M_ret].
  intros [= <- <-].
  split; [|split; [done|]].
  - f_equal. f_equal.
    destruct self as [st de sa dt fa er sk ef us tr su cb el pt en ti s0 s1 inf].
    unfold after_test, after_outcome_call, recorded, created, self1.
    cbn [XMLTestResult.set_testsRun XMLTestResult.set_start_time
         XMLTestResult.per_test_output XMLTestResult.infos XMLTestResult.stream
         XMLTestResult.descriptions XMLTestResult.showAll XMLTestResult.dots
         XMLTestResult.failures XMLTestResult.errors XMLTestResult.skipped
         XMLTestResult.expectedFailures XMLTestResult.unexpectedSuccesses
         XMLTestResult.testsRun XMLTestResult.successes XMLTestResult.elapsed_times
         XMLTestResult.encoding XMLTestResult.test_index XMLTestResult.start_time
         XMLTestResult.stop_time et_test et_started et_stopped et_stdout et_stderr
         et_outcome].
    cbn in Hp.
    assert (Hout : (if pt then Some (captured_of (sys_stdout w3)) else None)
                   = (if pt then Some (captured_of (sys_stdout w) ++ out) else None)).
    { destruct pt; [|done]. destruct Hp as [P1 P2]; [done|].
      rewrite Ho3, Hc2, Ho1, P1. done. }
    assert (Herr : (if pt then Some (captured_of (sys_stderr w3)) else None)
                   = (if pt then Some (captured_of (sys_stderr w) ++ err) else None)).
    { destruct pt; [|done]. destruct Hp as [P1 P2]; [done|].
      rewrite Hc3, He2, He1, P2. done. }
    rewrite Hout, Herr.
    destruct o; cbn [pending cb_test_info]; rewrite insert_at_end; reflexivity.
  - intros Ht. subst self1.
    replace (XMLTestResult.per_test_output
               (XMLTestResult.set_testsRun (S (XMLTestResult.testsRun self))
                  (XMLTestResult.set_start_time (Some started) self)))
      with true in Hw4 by (by destruct self).
    destruct Hw4 as (_ & C1 & C2). by rewrite Ho5, He5.
Qed.

(** ** A whole run of tests *)

Lemma foldM_app {A B} (f : B → A → M B) (xs ys : list A) (acc : B) (w : world) :
  foldM f (xs ++ ys) acc w = (foldM f xs acc ≫= foldM f ys) w.
Proof.
  revert acc w. induction xs as [|x xs IH]; intros acc w; [done|].
  cbn [foldM app]. unfold mbind, M_bind in *.
  destruct (f acc x w) as [[b|err] w1]; [apply IH|done].
Qed.

Lemma after_test_ready (self : _XMLTestResult) (e : executed_test) (w : world) :
  ready self w →
  after_test self e (captured_of (sys_stdout w)) (captured_of (sys_stderr w))
  = after_test self e [] [].
Proof.
  intros Hr. unfold after_test, recorded.
  destruct (XMLTestResult.per_test_output self) eqn:E; [|done].
  destruct (Hr E) as (_ & -> & ->). done.
Qed.

Lemma after_test_settings (self : _XMLTestResult) (e : executed_test) (co ce : list N) :
  settings (after_test self e co ce) = settings self.
Proof. reflexivity. Qed.

Lemma collected_settings (self : _XMLTestResult) (tests : list executed_test) :
  settings (collected self tests) = settings self.
Proof.
  revert self. induction tests as [|e tests IH]; intros self; [done|].
  cbn [collected fold_left]. fold (collected (after_test self e [] []) tests).
  by rewrite IH.
Qed.

Lemma settings_per_test_output (self self' : _XMLTestResult) :
  settings self' = settings self →
  XMLTestResult.per_test_output self' = XMLTestResult.per_test_output self.
Proof. unfold settings. by intros [= _ _ _ _ _ ? _]. Qed.

(** The lifecycles of a list of tests, run one after the other: no call
    raises, and the result is [collected]. *)
Lemma lifecycles_run (self : _XMLTestResult) (tests : list executed_test) (w : world) :
  ready self w →
  ∃ w',
    foldM do_call (lifecycles tests) self w = (Ok (collected self tests), w')
    ∧ undisturbed w w'
    ∧ ready (collected self tests) w'.
Proof.
  revert self w. induction tests as [|e tests IH]; intros self w Hr.
  - exists w. split; [done|]. split; [reflexivity|done].
  - unfold lifecycles. cbn [map concat]. rewrite foldM_app.
    destruct (lifecycle_runs self e w) as (w1 & H1 & Hu1 & Hc1).
    { intros Ht. by destruct (Hr Ht). }
    rewrite (bind_run _ _ _ _ _ H1), after_test_ready by done.
    destruct (IH (after_test self e [] []) w1) as (w2 & H2 & Hu2 & Hr2).
    { intros Ht. change (XMLTestResult.per_test_output self = true) in Ht.
      destruct (Hr Ht) as (P & _ & _). destruct (Hc1 Ht).
      split; [by eapply undisturbed_patched|done]. }
    exists w2. split; [exact H2|]. split; [by etransitivity|exact Hr2].
Qed.

Lemma recorded_after_test (self : _XMLTestResult) (e e' : executed_test) (co ce : list N)
    (k : nat) :
  nth_record (after_test self e co ce) k e' = nth_record self (S k) e'.
Proof.
  unfold nth_record, recorded, after_test. cbn. by rewrite Nat.add_succ_r.
Qed.

Lemma recorded_nth_record (self : _XMLTestResult) (e : executed_test) :
  recorded self e [] [] = nth_record self 0 e.
Proof. unfold nth_record, recorded. cbn. by rewrite Nat.add_0_r. Qed.

Lemma collected_infos (self : _XMLTestResult) (tests : list executed_test) :
  XMLTestResult.infos (collected self tests)
  = XMLTestResult.infos self ++ imap (nth_record self) tests.
Proof.
  revert self. induction tests as [|e tests IH]; intros self.
  - cbn. by rewrite app_nil_r.
  - cbn [collected fold_left]. fold (collected (after_test self e [] []) tests).
    rewrite IH. cbn [after_test XMLTestResult.infos imap].
    rewrite <- app_assoc. cbn [app]. f_equal. f_equal; [apply recorded_nth_record|].
    apply imap_ext. intros k e' _. apply recorded_after_test.
Qed.

Lemma collected_test_index (self : _XMLTestResult) (tests : list executed_test) :
  XMLTestResult.test_index (collected self tests)
  = XMLTestResult.test_index self + length tests.
Proof.
  revert self. induction tests as [|e tests IH]; intros self.
  - cbn. lia.
  - cbn [collected fold_left]. fold (collected (after_test self e [] []) tests).
    rewrite IH. cbn. lia.
Qed.

Lemma collected_testsRun (self : _XMLTestResult) (tests : list executed_test) :
  XMLTestResult.testsRun (collected self tests)
  = XMLTestResult.testsRun self + length tests.
Proof.
  revert self. induction tests as [|e tests IH]; intros self.
  - cbn. lia.
  - cbn [collected fold_left]. fold (collected (after_test self e [] []) tests).
    rewrite IH. cbn. lia.
Qed.

Lemma after_test_entries (self : _XMLTestResult) (e : executed_test) (co ce : list N) :
  Permutation (all_entries (after_test self e co ce))
    (all_entries self ++ [entry_of (length (XMLTestResult.infos self)) (et_outcome e)]).
Proof.
  unfold all_entries, after_test.
  cbn [XMLTestResult.successes XMLTestResult.failures XMLTestResult.errors
       XMLTestResult.skipped].
  destruct (et_outcome e); cbn [entry_of]; rewrite ?app_nil_r; solve_Permutation.
Qed.

Lemma collected_entries (self : _XMLTestResult) (tests : list executed_test) :
  Permutation (map entry_info (all_entries (collected self tests)))
    (map entry_info (all_entries self)
       ++ seq (length (XMLTestResult.infos self)) (length tests)).
Proof.
  revert self. induction tests as [|e tests IH]; intros self.
  - cbn. by rewrite app_nil_r.
  - cbn [collected fold_left]. fold (collected (after_test self e [] []) tests).
    rewrite IH, after_test_entries, map_app, <- app_assoc.
    apply Permutation_app_head.
    cbn [after_test XMLTestResult.infos length seq map app].
    rewrite length_app. cbn [length]. rewrite Nat.add_1_r.
    by destruct (et_outcome e).
Qed.

Lemma collected_failures (self : _XMLTestResult) (tests : list executed_test) :
  XMLTestResult.failures (collected self tests) = XMLTestResult.failures self.
Proof.
  revert self. induction tests as [|e tests IH]; intros self; [done|].
  cbn [collected fold_left]. fold (collected (after_test self e [] []) tests).
  by rewrite IH.
Qed.

Lemma collected_errors_pairs (self : _XMLTestResult) (tests : list executed_test) :
  Forall is_Pair (XMLTestResult.errors self) →
  Forall is_Pair (XMLTestResult.errors (collected self tests)).
Proof.
  revert self. induction tests as [|e tests IH]; intros self Hs; [done|].
  cbn [collected fold_left]. fold (collected (after_test self e [] []) tests).
  apply IH. cbn [after_test XMLTestResult.errors]. apply Forall_app. split; [done|].
  destruct (et_outcome e); repeat constructor.
Qed.

Lemma nth_record_consistent (self : _XMLTestResult) (k : nat) (e : executed_test) :
  consistent (nth_record self k e).
Proof.
  unfold consistent, nth_record, recorded. cbn [TestInfo.outcome TestInfo.err].
  destruct (et_outcome e); cbn; eauto.
Qed.

Lemma nth_record_index (self : _XMLTestResult) (k : nat) (e : executed_test) :
  TestInfo.test_index (nth_record self k e) = XMLTestResult.test_index self + k.
Proof. reflexivity. Qed.

Lemma map_imap_index (self : _XMLTestResult) (tests : list executed_test) :
  map TestInfo.test_index (imap (nth_record self) tests)
  = seq (XMLTestResult.test_index self) (length tests).
Proof.
  assert (H : ∀ (l : list executed_test) (f : nat → executed_test → _TestInfo) (a : nat),
             (∀ k e, TestInfo.test_index (f k e) = a + k) →
             map TestInfo.test_index (imap f l) = seq a (length l)).
  { induction l as [|x l IH]; intros f a Hf; [done|].
    cbn [imap length seq map]. rewrite Hf, Nat.add_0_r. f_equal.
    apply IH. intros k e. unfold compose. rewrite Hf. lia. }
  apply H. intros k e. reflexivity.
Qed.

Lemma map_imap_id (self : _XMLTestResult) (tests : list executed_test) :
  map TestInfo.test_id (imap (nth_record self) tests)
  = map (fun e => tc_id (et_test e)) tests.
Proof.
  assert (H : ∀ (l : list executed_test) (f : nat → executed_test → _TestInfo),
             (∀ k e, TestInfo.test_id (f k e) = tc_id (et_test e)) →
             map TestInfo.test_id (imap f l) = map (fun e => tc_id (et_test e)) l).
  { induction l as [|x l IH]; intros f Hf; [done|].
    cbn [imap map]. rewrite Hf. f_equal. apply IH. intros k e. apply Hf. }
  apply H. intros k e. reflexivity.
Qed.

Lemma entry_of_listed (self : _XMLTestResult) (test : TestCase) (o : test_outcome)
    (w : world) :
  In (entry_of (length (XMLTestResult.infos self)) o)
     (all_entries (after_outcome_call self test o w)).
Proof.
  unfold all_entries, after_outcome_call.
  cbn [XMLTestResult.successes XMLTestResult.failures XMLTestResult.errors
       XMLTestResult.skipped].
  rewrite !in_app_iff. destruct o; cbn; tauto.
Qed.

(** C3.  A run of [N] tests, each going through its lifecycle, from a fresh
    result: no call raises; the store then holds [N] records, one per test
    in the order the tests completed; the execution indices of these
    records, read in that order, are [0, 1, ..., N-1] (no gap, no
    duplicate, strictly increasing); and the records of the four lists are
    these [N] records, each listed once.  The index is assigned at the stop
    call: after the outcome call the new record is already in its list
    with the constructor's index [0] and the counter untouched; the stop
    call gives the record the counter's value and then advances the
    counter. *)
Theorem execution_indices :
  (∀ (stream : nat) (descriptions : bool) (verbosity : Z)
     (elapsed_times per_test_output : bool) (encoding : list N)
     (tests : list executed_test) (w : world),
     ready (XMLTestResult.__init__ stream descriptions verbosity elapsed_times
              per_test_output encoding) w →
     ∃ result w',
       foldM do_call (lifecycles tests)
         (XMLTestResult.__init__ stream descriptions verbosity elapsed_times
            per_test_output encoding) w
       = (Ok result, w')
       ∧ map TestInfo.test_id (XMLTestResult.infos result)
         = map (fun e => tc_id (et_test e)) tests
       ∧ map TestInfo.test_index (XMLTestResult.infos result) = seq 0 (length tests)
       ∧ Permutation (map entry_info (all_entries result)) (seq 0 (length tests))
       ∧ XMLTestResult.test_index result = length tests)
  ∧ (∀ (self : _XMLTestResult) (test : TestCase) (o : test_outcome) (now start : float)
       (w : world),
       (XMLTestResult.per_test_output self = true → patched w) →
       XMLTestResult.start_time self = Some start →
       ∃ pending_result w1 created_info stopped_result w2 finished_info,
         do_call self (outcome_call test o) w = (Ok pending_result, w1)
         ∧ XMLTestResult.infos pending_result = XMLTestResult.infos self ++ [created_info]
         ∧ In (entry_of (length (XMLTestResult.infos self)) o) (all_entries pending_result)
         ∧ TestInfo.test_index created_info = 0
         ∧ XMLTestResult.test_index pending_result = XMLTestResult.test_index self
         ∧ do_call pending_result (call_stopTest test now) w1 = (Ok stopped_result, w2)
         ∧ XMLTestResult.infos stopped_result = XMLTestResult.infos self ++ [finished_info]
         ∧ all_entries stopped_result = all_entries pending_result
         ∧ TestInfo.test_index finished_info = XMLTestResult.test_index self
         ∧ XMLTestResult.test_index stopped_result = S (XMLTestResult.test_index self)).
Proof.
  split.
  - intros stream descriptions verbosity elapsed_times per_test_output encoding tests w Hr.
    destruct (lifecycles_run _ tests w Hr) as (w' & Hrun & _ & _).
    eexists _, w'. split; [exact Hrun|].
    rewrite collected_infos, collected_test_index.
    cbn [XMLTestResult.__init__ XMLTestResult.infos XMLTestResult.test_index app].
    split; [apply map_imap_id|]. split; [apply map_imap_index|].
    split; [|done]. rewrite collected_entries. done.
  - intros self test o now start w Hp Hstart.
    destruct (outcome_call_runs self test o w Hp) as (w1 & H1 & _).
    destruct (stopTest_runs (after_outcome_call self test o w) test now start
                (pending (length (XMLTestResult.infos self)) o)
                (created self test o w) w1) as (w2 & H2 & _).
    { reflexivity. }
    { destruct o; apply lookup_at_end. }
    { exact Hstart. }
    eexists _, w1, (created self test o w), _, w2, _.
    split; [exact H1|]. split; [reflexivity|]. split; [apply entry_of_listed|].
    split; [reflexivity|]. split; [reflexivity|].
    split; [exact H2|].
    cbn [XMLTestResult.infos after_outcome_call].
    split; [|split; [reflexivity|split; [|reflexivity]]].
    + destruct o; cbn [pending cb_test_info]; apply insert_at_end.
    + reflexivity.
Qed.

(** ** Documents *)

Lemma report_testsuite_element (suite_name outsuffix : list N) (tests : list _TestInfo) :
  _report_testsuite suite_name outsuffix tests
  = Ok (Element (u "testsuite")
          [(u "name", suite_name ++ u "-" ++ outsuffix);
           (u "tests", str_of_nat (length tests));
           (u "time", format_3f (sum_floats (map TestInfo.elapsed_time tests)));
           (u "failures",
            str_of_nat (length (List.filter
                                  (fun e => bool_decide (TestInfo.outcome e = FAILURE))
                                  tests)));
           (u "errors",
            str_of_nat (length (List.filter
                                  (fun e => bool_decide (TestInfo.outcome e = ERROR))
                                  tests)))]
          []).
Proof. reflexivity. Qed.

Lemma report_testcases (suite : list N) (tests : list _TestInfo) (tag : list N)
    (attrs : list (list N * list N)) (entries : list node) (encoding : list N) :
  Forall consistent tests →
  foldR (fun testsuite test => _report_testcase suite test testsuite encoding) tests
    (Element tag attrs entries)
  = Ok (Element tag attrs (entries ++ map (testcase_element suite) tests)).
Proof.
  intros Hc. revert entries. induction Hc as [|t tests Ht _ IH]; intros entries.
  - cbn. by rewrite app_nil_r.
  - cbn [foldR]. rewrite (report_testcase_entry _ _ _ _ _ _ Ht).
    cbn [mbind result_bind]. rewrite IH. cbn [map]. by rewrite <- app_assoc.
Qed.

Lemma report_output_blocks (self : _XMLTestResult) (tag : list N)
    (attrs : list (list N * list N)) (entries : list node) (encoding : list N) (w : world) :
  patched w →
  XMLTestResult.per_test_output self = false →
  _report_output (Element tag attrs entries) encoding w
  = (Ok (Element tag attrs
           (entries ++ aggregate_blocks self (captured_of (sys_stdout w))
                         (captured_of (sys_stderr w)))), w).
Proof.
  intros [P1 P2] Hpt. unfold aggregate_blocks. rewrite Hpt.
  destruct w as [so se co si cw fd ff]. cbn in P1, P2.
  destruct so as [|c1 d1]; [done|]. destruct se as [|c2 d2]; [done|].
  unfold _report_output, sys_stdout_getvalue, sys_stderr_getvalue.
  cbv [mbind M_bind lift getvalue sys_stdout sys_stderr xml_safe_unicode result_bind
       minidom.appendChild minidom.createElement minidom.createCDATASection
       captured_of].
  by rewrite <- app_assoc.
Qed.

Lemma bind_lift {A B} (r : result A) (f : A → M B) (w : world) :
  (lift r ≫= f) w = match r with Ok a => f a w | Raise e => (Raise e, w) end.
Proof. by destruct r. Qed.

Lemma bind_ret {A B} (a : A) (f : A → M B) (w : world) :
  ((mret a : M A) ≫= f) w = f a w.
Proof. reflexivity. Qed.

(** What [_add_xml_report] does: it builds the suite's element, attaches
    it at the given place and serializes the document; the world stays. *)
Lemma add_xml_report_runs (self : _XMLTestResult) (test_runner : XMLTestRunner)
    (suite : list N) (tests : list _TestInfo) (node_ : list nat) (doc : node) (w : world) :
  Forall consistent tests →
  (XMLTestResult.per_test_output self = false → patched w) →
  _add_xml_report self test_runner suite tests node_ doc w
  = (doc' ← minidom.appendChild_at node_
              (testsuite_element self (XMLTestRunner.outsuffix test_runner) suite tests
                 (captured_of (sys_stdout w)) (captured_of (sys_stderr w)))
              doc;
     xml_content ← toprettyxml doc' (XMLTestResult.encoding self);
     Ok (xml_content, doc'),
     w).
Proof.
  intros Hc Hp. unfold _add_xml_report, testsuite_element.
  rewrite bind_lift, report_testsuite_element.
  rewrite bind_lift, report_testcases by done. cbn [app].
  unfold aggregate_blocks.
  destruct (XMLTestResult.per_test_output self) eqn:Hpt.
  - rewrite bind_ret, app_nil_r.
    rewrite bind_lift.
    destruct (minidom.appendChild_at _ _ _) as [doc'|e]; [|done].
    cbn [mbind result_bind]. rewrite bind_lift.
    destruct (toprettyxml _ _); done.
  - rewrite (bind_run _ _ w w _ (report_output_blocks self _ _ _ _ w (Hp eq_refl) Hpt)).
    unfold aggregate_blocks. rewrite Hpt.
    rewrite bind_lift.
    destruct (minidom.appendChild_at _ _ _) as [doc'|e]; [|done].
    cbn [mbind result_bind]. rewrite bind_lift.
    destruct (toprettyxml _ _); done.
Qed.

(** ** Writing the reports *)

Lemma open_write (filename : list N) (content : list Byte.byte) (w : world) :
  (open_wb filename ≫= fun _ => file_write filename content) w
  = (Ok tt, set_fs_files (<[filename := content]> (fs_files w)) w).
Proof.
  destruct w as [so se co si cw fd ff].
  cbv [open_wb file_write modify mbind M_bind set_fs_files fs_files sys_stdout sys_stderr
       console sink cwd fs_dirs].
  rewrite lookup_insert_eq, insert_insert_eq. reflexivity.
Qed.

Lemma bind_run_raw {A B} (m : M A) (f : A → M B) (w : world) :
  (m ≫= f) w = match m w with
               | (Ok a, w1) => f a w1
               | (Raise e, w1) => (Raise e, w1)
               end.
Proof. reflexivity. Qed.

(** A loop whose body writes one file per item, or raises without writing. *)
Lemma forM_writes {A} (f : A → M unit) (name : A → list N)
    (content : A → result (list Byte.byte)) (so se : stream) (items : list A) (w : world) :
  sys_stdout w = so → sys_stderr w = se →
  (∀ a w0, In a items → sys_stdout w0 = so → sys_stderr w0 = se →
     f a w0 = match content a with
              | Ok c => (Ok tt, set_fs_files (<[name a := c]> (fs_files w0)) w0)
              | Raise e => (Raise e, w0)
              end) →
  match mapR content items with
  | Ok contents =>
      forM_ f items w
      = (Ok tt, set_fs_files (write_files (zip (map name items) contents) (fs_files w)) w)
  | Raise e => ∃ w', forM_ f items w = (Raise e, w')
  end.
Proof.
  intros Hso Hse Hf. revert w Hso Hse.
  induction items as [|a items IH]; intros w Hso Hse.
  - cbn. by destruct w.
  - cbn [mapR forM_]. rewrite (bind_run_raw _ _ w).
    rewrite (Hf a w) by (done || by left).
    destruct (content a) as [c|e]; cbn [mbind result_bind]; [|eauto].
    specialize (IH (fun a' w0 Ha => Hf a' w0 (or_intror Ha))
                  (set_fs_files (<[name a := c]> (fs_files w)) w)).
    destruct (mapR content items) as [cs|e]; cbn [mbind result_bind].
    + rewrite IH by (by destruct w). cbn [map zip zip_with write_files fold_left].
      by destruct w.
    + apply IH; by destruct w.
Qed.

Lemma ensure_directory {A} (p : list N) (k : unit → M A) (w : world) :
  (os_path_exists p ≫= fun exists_ => unless exists_ (os_makedirs p) ≫= k) w
  = k tt (with_directory p w).
Proof.
  unfold with_directory, path_exists, os_path_exists, os_makedirs, gets, modify, unless,
    mbind, M_bind.
  by destruct (bool_decide (p ∈ fs_dirs w) || bool_decide (is_Some (fs_files w !! p))).
Qed.

Lemma with_directory_channels (p : list N) (w : world) :
  sys_stdout (with_directory p w) = sys_stdout w
  ∧ sys_stderr (with_directory p w) = sys_stderr w
  ∧ fs_files (with_directory p w) = fs_files w
  ∧ cwd (with_directory p w) = cwd w.
Proof. unfold with_directory. by destruct (path_exists p w). Qed.

(** Directory mode: the directory is made if absent and each suite's
    document is written to its file, in the order of the mapping; if a
    document cannot be serialized, that exception escapes. *)
Lemma generate_reports_directory (self : _XMLTestResult) (test_runner : XMLTestRunner)
    (output : list N) (groups : list (list N * list _TestInfo)) (w : world) :
  XMLTestRunner.output test_runner = output_str output →
  endswith (lower output) dot_xml = false →
  _get_info_by_testcase self (XMLTestRunner.outsuffix test_runner) = Ok groups →
  Forall (fun item => Forall consistent (snd item)) groups →
  (XMLTestResult.per_test_output self = false → patched w) →
  match mapR (fun item =>
                toprettyxml
                  (standalone_document self (XMLTestRunner.outsuffix test_runner)
                     (captured_of (sys_stdout w)) (captured_of (sys_stderr w)) item)
                  (XMLTestResult.encoding self))
          groups with
  | Ok contents =>
      generate_reports self test_runner w
      = (Ok tt,
         set_fs_files
           (write_files
              (zip (map (fun item => directory_filename output (fst item)
                                       (XMLTestRunner.outsuffix test_runner)) groups)
                 contents)
              (fs_files w))
           (with_directory output w))
  | Raise e => ∃ w', generate_reports self test_runner w = (Raise e, w')
  end.
Proof.
  intros Hout Hext Hgroups Hcons Hp.
  unfold generate_reports. rewrite bind_lift, Hgroups, Hout, Hext. cbn [negb].
  rewrite ensure_directory.
  destruct (with_directory_channels output w) as (Ho & He & Hf & _).
  match goal with
  | |- context [forM_ ?f groups (with_directory output w)] =>
      pose proof (forM_writes f
        (fun item => directory_filename output (fst item)
                       (XMLTestRunner.outsuffix test_runner))
        (fun item =>
           toprettyxml
             (standalone_document self (XMLTestRunner.outsuffix test_runner)
                (captured_of (sys_stdout w)) (captured_of (sys_stderr w)) item)
             (XMLTestResult.encoding self))
        (sys_stdout w) (sys_stderr w) groups (with_directory output w) Ho He) as Hloop
  end.
  rewrite Hf in Hloop. apply Hloop. clear Hloop.
  intros [suite tests] w0 Hin Ho0 He0.
  rewrite List.Forall_forall in Hcons. specialize (Hcons _ Hin). cbn [snd fst] in *.
  rewrite bind_run_raw, add_xml_report_runs; [|done|].
  2:{ intros Hpt. destruct (Hp Hpt) as [P1 P2]. split; by rewrite ?Ho0, ?He0. }
  rewrite Ho0, He0. unfold standalone_document. cbn [fst snd].
  change (minidom.appendChild_at [] ?c (Document [])) with (Ok (Document [c]) : result node).
  cbn [mbind result_bind].
  destruct (toprettyxml _ _) as [xml|e] eqn:Hxml; cbn [mbind result_bind]; [|done].
  rewrite bind_lift, Hxml. apply open_write.
Qed.

Lemma combined_document_snoc (self : _XMLTestResult) (outsuffix co ce : list N)
    (done_ : list (list N * list _TestInfo)) (suite : list N) (tests : list _TestInfo) :
  minidom.appendChild_at [0] (testsuite_element self outsuffix suite tests co ce)
    (combined_document self outsuffix co ce done_)
  = Ok (combined_document self outsuffix co ce (done_ ++ [(suite, tests)])).
Proof. unfold combined_document. rewrite map_app. reflexivity. Qed.

Lemma mapR_seq_shift {B} (f g : nat → result B) (a n : nat) :
  (∀ k, f k = g (S k)) → mapR f (seq a n) = mapR g (seq (S a) n).
Proof.
  intros Hfg. revert a. induction n as [|n IH]; intros a; [done|].
  cbn [seq mapR]. by rewrite Hfg, IH.
Qed.

Lemma combined_loop (self : _XMLTestResult) (test_runner : XMLTestRunner)
    (done_ rest : list (list N * list _TestInfo)) (w : world) :
  Forall (fun item => Forall consistent (snd item)) rest →
  (XMLTestResult.per_test_output self = false → patched w) →
  foldM (fun doc (item : list N * list _TestInfo) =>
           let '(suite, tests) := item in
           '(_, doc) ← _add_xml_report self test_runner suite tests [0] doc;
           mret doc)
        rest
        (combined_document self (XMLTestRunner.outsuffix test_runner)
           (captured_of (sys_stdout w)) (captured_of (sys_stderr w)) done_)
        w
  = (mapR (fun k =>
             toprettyxml
               (combined_document self (XMLTestRunner.outsuffix test_runner)
                  (captured_of (sys_stdout w)) (captured_of (sys_stderr w))
                  (done_ ++ take k rest))
               (XMLTestResult.encoding self))
          (seq 1 (length rest));;
     Ok (combined_document self (XMLTestRunner.outsuffix test_runner)
           (captured_of (sys_stdout w)) (captured_of (sys_stderr w)) (done_ ++ rest)),
     w).
Proof.
  intros Hc Hp. revert done_. induction Hc as [|[suite tests] rest Hitem _ IH]; intros done_.
  - cbn. by rewrite app_nil_r.
  - cbn [foldM length seq mapR]. rewrite bind_run_raw, bind_run_raw.
    rewrite add_xml_report_runs by done.
    rewrite combined_document_snoc. cbn [mbind result_bind].
    cbn [take]. 
    destruct (toprettyxml _ _) as [xml|e]; cbn [mbind result_bind mret M_ret]; [|done].
    rewrite IH. 
    assert (Hseq : mapR (fun k =>
                     toprettyxml
                       (combined_document self (XMLTestRunner.outsuffix test_runner)
                          (captured_of (sys_stdout w)) (captured_of (sys_stderr w))
                          ((done_ ++ [(suite, tests)]) ++ take k rest))
                       (XMLTestResult.encoding self)) (seq 1 (length rest))
                   = mapR (fun k =>
                     toprettyxml
                       (combined_document self (XMLTestRunner.outsuffix test_runner)
                          (captured_of (sys_stdout w)) (captured_of (sys_stderr w))
                          (done_ ++ take k ((suite, tests) :: rest)))
                       (XMLTestResult.encoding self)) (seq 2 (length rest))).
    { apply mapR_seq_shift. intros k. by rewrite <- app_assoc. }
    rewrite Hseq, <- app_assoc. cbn [app].
    by destruct (mapR _ (seq 2 (length rest))).
Qed.

(** Single-file mode: the parent directory is made if absent, the file is
    opened, and the combined document (a [testsuites] element holding one
    [testsuite] element per suite, in the order of the mapping) is written
    to it; if a serialization fails, that exception escapes and the file
    stays empty. *)
Lemma generate_reports_single_file (self : _XMLTestResult) (test_runner : XMLTestRunner)
    (output : list N) (groups : list (list N * list _TestInfo)) (w : world) :
  XMLTestRunner.output test_runner = output_str output →
  endswith (lower output) dot_xml = true →
  _get_info_by_testcase self (XMLTestRunner.outsuffix test_runner) = Ok groups →
  Forall (fun item => Forall consistent (snd item)) groups →
  (XMLTestResult.per_test_output self = false → patched w) →
  generate_reports self test_runner w
  = match combined_serializations
            (fun doc => toprettyxml doc (XMLTestResult.encoding self))
            self (XMLTestRunner.outsuffix test_runner)
            (captured_of (sys_stdout w)) (captured_of (sys_stderr w)) groups with
    | Ok xml_content =>
        (Ok tt,
         set_fs_files
           (<[single_filename output (XMLTestRunner.outsuffix test_runner) w := xml_content]>
              (fs_files w))
           (with_directory (fst (posixpath.split (posixpath.abspath (cwd w) output))) w))
    | Raise e =>
        (Raise e,
         set_fs_files
           (<[single_filename output (XMLTestRunner.outsuffix test_runner) w := []]>
              (fs_files w))
           (with_directory (fst (posixpath.split (posixpath.abspath (cwd w) output))) w))
    end.
Proof.
  intros Hout Hext Hgroups Hcons Hp.
  unfold generate_reports, single_filename, combined_serializations.
  rewrite bind_lift, Hgroups, Hout, Hext. cbn [negb].
  rewrite bind_run_raw. cbn [gets].
  set (abs := posixpath.abspath (cwd w) output).
  destruct (posixpath.splitext abs) as [file ext].
  destruct (posixpath.split abs) as [dir base]. cbn [fst snd].
  rewrite ensure_directory.
  destruct (with_directory_channels dir w) as (Ho & He & Hf & _).
  set (w1 := with_directory dir w) in *.
  rewrite bind_lift.
  change (minidom.appendChild (Document []) (minidom.createElement (u "testsuites")))
    with (Ok (combined_document self (XMLTestRunner.outsuffix test_runner)
                (captured_of (sys_stdout w)) (captured_of (sys_stderr w)) [])).
  set (filename := if text_eqb (XMLTestRunner.outsuffix test_runner) [] then file ++ ext
                   else file ++ u "-" ++ XMLTestRunner.outsuffix test_runner ++ ext).
  cbv iota. rewrite bind_run_raw. unfold open_wb at 1, modify at 1.
  set (w2 := set_fs_files (<[filename := []]> (fs_files w1)) w1).
  assert (Ho2 : sys_stdout w2 = sys_stdout w) by (by destruct w1).
  assert (He2 : sys_stderr w2 = sys_stderr w) by (by destruct w1).
  rewrite bind_run_raw, <- Ho2, <- He2.
  rewrite (combined_loop self test_runner [] groups w2 Hcons).
  2:{ intros Hpt. destruct (Hp Hpt). split; by rewrite ?Ho2, ?He2. }
  cbn [app]. rewrite Ho2, He2.
  destruct (mapR _ (seq 1 (length groups))) as [xs|e]; cbn [mbind result_bind].
  - rewrite bind_lift.
    destruct (toprettyxml _ _) as [xml|e].
    + unfold file_write, modify, w2. rewrite <- Hf.
      destruct w1 as [so se co si cw fd ff].
      cbn [fs_files set_fs_files sys_stdout sys_stderr console sink cwd fs_dirs].
      by rewrite lookup_insert_eq, insert_insert_eq.
    + unfold w2. by rewrite Hf.
  - unfold w2. by rewrite Hf.
Qed.

(** ** The run as a whole *)

Lemma quiet_bind {A B} (m : M A) (f : A → M B) (a : A) (b : B) :
  quiet m a → quiet (f a) b → quiet (m ≫= f) b.
Proof.
  intros Hm Hf w. destruct (Hm w) as (w1 & H1 & U1). destruct (Hf w1) as (w2 & H2 & U2).
  exists w2. rewrite (bind_run _ _ _ _ _ H1). split; [done|by etransitivity].
Qed.

Lemma quiet_ret {A} (a : A) : quiet (mret a) a.
Proof. intros w. exists w. split; [done|reflexivity]. Qed.

Lemma quiet_write (h : nat) (t : list N) : quiet (write h t) tt.
Proof.
  intros w. eexists. split; [reflexivity|]. apply (write_undisturbed h t w).
Qed.

Lemma quiet_writeln (h : nat) (t : list N) : quiet (writeln h t) tt.
Proof.
  unfold writeln. eapply quiet_bind; [|apply quiet_write].
  destruct (text_eqb t []); [apply quiet_ret|apply quiet_write].
Qed.

Lemma quiet_forM_ {A} (f : A → M unit) (xs : list A) :
  Forall (fun x => quiet (f x) tt) xs → quiet (forM_ f xs) tt.
Proof.
  induction 1 as [|x xs Hx _ IH]; cbn [forM_]; [apply quiet_ret|].
  eapply quiet_bind; [exact Hx|exact IH].
Qed.

Lemma quiet_printErrorList (self : _XMLTestResult) (flavour : list N) (errors : list entry) :
  Forall (fun e => is_Pair e ∧ entry_info e < length (XMLTestResult.infos self)) errors →
  quiet (printErrorList self flavour errors) tt.
Proof.
  intros He. unfold printErrorList. apply quiet_forM_.
  eapply Forall_impl; [exact He|]. intros [i|i detail] [Hp Hi]; [done|].
  cbn in Hi. apply lookup_lt_is_Some_2 in Hi as [test_info Hti].
  unfold info_at. rewrite Hti.
  intros w. rewrite bind_lift.
  revert w. repeat (eapply quiet_bind; [apply quiet_writeln|]). apply quiet_writeln.
Qed.

Lemma quiet_printErrors (self : _XMLTestResult) :
  Forall (fun e => is_Pair e ∧ entry_info e < length (XMLTestResult.infos self))
    (XMLTestResult.errors self ++ XMLTestResult.failures self) →
  quiet (printErrors self) tt.
Proof.
  intros He. apply Forall_app in He as [He Hf]. unfold printErrors.
  eapply quiet_bind.
  { unfold unless. destruct (negb _); [apply quiet_ret|apply quiet_writeln]. }
  eapply quiet_bind; by apply quiet_printErrorList.
Qed.

Lemma collected_fresh (self : XMLTestRunner) (tests : list executed_test) :
  let result := collected (_make_result self) tests in
  XMLTestResult.infos result = imap (nth_record (_make_result self)) tests
  ∧ XMLTestResult.testsRun result = length tests
  ∧ XMLTestResult.encoding result = XMLTestRunner.encoding self
  ∧ XMLTestResult.per_test_output result = XMLTestRunner.per_test_output self
  ∧ XMLTestResult.stream result = XMLTestRunner.stream self
  ∧ Forall (fun e => entry_info e < length (XMLTestResult.infos result)) (all_entries result)
  ∧ Forall is_Pair (XMLTestResult.errors result ++ XMLTestResult.failures result).
Proof.
  intros result. subst result.
  pose proof (collected_settings (_make_result self) tests) as Hs.
  unfold settings in Hs. injection Hs as Hst _ _ _ _ Hpt Hen.
  split; [by rewrite collected_infos|].
  split; [by rewrite collected_testsRun|].
  split; [done|]. split; [done|]. split; [done|]. split.
  - rewrite collected_infos. cbn [_make_result XMLTestResult.__init__ XMLTestResult.infos app].
    rewrite length_imap.
    pose proof (collected_entries (_make_result self) tests) as Hperm.
    cbn in Hperm.
    apply List.Forall_forall. intros e He.
    assert (Hin : In (entry_info e) (seq 0 (length tests))).
    { eapply Permutation_in; [exact Hperm|]. by apply in_map. }
    apply in_seq in Hin. lia.
  - rewrite collected_failures. cbn [_make_result XMLTestResult.__init__
      XMLTestResult.failures]. rewrite app_nil_r.
    by apply collected_errors_pairs.
Qed.

Ltac step_quiet H :=
  match goal with
  | |- context [(?m ≫= ?f) ?w0] =>
      let w1 := fresh "w" in
      let E := fresh "E" in
      let U := fresh "U" in
      destruct (H w0) as (w1 & E & U);
      rewrite (bind_run m f w0 w1 _ E); clear E
  end.

(** The body of [run], for an engine that takes the tests through their
    lifecycles and returns: everything before report generation goes
    through without raising and without touching the file system, so the
    body comes down to generating the reports of the collected result, in
    a world whose channels are patched. *)
Lemma run_body_collects (self : XMLTestRunner) (tests : list executed_test)
    (start_time stop_time : float) (w : world) :
  ∃ w_g,
    run_body self {| calls := lifecycles tests; escapes := None |} start_time stop_time w
    = generate_reports (collected (_make_result self) tests) self w_g
    ∧ patched w_g
    ∧ same_files w w_g.
Proof.
  unfold run_body. rewrite patch_standard_output_bind. cbv zeta.
  set (w_p := set_sys_stderr _ _).
  assert (Hready : ready (_make_result self) w_p) by (by intros _).
  assert (Hfiles : same_files w w_p) by (by destruct w).
  destruct (writeln_keeps (XMLTestRunner.stream self) [] w_p) as (w1 & E1 & Ho1 & He1).
  pose proof (writeln_undisturbed (XMLTestRunner.stream self) [] w_p) as U1.
  rewrite E1 in U1. cbn [snd] in U1. rewrite (bind_run _ _ _ _ _ E1). clear E1.
  destruct (writeln_keeps (XMLTestRunner.stream self) (u "Running tests...") w1)
    as (w2 & E2 & Ho2 & He2).
  pose proof (writeln_undisturbed (XMLTestRunner.stream self) (u "Running tests...") w1) as U2.
  rewrite E2 in U2. cbn [snd] in U2. rewrite (bind_run _ _ _ _ _ E2). clear E2.
  destruct (writeln_keeps (XMLTestRunner.stream self) separator2 w2)
    as (w3 & E3 & Ho3 & He3).
  pose proof (writeln_undisturbed (XMLTestRunner.stream self) separator2 w2) as U3.
  rewrite E3 in U3. cbn [snd] in U3. rewrite (bind_run _ _ _ _ _ E3). clear E3.
  assert (Hready3 : ready (_make_result self) w3).
  { intros Ht. destruct (Hready Ht) as ([P1 P2] & C1 & C2).
    rewrite <- Ho1, <- Ho2, <- Ho3 in P1, C1. rewrite <- He1, <- He2, <- He3 in P2, C2.
    done. }
  destruct (lifecycles_run (_make_result self) tests w3 Hready3) as (w4 & E4 & U4 & _).
  assert (E4' : call_test {| calls := lifecycles tests; escapes := None |}
                  (_make_result self) w3
                = (Ok (collected (_make_result self) tests), w4)).
  { unfold call_test. cbn [calls escapes]. by rewrite (bind_run _ _ _ _ _ E4). }
  rewrite (bind_run _ _ _ _ _ E4'). clear E4 E4'.
  destruct (collected_fresh self tests) as (Hinfos & Hrun & Henc & Hpt & Hst & Hvalid & Hpairs).
  set (result := collected (_make_result self) tests) in *.
  assert (Hprint : Forall (fun e => is_Pair e
                                     ∧ entry_info e < length (XMLTestResult.infos result))
                     (XMLTestResult.errors result ++ XMLTestResult.failures result)).
  { apply List.Forall_forall. intros e He. split.
    - rewrite List.Forall_forall in Hpairs. by apply Hpairs.
    - rewrite List.Forall_forall in Hvalid. apply Hvalid. unfold all_entries.
      rewrite !in_app_iff in *. tauto. }
  step_quiet (quiet_printErrors result Hprint).
  step_quiet (quiet_writeln (XMLTestRunner.stream self) separator2).
  step_quiet (quiet_writeln (XMLTestRunner.stream self)
                (u "Ran " ++ str_of_nat (XMLTestResult.testsRun result) ++ u " test"
                   ++ (if XMLTestResult.testsRun result =? 1 then [] else u "s")
                   ++ u " in " ++ format_3f (stop_time - start_time) ++ u "s")).
  step_quiet (quiet_writeln (XMLTestRunner.stream self) []).
  step_quiet (quiet_write (XMLTestRunner.stream self)
                (if wasSuccessful result then u "OK" else u "FAILED")).
  lazymatch goal with
  | |- ex (fun _ => (?m ≫= ?f) ?w0 = _ ∧ _) =>
      assert (Hsummary : quiet m tt)
        by (destruct (summary_infos result); [apply quiet_write|apply quiet_writeln])
  end.
  step_quiet Hsummary.
  step_quiet (quiet_writeln (XMLTestRunner.stream self) []).
  step_quiet (quiet_writeln (XMLTestRunner.stream self) (u "Generating XML reports...")).
  exists w11. split; [reflexivity|].
  assert (Hall : undisturbed w_p w11).
  { repeat (etransitivity; [eassumption|]). reflexivity. }
  split.
  - eapply undisturbed_patched; [exact Hall|]. done.
  - etransitivity; [exact Hfiles|]. apply Hall.
Qed.

Lemma get_info_by_testcase_grouped (self : _XMLTestResult) (outsuffix : list N)
    (records : list _TestInfo) :
  Forall2 (fun e test_info => XMLTestResult.infos self !! entry_info e = Some test_info)
    (all_entries self) records →
  _get_info_by_testcase self outsuffix
  = Ok (grouped (sort_by_key (fun x : list N * _TestInfo => TestInfo.test_index (snd x))
                   (map named records))).
Proof.
  intros Hrecords. unfold _get_info_by_testcase. fold (all_entries self).
  rewrite (mapR_Forall2 _ _ (map named records)).
  - cbn. f_equal. apply group_fold.
  - clear -Hrecords.
    induction Hrecords as [|e ti es tis He _ IH]; cbn [map]; constructor; [|done].
    unfold info_at. rewrite He. done.
Qed.

(** Two lists sorted by a key, with the same elements and no key twice,
    are the same list. *)
Lemma sorted_by_key_unique {A} (key : A → nat) (l1 l2 : list A) :
  StronglySorted (fun a b => key a ≤ key b) l1 →
  StronglySorted (fun a b => key a ≤ key b) l2 →
  List.NoDup (map key l1) →
  Permutation l1 l2 →
  l1 = l2.
Proof.
  intros H1. revert l2. induction H1 as [|x l1 Hs1 IH Hx]; intros l2 H2 Hnd Hperm.
  - by apply Permutation_nil in Hperm.
  - destruct H2 as [|y l2 Hs2 Hy].
    { symmetry in Hperm. by apply Permutation_nil in Hperm. }
    assert (Hxy : x = y).
    { assert (Hyin : In y (x :: l1)).
      { eapply Permutation_in; [symmetry; exact Hperm|by left]. }
      assert (Hxin : In x (y :: l2)).
      { eapply Permutation_in; [exact Hperm|by left]. }
      destruct Hyin as [->|Hyin]; [done|].
      destruct Hxin as [->|Hxin]; [done|].
      rewrite List.Forall_forall in Hx, Hy.
      pose proof (Hx _ Hyin). pose proof (Hy _ Hxin).
      assert (Hk : key x = key y) by lia.
      cbn [map] in Hnd. apply List.NoDup_cons_iff in Hnd as [Hnotin _].
      exfalso. apply Hnotin. rewrite Hk. by apply in_map. }
    subst y. f_equal. apply IH; [done| |by eapply Permutation_cons_inv].
    cbn [map] in Hnd. by apply List.NoDup_cons_iff in Hnd as [_ ?].
Qed.

Lemma omap_lookup_seq {A} (l : list A) (a n : nat) :
  omap (fun i => l !! i) (seq a n) = take n (drop a l).
Proof.
  revert a. induction n as [|n IH]; intros a; [done|].
  cbn [seq omap list_omap]. rewrite IH.
  destruct (l !! a) as [x|] eqn:E.
  - by rewrite (drop_S _ _ _ E).
  - apply lookup_ge_None in E.
    rewrite !drop_ge by lia. by rewrite !take_nil.
Qed.

Lemma deref_omap {A} (l : list A) (ixs : list nat) (xs : list A) :
  Forall2 (fun i x => l !! i = Some x) ixs xs → omap (fun i => l !! i) ixs = xs.
Proof.
  induction 1 as [|i x ixs xs Hi _ IH]; [done|].
  cbn [omap list_omap]. by rewrite Hi, IH.
Qed.

(** The records the four lists hold, when the lists name every place of
    the store once: the store's records, in some order. *)
Lemma deref_permutation (self : _XMLTestResult) (records : list _TestInfo) :
  Forall2 (fun e test_info => XMLTestResult.infos self !! entry_info e = Some test_info)
    (all_entries self) records →
  Permutation (map entry_info (all_entries self))
    (seq 0 (length (XMLTestResult.infos self))) →
  Permutation records (XMLTestResult.infos self).
Proof.
  intros Hderef Hperm.
  rewrite <- (deref_omap (XMLTestResult.infos self) (map entry_info (all_entries self))
                records).
  - rewrite Hperm, omap_lookup_seq, drop_0. by rewrite firstn_all.
  - clear Hperm. induction Hderef; cbn [map]; by constructor.
Qed.

Lemma deref_exists (self : _XMLTestResult) :
  Forall (fun e => entry_info e < length (XMLTestResult.infos self)) (all_entries self) →
  ∃ records,
    Forall2 (fun e test_info => XMLTestResult.infos self !! entry_info e = Some test_info)
      (all_entries self) records.
Proof.
  induction 1 as [|e es He _ [records IH]]; [by exists []|].
  apply lookup_lt_is_Some_2 in He as [ti Hti].
  exists (ti :: records). by constructor.
Qed.

Lemma sorted_of_seq {A} (key : A → nat) (l : list A) (a : nat) :
  map key l = seq a (length l) → StronglySorted (fun x y => key x ≤ key y) l.
Proof.
  revert a. induction l as [|x l IH]; intros a Hk; [constructor|].
  cbn [map length seq] in Hk. injection Hk as Hx Hl.
  constructor; [by eapply IH|].
  apply List.Forall_forall. intros y Hy.
  assert (Hin : In (key y) (seq (S a) (length l))) by (rewrite <- Hl; by apply in_map).
  apply in_seq in Hin. lia.
Qed.

(** The mapping the grouping returns for the result of a run: the records
    in the order the tests completed, grouped by suite. *)
Lemma collected_groups (self : XMLTestRunner) (tests : list executed_test)
    (outsuffix : list N) :
  let result := collected (_make_result self) tests in
  _get_info_by_testcase result outsuffix
  = Ok (grouped (map named (XMLTestResult.infos result)))
  ∧ Forall consistent (XMLTestResult.infos result).
Proof.
  intros result.
  destruct (collected_fresh self tests) as (Hinfos & _ & _ & _ & _ & Hvalid & _).
  fold result in Hinfos, Hvalid.
  assert (Hindex : map TestInfo.test_index (XMLTestResult.infos result)
                   = seq 0 (length (XMLTestResult.infos result))).
  { rewrite Hinfos, length_imap. apply map_imap_index. }
  assert (Hentries : Permutation (map entry_info (all_entries result))
                       (seq 0 (length (XMLTestResult.infos result)))).
  { rewrite Hinfos, length_imap. apply (collected_entries (_make_result self) tests). }
  split.
  - destruct (deref_exists result Hvalid) as [records Hderef].
    rewrite (get_info_by_testcase_grouped _ _ _ Hderef). do 2 f_equal.
    pose proof (deref_permutation result records Hderef Hentries) as Hperm.
    set (key := fun x : list N * _TestInfo => TestInfo.test_index (snd x)).
    assert (Hkeys : map key (map named (XMLTestResult.infos result))
                    = seq 0 (length (map named (XMLTestResult.infos result)))).
    { rewrite map_map, length_map. exact Hindex. }
    assert (Hp : Permutation (sort_by_key key (map named records))
                   (map named (XMLTestResult.infos result))).
    { rewrite sort_by_key_perm. by apply Permutation_map. }
    apply (sorted_by_key_unique key).
    + apply sort_by_key_sorted.
    + by eapply sorted_of_seq.
    + eapply Permutation_NoDup; [symmetry; apply Permutation_map; exact Hp|].
      rewrite Hkeys. apply seq_NoDup.
    + exact Hp.
  - rewrite Hinfos. apply List.Forall_forall. intros ti Hti.
    apply list_elem_of_In, elem_of_lookup_imap in Hti as (k & e & -> & _).
    apply nth_record_consistent.
Qed.

Lemma grouped_consistent (l : list _TestInfo) :
  Forall consistent l →
  Forall (fun item : list N * list _TestInfo => Forall consistent (snd item))
    (grouped (map named l)).
Proof.
  intros Hl. apply List.Forall_forall. intros [suite tests] Hin.
  apply grouped_elem in Hin as [_ ->]. cbn [snd].
  apply List.Forall_forall. intros ti Hti.
  unfold members in Hti. apply in_map_iff in Hti as ([n ti'] & <- & Hin).
  apply filter_In in Hin as [Hin _]. apply in_map_iff in Hin as (ti'' & [= <- <-] & Hin).
  rewrite List.Forall_forall in Hl. by apply Hl.
Qed.

(** ** Report generation at the end of a run *)

Lemma bind_raise {A B} (m : M A) (f : A → M B) (w w1 : world) (e : exn) :
  m w = (Raise e, w1) → (m ≫= f) w = (Raise e, w1).
Proof. intros H. unfold mbind, M_bind. by rewrite H. Qed.

Lemma mapR_length {A B} (f : A → result B) (l : list A) (l' : list B) :
  mapR f l = Ok l' → length l' = length l.
Proof.
  revert l'. induction l as [|x l IH]; intros l' H; cbn [mapR] in H.
  - by injection H as <-.
  - destruct (f x) as [y|]; [|done]. cbn in H.
    destruct (mapR f l) as [ys|]; [|done]. cbn in H. injection H as <-.
    cbn [length]. f_equal. by apply IH.
Qed.

Lemma write_files_other (names : list (list N)) (contents : list (list Byte.byte))
    (files : gmap (list N) (list Byte.byte)) (p : list N) :
  ¬ In p names → write_files (zip names contents) files !! p = files !! p.
Proof.
  unfold write_files. revert contents files.
  induction names as [|name names IH]; intros contents files Hp; [done|].
  destruct contents as [|c contents]; [done|].
  cbn [zip zip_with fold_left fst snd]. rewrite IH by (cbn in Hp; tauto).
  apply lookup_insert_ne. cbn in Hp. intros ->. tauto.
Qed.

Lemma write_files_lookup (names : list (list N)) (contents : list (list Byte.byte))
    (files : gmap (list N) (list Byte.byte)) (i : nat) (name : list N)
    (c : list Byte.byte) :
  List.NoDup names → names !! i = Some name → contents !! i = Some c →
  write_files (zip names contents) files !! name = Some c.
Proof.
  unfold write_files. revert contents files i.
  induction names as [|n names IH]; intros contents files i Hnd Hn Hc; [done|].
  destruct contents as [|c0 contents]; [done|].
  apply List.NoDup_cons_iff in Hnd as [Hn0 Hnd].
  cbn [zip zip_with fold_left fst snd]. destruct i as [|i].
  - injection Hn as ->. injection Hc as ->.
    fold (write_files (zip names contents) (<[name:=c]> files)).
    rewrite write_files_other by done. apply lookup_insert_eq.
  - by eapply IH.
Qed.

Lemma directory_filename_inj (output outsuffix suite suite' : list N) :
  directory_filename output suite outsuffix = directory_filename output suite' outsuffix →
  suite = suite'.
Proof.
  unfold directory_filename. destruct (text_eqb outsuffix []); intros H.
  - do 2 apply app_inv_head in H. apply app_inv_head in H. by apply app_inv_tail in H.
  - do 2 apply app_inv_head in H. apply app_inv_head in H. by apply app_inv_tail in H.
Qed.

Lemma NoDup_map_injective {A B} (f : A → B) (l : list A) :
  (∀ a b, f a = f b → a = b) → List.NoDup l → List.NoDup (map f l).
Proof.
  intros Hf. induction 1 as [|x l Hx _ IH]; cbn [map]; constructor; [|done].
  intros Hin. apply in_map_iff in Hin as (y & Hy & Hin). apply Hf in Hy. by subst.
Qed.

Lemma path_exists_same (p : list N) (w w' : world) :
  same_files w w' → path_exists p w' = path_exists p w.
Proof. intros (Hd & Hf & _). unfold path_exists. by rewrite Hd, Hf. Qed.

Lemma with_directory_dirs (p : list N) (w : world) :
  fs_dirs (with_directory p w)
  = if path_exists p w then fs_dirs w else {[p]} ∪ fs_dirs w.
Proof. unfold with_directory. by destruct (path_exists p w), w. Qed.

Lemma map_imap_name (self : _XMLTestResult) (tests : list executed_test) :
  map TestInfo.test_name (imap (nth_record self) tests)
  = map (fun e => testcase_name (et_test e)) tests.
Proof.
  assert (H : ∀ (l : list executed_test) (f : nat → executed_test → _TestInfo),
             (∀ k e, TestInfo.test_name (f k e) = testcase_name (et_test e)) →
             map TestInfo.test_name (imap f l)
             = map (fun e => testcase_name (et_test e)) l).
  { induction l as [|x l IH]; intros f Hf; [done|].
    cbn [imap map]. rewrite Hf. f_equal. apply IH. intros k e. apply Hf. }
  apply H. intros k e. reflexivity.
Qed.


Lemma combined_serializations_last (serialize : node → result (list Byte.byte))
    (self : _XMLTestResult) (outsuffix captured_out captured_err : list N)
    (items : list (list N * list _TestInfo)) (xml_content : list Byte.byte) :
  combined_serializations serialize self outsuffix captured_out captured_err items
  = Ok xml_content →
  serialize (combined_document self outsuffix captured_out captured_err items)
  = Ok xml_content.
Proof.
  unfold combined_serializations. by destruct (mapR _ (seq 1 (length items))).
Qed.


(** ** Further properties of sanitizing and of the entries *)

Lemma sub_empty_fixed (s : list N) :
  sub_empty s = s ↔ ∀ c, In c s → ¬ illegal_xml_char c.
Proof.
  unfold sub_empty. induction s as [|c s IH]; cbn [List.filter]; [by split|].
  pose proof (INVALID_XML_1_0_UNICODE_RE_spec c) as Hc.
  destruct (INVALID_XML_1_0_UNICODE_RE c) eqn:E; cbn [negb].
  - split.
    + intros Heq. exfalso.
      assert (Hlen : length (List.filter (fun c => negb (INVALID_XML_1_0_UNICODE_RE c)) s)
                     ≤ length s) by apply List.filter_length_le.
      rewrite Heq in Hlen. cbn in Hlen. lia.
    + intros Hall. exfalso. apply (Hall c); [by left|]. by apply Hc.
  - split.
    + intros [= Heq] c' [<-|Hin].
      * intros Hbad. apply Hc in Hbad. done.
      * by apply IH.
    + intros Hall. f_equal. apply IH. intros c' Hin. apply Hall. by right.
Qed.

(** X1.  Sanitizing a [str] is idempotent, leaves a text alone exactly when the
    text has no illegal character, never lengthens a text, and goes
    through concatenation: sanitizing what several writes captured is
    sanitizing each piece. *)
Theorem xml_safe_unicode_idempotent (s t encoding : list N) :
  ∃ safe_s safe_t,
    xml_safe_unicode (PyStr s) encoding = Ok safe_s
    ∧ xml_safe_unicode (PyStr t) encoding = Ok safe_t
    ∧ xml_safe_unicode (PyStr safe_s) encoding = Ok safe_s
    ∧ (safe_s = s ↔ ∀ c, In c s → ¬ illegal_xml_char c)
    ∧ length safe_s ≤ length s
    ∧ xml_safe_unicode (PyStr (s ++ t)) encoding = Ok (safe_s ++ safe_t).
Proof.
  exists (sub_empty s), (sub_empty t). rewrite !xml_safe_unicode_str.
  split; [done|]. split; [done|]. split.
  { f_equal. apply sub_empty_fixed. intros c Hc. by apply sub_empty_elem in Hc as [_ Hc]. }
  split; [apply sub_empty_fixed|].
  split; [apply List.filter_length_le|].
  unfold sub_empty. by rewrite List.filter_app.
Qed.

(** X2.  The entry of a skipped test starts with a [skipped] element whose
    [type] is [skip], whose [message] is the sanitized reason and which has
    no child; the entry of a passed test has no diagnostic element at all:
    its children, if any, are the output blocks. *)
Theorem report_testcase_skipped_and_passed (suite_name : text) (test_result : _TestInfo)
    (tag : text) (attrs : list (list N * list N)) (entries : list node) (encoding : text) :
  ∃ (testcase_attrs : list (list N * list N)) (blocks : list node),
    Forall (fun b => minidom.has_tag (u "system-out") b = true
                     ∨ minidom.has_tag (u "system-err") b = true) blocks
    ∧ (∀ reason,
         TestInfo.outcome test_result = SKIP →
         TestInfo.err test_result = ErrReason reason →
         _report_testcase suite_name test_result (Element tag attrs entries) encoding
         = Ok (Element tag attrs
                 (entries ++
                    [Element (u "testcase") testcase_attrs
                       (Element (u "skipped")
                          [(u "type", u "skip"); (u "message", sub_empty reason)] []
                        :: blocks)])))
    ∧ (TestInfo.outcome test_result = SUCCESS →
       _report_testcase suite_name test_result (Element tag attrs entries) encoding
       = Ok (Element tag attrs (entries ++ [Element (u "testcase") testcase_attrs blocks]))).
Proof.
  exists [(u "classname", suite_name);
          (u "name", _test_method_name (TestInfo.test_id test_result));
          (u "time", format_3f (TestInfo.elapsed_time test_result))],
    (output_block (u "system-out") (TestInfo.std_output test_result)
       ++ output_block (u "system-err") (TestInfo.err_output test_result)).
  split; [|split].
  - apply Forall_app. split.
    + destruct (TestInfo.std_output test_result) as [[|c s]|];
        [constructor| |constructor].
      constructor; [by left|constructor].
    + destruct (TestInfo.err_output test_result) as [[|c s]|];
        [constructor| |constructor].
      constructor; [by right|constructor].
  - intros reason Ho He.
    assert (Hc : consistent test_result) by (unfold consistent; rewrite Ho; eauto).
    rewrite (report_testcase_entry _ _ _ _ _ _ Hc).
    unfold diagnostic_block. by rewrite Ho, He.
  - intros Ho.
    assert (Hc : consistent test_result) by (unfold consistent; by rewrite Ho).
    rewrite (report_testcase_entry _ _ _ _ _ _ Hc).
    unfold diagnostic_block. by rewrite Ho.
Qed.

(** X3.  [_report_output] case by case: with both channels wrapped it appends a
    [system-out] and a [system-err] element, in this order and both always
    (an empty buffer gives an empty CDATA section), holding the sanitized
    text of the two capture buffers, and leaves the process alone; with an
    ordinary stream on either channel it raises [AttributeError]. *)
Theorem report_output_both_blocks_or_error (tag : list N)
    (attrs : list (list N * list N)) (entries : list node) (encoding : list N) (w : world) :
  _report_output (Element tag attrs entries) encoding w
  = match sys_stdout w, sys_stderr w with
    | DelegateIO out _, DelegateIO err _ =>
        (Ok (Element tag attrs
               (entries ++
                  [Element (u "system-out") [] [CDATASection (sub_empty out)];
                   Element (u "system-err") [] [CDATASection (sub_empty err)]])),
         w)
    | _, _ => (Raise AttributeError, w)
    end.
Proof.
  destruct w as [so se c sk cw fd ff]. cbn [sys_stdout sys_stderr].
  destruct so as [h1|out d1]; [reflexivity|].
  destruct se as [h2|err d2]; [reflexivity|].
  unfold _report_output, sys_stdout_getvalue, sys_stderr_getvalue, mbind, M_bind, lift,
    xml_safe_unicode.
  cbn. by rewrite <- app_assoc.
Qed.

(** ** Report generation on a stream, after no test, after an engine failure *)

Lemma forM_sinks {A} (f : A → M unit) (h : nat)
    (content : A → result (list Byte.byte)) (so se : stream) (items : list A) (w : world) :
  sys_stdout w = so → sys_stderr w = se →
  (∀ a w0, In a items → sys_stdout w0 = so → sys_stderr w0 = se →
     f a w0 = match content a with
              | Ok c => (Ok tt, set_sink (sink w0 ++ [(h, c)]) w0)
              | Raise e => (Raise e, w0)
              end) →
  match mapR content items with
  | Ok contents =>
      forM_ f items w = (Ok tt, set_sink (sink w ++ map (fun c => (h, c)) contents) w)
  | Raise e => ∃ w', forM_ f items w = (Raise e, w') ∧ same_files w w'
  end.
Proof.
  intros Hso Hse Hf. revert w Hso Hse.
  induction items as [|a items IH]; intros w Hso Hse.
  - cbn. rewrite app_nil_r. by destruct w.
  - cbn [mapR forM_]. rewrite (bind_run_raw _ _ w).
    rewrite (Hf a w) by (done || by left).
    destruct (content a) as [c|e]; cbn [mbind result_bind];
      [|exists w; by split].
    specialize (IH (fun a' w0 Ha => Hf a' w0 (or_intror Ha))
                  (set_sink (sink w ++ [(h, c)]) w)).
    destruct (mapR content items) as [cs|e]; cbn [mbind result_bind].
    + rewrite IH by (by destruct w). cbn [map]. destruct w. cbn.
      by rewrite <- app_assoc.
    + destruct IH as (w' & E & Hsame); [by destruct w..|].
      exists w'. split; [exact E|]. by destruct w.
Qed.

(** X4.  Stream mode (the target is a writable object, not a path): every
    suite's standalone document is serialized and written to the stream,
    one write per suite in the order of the mapping; the file system is
    not touched, no directory made and no file opened.  If a document
    cannot be serialized, that exception escapes, the file system being
    untouched all the same. *)
Theorem generate_reports_on_stream (self : _XMLTestResult) (test_runner : XMLTestRunner)
    (handle : nat) (groups : list (list N * list _TestInfo)) (w : world) :
  XMLTestRunner.output test_runner = output_stream handle →
  _get_info_by_testcase self (XMLTestRunner.outsuffix test_runner) = Ok groups →
  Forall (fun item => Forall consistent (snd item)) groups →
  (XMLTestResult.per_test_output self = false → patched w) →
  match mapR (fun item =>
                toprettyxml
                  (standalone_document self (XMLTestRunner.outsuffix test_runner)
                     (captured_of (sys_stdout w)) (captured_of (sys_stderr w)) item)
                  (XMLTestResult.encoding self))
          groups with
  | Ok contents =>
      generate_reports self test_runner w
      = (Ok tt, set_sink (sink w ++ map (fun c => (handle, c)) contents) w)
  | Raise e =>
      ∃ w', generate_reports self test_runner w = (Raise e, w') ∧ same_files w w'
  end.
Proof.
  intros Hout Hgroups Hcons Hp.
  unfold generate_reports. rewrite bind_lift, Hgroups, Hout.
  match goal with
  | |- context [forM_ ?f groups w] =>
      pose proof (forM_sinks f handle
        (fun item =>
           toprettyxml
             (standalone_document self (XMLTestRunner.outsuffix test_runner)
                (captured_of (sys_stdout w)) (captured_of (sys_stderr w)) item)
             (XMLTestResult.encoding self))
        (sys_stdout w) (sys_stderr w) groups w eq_refl eq_refl) as Hloop
  end.
  apply Hloop. clear Hloop.
  intros [suite tests] w0 Hin Ho0 He0.
  rewrite List.Forall_forall in Hcons. specialize (Hcons _ Hin). cbn [snd fst] in *.
  rewrite bind_run_raw, add_xml_report_runs; [|done|].
  2:{ intros Hpt. destruct (Hp Hpt) as [P1 P2]. split; by rewrite ?Ho0, ?He0. }
  rewrite Ho0, He0. unfold standalone_document. cbn [fst snd].
  change (minidom.appendChild_at [] ?c (Document [])) with (Ok (Document [c]) : result node).
  cbn [mbind result_bind].
  destruct (toprettyxml _ _) as [xml|e] eqn:Hxml; cbn [mbind result_bind]; [|done].
  rewrite bind_lift, Hxml. reflexivity.
Qed.

(** ** What is written to the runner's stream *)

Lemma said_nil (h : nat) (w : world) : said h [] w = w.
Proof. unfold said. cbn [map]. rewrite app_nil_r. by destruct w. Qed.

Lemma said_said (h : nat) (a b : list (list N)) (w : world) :
  said h b (said h a w) = said h (a ++ b) w.
Proof. unfold said. destruct w. cbn. by rewrite map_app, app_assoc. Qed.

Lemma emits_ret {A} (a : A) (h : nat) : emits (mret a : M A) a h [].
Proof. intros w. by rewrite said_nil. Qed.

Lemma emits_bind {A B} (m : M A) (f : A → M B) (a : A) (b : B) (h : nat)
    (t1 t2 : list (list N)) :
  emits m a h t1 → emits (f a) b h t2 → emits (m ≫= f) b h (t1 ++ t2).
Proof.
  intros Hm Hf w. rewrite (bind_run _ _ _ _ _ (Hm w)), Hf. by rewrite said_said.
Qed.

Lemma emits_write (h : nat) (t : list N) : emits (write h t) tt h [t].
Proof. intros w. reflexivity. Qed.

Lemma emits_writeln (h : nat) (t : list N) : emits (writeln h t) tt h (line t).
Proof.
  unfold writeln, line. eapply emits_bind; [|apply emits_write].
  destruct (text_eqb t []); [apply emits_ret|apply emits_write].
Qed.

Lemma stream_write_absorb (s : stream) (t : list N) (c : list (nat * list N)) :
  stream_write s t c = (absorb s t, c ++ [(underlying s, t)]).
Proof.
  induction s as [h|captured delegate IH]; cbn [stream_write absorb underlying]; [done|].
  by rewrite IH.
Qed.

Lemma startTest_emits (self : _XMLTestResult) (test : TestCase) (now : float) :
  emits (startTest self test now)
    (XMLTestResult.set_testsRun (S (XMLTestResult.testsRun self))
       (XMLTestResult.set_start_time (Some now) self))
    (XMLTestResult.stream self) (progress_start self test).
Proof.
  unfold startTest, progress_start.
  replace (XMLTestResult.showAll
             (XMLTestResult.set_testsRun
                (S (XMLTestResult.testsRun (XMLTestResult.set_start_time (Some now) self)))
                (XMLTestResult.set_start_time (Some now) self)))
    with (XMLTestResult.showAll self) by (by destruct self).
  destruct (XMLTestResult.showAll self) eqn:E; [|by destruct self; apply emits_ret].
  destruct self. cbn in *.
  eapply (emits_bind _ _ tt _ _ [_] [_]); [apply emits_write|].
  eapply (emits_bind _ _ tt _ _ [_] []); [apply emits_write|apply emits_ret].
Qed.

Lemma line_verbose (verbose rest : list N) :
  line (verbose ++ u " (" ++ rest) = [verbose ++ u " (" ++ rest; newline].
Proof.
  unfold line. replace (text_eqb (verbose ++ u " (" ++ rest) []) with false; [done|].
  symmetry. apply bool_decide_eq_false_2. by destruct verbose.
Qed.

Lemma stopTest_emits (self : _XMLTestResult) (test : TestCase) (now start : float)
    (cb : callback_t) (test_info : _TestInfo) :
  XMLTestResult.callback self = Some cb →
  XMLTestResult.infos self !! cb_test_info cb = Some test_info →
  XMLTestResult.start_time self = Some start →
  emits (stopTest self test now)
    (XMLTestResult.mk
       (XMLTestResult.stream self) (XMLTestResult.descriptions self)
       (XMLTestResult.showAll self) (XMLTestResult.dots self)
       (XMLTestResult.failures self) (XMLTestResult.errors self)
       (XMLTestResult.skipped self) (XMLTestResult.expectedFailures self)
       (XMLTestResult.unexpectedSuccesses self) (XMLTestResult.testsRun self)
       (XMLTestResult.successes self) None
       (XMLTestResult.elapsed_times self) (XMLTestResult.per_test_output self)
       (XMLTestResult.encoding self)
       (S (XMLTestResult.test_index self))
       (Some (if XMLTestResult.elapsed_times self then start else 0%float))
       (Some (if XMLTestResult.elapsed_times self then now else 0%float))
       (<[cb_test_info cb :=
            TestInfo.finished (XMLTestResult.test_index self) (now - start)%float
              test_info]> (XMLTestResult.infos self)))
    (XMLTestResult.stream self)
    (if XMLTestResult.showAll self
     then [cb_verbose_str cb ++ u " (" ++ format_3f (now - start) ++ u "s)"; newline]
     else if XMLTestResult.dots self then [cb_short_str cb] else []).
Proof.
  intros Hcb Hinfo Hstart.
  destruct self as [st de sa dt fa er sk ef us tr su cb0 el pt en ti s0 s1 inf].
  cbn in Hcb, Hinfo, Hstart. subst cb0 s0.
  assert (Hlen : cb_test_info cb < length inf) by (by eapply lookup_lt_Some).
  unfold stopTest, call_callback, test_finished, info_at.
  cbv [XMLTestResult.callback XMLTestResult.set_stop_time XMLTestResult.infos
       XMLTestResult.stop_time XMLTestResult.start_time XMLTestResult.test_index
       XMLTestResult.set_infos XMLTestResult.set_start_time XMLTestResult.set_callback
       XMLTestResult.set_test_index XMLTestResult.elapsed_times XMLTestResult.showAll
       XMLTestResult.dots XMLTestResult.stream XMLTestResult.descriptions
       XMLTestResult.failures XMLTestResult.errors XMLTestResult.skipped
       XMLTestResult.expectedFailures XMLTestResult.unexpectedSuccesses
       XMLTestResult.testsRun XMLTestResult.successes XMLTestResult.per_test_output
       XMLTestResult.encoding].
  rewrite Hinfo. intros w.
  cbv [mbind M_bind result_bind lift mret M_ret].
  destruct el, sa, dt; cbn [XMLTestResult.showAll XMLTestResult.dots
      XMLTestResult.elapsed_times XMLTestResult.infos XMLTestResult.stream
      XMLTestResult.set_stop_time XMLTestResult.set_start_time];
    rewrite ?list_lookup_insert_eq by done;
    cbn [TestInfo.elapsed_time TestInfo.finished];
    rewrite ?(emits_writeln _ _ w), ?(emits_write _ _ w), ?line_verbose, ?said_nil;
    reflexivity.
Qed.

Lemma write_stdout_exact (t : list N) (w : world) :
  write_stdout t w
  = (Ok tt, set_console (console w ++ [(underlying (sys_stdout w), t)])
              (set_sys_stdout (absorb (sys_stdout w) t) w)).
Proof. unfold write_stdout. by rewrite stream_write_absorb. Qed.

Lemma write_stderr_exact (t : list N) (w : world) :
  write_stderr t w
  = (Ok tt, set_console (console w ++ [(underlying (sys_stderr w), t)])
              (set_sys_stderr (absorb (sys_stderr w) t) w)).
Proof. unfold write_stderr. by rewrite stream_write_absorb. Qed.

Lemma outcome_call_exact (self : _XMLTestResult) (test : TestCase) (o : test_outcome)
    (w : world) :
  (XMLTestResult.per_test_output self = true → patched w) →
  do_call self (outcome_call test o) w
  = (Ok (after_outcome_call self test o w),
     if XMLTestResult.per_test_output self
     then set_sys_stderr (emptied (sys_stderr w)) (set_sys_stdout (emptied (sys_stdout w)) w)
     else w).
Proof.
  intros Hp.
  destruct self as [st de sa dt fa er sk ef us tr su cb el pt en ti s0 s1 inf].
  destruct w as [so se co si cw fd ff].
  cbn in Hp. unfold after_outcome_call, created.
  cbn [XMLTestResult.per_test_output XMLTestResult.infos XMLTestResult.stream
       XMLTestResult.descriptions XMLTestResult.showAll XMLTestResult.dots
       XMLTestResult.failures XMLTestResult.errors XMLTestResult.skipped
       XMLTestResult.expectedFailures XMLTestResult.unexpectedSuccesses
       XMLTestResult.testsRun XMLTestResult.successes XMLTestResult.elapsed_times
       XMLTestResult.encoding XMLTestResult.test_index XMLTestResult.start_time
       XMLTestResult.stop_time sys_stdout sys_stderr].
  destruct pt.
  - destruct Hp as [H1 H2]; [done|]. cbn in H1, H2.
    destruct so as [|c1 d1]; [done|]. destruct se as [|c2 d2]; [done|].
    destruct o; rewrite ?app_nil_r; reflexivity.
  - destruct o; rewrite ?app_nil_r; reflexivity.
Qed.

Lemma underlying_absorb (s : stream) (t : list N) : underlying (absorb s t) = underlying s.
Proof. induction s; cbn; done. Qed.

Lemma underlying_emptied (s : stream) : underlying (emptied s) = underlying s.
Proof. by destruct s. Qed.

Lemma absorb_app (s : stream) (a b : list N) :
  absorb (absorb s a) b = absorb s (a ++ b).
Proof.
  induction s as [h|c d IH]; cbn [absorb]; [done|]. by rewrite IH, app_assoc.
Qed.

Lemma absorb_nil (s : stream) : absorb s [] = s.
Proof. induction s as [h|c d IH]; cbn [absorb]; [done|]. by rewrite IH, app_nil_r. Qed.

Lemma emptied_absorb_emptied (s : stream) (t : list N) :
  emptied (absorb (emptied s) t) = emptied (absorb s t).
Proof. by destruct s. Qed.

(** One test's lifecycle, exactly: the result and the world it leaves. *)
Lemma lifecycle_exact (self : _XMLTestResult) (e : executed_test) (w : world) :
  (XMLTestResult.per_test_output self = true → patched w) →
  foldM do_call (lifecycle e) self w
  = (Ok (after_test self e (captured_of (sys_stdout w)) (captured_of (sys_stderr w))),
     world_after_tests self [e] w).
Proof.
  intros Hp.
  destruct (lifecycle_runs self e w Hp) as (w' & Hrun & _).
  rewrite Hrun. f_equal. apply (f_equal snd) in Hrun. cbn [snd] in Hrun. subst w'.
  destruct e as [test started stopped out err o].
  unfold lifecycle. cbn [foldM do_call et_test et_started et_stopped et_stdout
                         et_stderr et_outcome].
  rewrite (bind_run _ _ _ _ _ (startTest_emits self test started w)).
  set (self1 := XMLTestResult.set_testsRun _ _).
  set (w1 := said _ _ w).
  rewrite (bind_run _ _ w1 _ _ (bind_run _ _ _ _ _ (write_stdout_exact out w1))).
  set (w2 := set_console _ _).
  rewrite (bind_run _ _ w2 _ _ (bind_run _ _ _ _ _ (write_stderr_exact err w2))).
  set (w3 := set_console _ _).
  assert (Hp3 : XMLTestResult.per_test_output self1 = true → patched w3).
  { intros Ht. destruct Hp as [P1 P2]; [by destruct self|]. subst w3 w2 w1.
    destruct w as [so se co si cw fd ff]. cbn in *.
    destruct so, se; done. }
  rewrite (bind_run _ _ _ _ _ (outcome_call_exact self1 test o w3 Hp3)).
  set (w4 := if XMLTestResult.per_test_output self1 then _ else _).
  rewrite (bind_run _ _ _ _ _
             (stopTest_emits (after_outcome_call self1 test o w3) test stopped started
                (pending (length (XMLTestResult.infos self)) o)
                (created self1 test o w3)
                eq_refl
                ltac:(destruct o; apply lookup_at_end)
                eq_refl w4)).
  cbn [mret M_ret snd].
  subst w4 w3 w2 w1 self1. unfold world_after_tests, test_transcript, progress_start,
    progress_stop, said.
  destruct self as [st de sa dt fa er sk ef us tr su cb el pt en ti s0 s1 inf].
  destruct w as [so se co si cw fd ff].
  cbn [XMLTestResult.set_testsRun XMLTestResult.set_start_time
       XMLTestResult.per_test_output XMLTestResult.stream
       XMLTestResult.descriptions XMLTestResult.showAll XMLTestResult.dots
       after_outcome_call et_test et_started et_stopped et_stdout et_stderr et_outcome
       sys_stdout sys_stderr console sink cwd fs_dirs fs_files set_console
       set_sys_stdout set_sys_stderr map concat].
  rewrite !app_nil_r.
  destruct pt; cbn [sys_stdout sys_stderr console sink cwd fs_dirs fs_files set_console
       set_sys_stdout set_sys_stderr]; f_equal;
    rewrite <- ?app_assoc; cbn [app];
    by destruct o.
Qed.

Lemma world_after_tests_nil (self : _XMLTestResult) (w : world) :
  ready self w → world_after_tests self [] w = w.
Proof.
  intros Hr. unfold world_after_tests. cbn [map concat]. rewrite !absorb_nil, app_nil_r.
  destruct w as [so se co si cw fd ff]. cbn [sys_stdout sys_stderr console sink cwd
    fs_dirs fs_files].
  destruct (XMLTestResult.per_test_output self) eqn:E; [|done].
  destruct (Hr E) as ([P1 P2] & C1 & C2). cbn in *.
  destruct so, se; cbn in *; by subst.
Qed.

Lemma world_after_tests_cons (self self' : _XMLTestResult) (e : executed_test)
    (tests : list executed_test) (w : world) :
  settings self' = settings self →
  world_after_tests self' tests (world_after_tests self [e] w)
  = world_after_tests self (e :: tests) w.
Proof.
  intros Hs. unfold settings in Hs. injection Hs as Hst Hde Hsa Hdt _ Hpt _.
  unfold world_after_tests, test_transcript, progress_start, progress_stop.
  rewrite Hst, Hde, Hsa, Hdt, Hpt.
  destruct w as [so se co si cw fd ff].
  cbn [sys_stdout sys_stderr console sink cwd fs_dirs fs_files map concat].
  rewrite !app_nil_r.
  destruct (XMLTestResult.per_test_output self);
    rewrite ?underlying_emptied, !underlying_absorb, ?emptied_absorb_emptied, !absorb_app,
      <- !app_assoc; reflexivity.
Qed.

(** The lifecycles of a sequence of tests, exactly: the result collected
    and the world left. *)
Lemma lifecycles_exact (self : _XMLTestResult) (tests : list executed_test) (w : world) :
  ready self w →
  foldM do_call (lifecycles tests) self w
  = (Ok (collected self tests), world_after_tests self tests w).
Proof.
  revert self w. induction tests as [|e tests IH]; intros self w Hr.
  - cbn. by rewrite world_after_tests_nil.
  - unfold lifecycles. cbn [map concat]. rewrite foldM_app.
    fold (lifecycles tests).
    assert (Hp : XMLTestResult.per_test_output self = true → patched w)
      by (intros Ht; by destruct (Hr Ht)).
    rewrite (bind_run _ _ _ _ _ (lifecycle_exact self e w Hp)).
    rewrite (after_test_ready _ _ _ Hr).
    destruct (lifecycle_runs self e w Hp) as (w' & Hrun & _ & Hempty).
    rewrite lifecycle_exact in Hrun by done. injection Hrun as <-.
    rewrite IH.
    + cbn [collected fold_left]. f_equal. apply world_after_tests_cons.
      apply after_test_settings.
    + intros Ht.
      assert (Ht' : XMLTestResult.per_test_output self = true) by exact Ht.
      destruct (Hempty Ht') as [C1 C2]. split; [|done].
      unfold world_after_tests. rewrite Ht'. cbn [sys_stdout sys_stderr].
      destruct (Hp Ht') as [P1 P2].
      destruct (sys_stdout w), (sys_stderr w); done.
Qed.

Lemma emits_printErrorList (self : _XMLTestResult) (flavour : list N)
    (errors : list entry) :
  Forall (fun e => is_Pair e ∧ entry_info e < length (XMLTestResult.infos self)) errors →
  emits (printErrorList self flavour errors) tt (XMLTestResult.stream self)
    (concat (map (error_report self flavour) errors)).
Proof.
  unfold printErrorList.
  induction 1 as [|e errors [Hp Hi] _ IH]; cbn [forM_ map concat]; [apply emits_ret|].
  eapply emits_bind; [|exact IH].
  destruct e as [i|i detail]; [done|]. unfold error_report. cbn [entry_info] in *.
  apply lookup_lt_is_Some_2 in Hi as [test_info Hi].
  intros w. rewrite bind_lift. unfold info_at. rewrite Hi.
  revert w. fold (emits (A:=unit)).
  eapply emits_bind; [apply emits_writeln|].
  eapply emits_bind; [apply emits_writeln|].
  eapply emits_bind; [apply emits_writeln|].
  apply emits_writeln.
Qed.

#[local] Instance silent_preorder : PreOrder silent.
Proof.
  split.
  - intros w. by repeat split.
  - intros a b c (A1 & A2 & A3) (B1 & B2 & B3). repeat split; congruence.
Qed.

Lemma os_makedirs_silent (p : list N) : preserves silent (os_makedirs p).
Proof. apply preserves_modify; tc. intros w. by repeat split. Qed.

Lemma open_wb_silent (p : list N) : preserves silent (open_wb p).
Proof. apply preserves_modify; tc. intros w. by repeat split. Qed.

Lemma file_write_silent (p : list N) (content : list Byte.byte) :
  preserves silent (file_write p content).
Proof. apply preserves_modify; tc. intros w. by repeat split. Qed.

Lemma sink_write_silent (h : nat) (content : list Byte.byte) :
  preserves silent (sink_write h content).
Proof. apply preserves_modify; tc. intros w. by repeat split. Qed.

Lemma sys_stdout_getvalue_silent : preserves silent sys_stdout_getvalue.
Proof. intros w. by repeat split. Qed.

Lemma sys_stderr_getvalue_silent : preserves silent sys_stderr_getvalue.
Proof. intros w. by repeat split. Qed.

#[local] Hint Resolve os_makedirs_silent open_wb_silent file_write_silent
  sink_write_silent sys_stdout_getvalue_silent sys_stderr_getvalue_silent : frame.

Lemma report_output_silent (xml_testsuite : node) (encoding : list N) :
  preserves silent (_report_output xml_testsuite encoding).
Proof. unfold _report_output. frame. Qed.

#[local] Hint Resolve report_output_silent : frame.

Lemma add_xml_report_silent (self : _XMLTestResult) (test_runner : XMLTestRunner)
    (suite : list N) (tests : list _TestInfo) (node_ : list nat) (doc : node) :
  preserves silent (_add_xml_report self test_runner suite tests node_ doc).
Proof. unfold _add_xml_report. frame. Qed.

#[local] Hint Resolve add_xml_report_silent : frame.

Lemma generate_reports_keeps_silent (self : _XMLTestResult) (test_runner : XMLTestRunner) :
  preserves silent (generate_reports self test_runner).
Proof. unfold generate_reports, os_path_exists. frame. Qed.

(** X5.  Report generation is silent: whatever the result, the runner and the
    target, and whether it returns or raises, [generate_reports] writes
    nothing to the console and leaves [sys.stdout] and [sys.stderr] bound
    to the objects they were bound to, their capture buffers as they
    were. *)
Theorem generate_reports_silent (self : _XMLTestResult) (test_runner : XMLTestRunner)
    (w : world) :
  ∃ outcome w',
    generate_reports self test_runner w = (outcome, w')
    ∧ console w' = console w
    ∧ sys_stdout w' = sys_stdout w
    ∧ sys_stderr w' = sys_stderr w.
Proof.
  destruct (preserves_run silent (generate_reports self test_runner) w
              (generate_reports_keeps_silent self test_runner))
    as (outcome & w' & Hrun & Ho & He & Hc).
  by exists outcome, w'.
Qed.

Lemma line_nonempty (t : list N) : t ≠ [] → line t = [t; newline].
Proof.
  intros Ht. unfold line, text_eqb. by rewrite (bool_decide_eq_false_2 _ Ht).
Qed.

Lemma line_empty : line [] = [newline].
Proof. reflexivity. Qed.

Lemma emits_run {A B} (m : M A) (f : A → M B) (a : A) (h : nat) (texts : list (list N))
    (w : world) :
  emits m a h texts → (m ≫= f) w = f a (said h texts w).
Proof. intros Hm. by rewrite (bind_run _ _ _ _ _ (Hm w)). Qed.

Lemma run_collects_exact (self : XMLTestRunner) (tests : list executed_test)
    (escapes_ : option exn) (start_time stop_time : float) (w : world) :
  run_body self {| calls := lifecycles tests; escapes := escapes_ |} start_time stop_time w
  = match escapes_ with
    | Some e => (Raise e, world_after_collecting self tests w)
    | None =>
        generate_reports (collected (_make_result self) tests) self
          (world_before_reports self tests (stop_time - start_time)%float w)
    end.
Proof.
  unfold run_body. rewrite patch_standard_output_bind. cbv zeta. fold (wrapped w).
  rewrite (emits_run _ _ _ _ _ _ (emits_writeln _ _)).
  rewrite (emits_run _ _ _ _ _ _ (emits_writeln _ _)).
  rewrite (emits_run _ _ _ _ _ _ (emits_writeln _ _)).
  rewrite !said_said.
  change (line [] ++ line (u "Running tests...") ++ line separator2) with run_header.
  assert (Hready : ready (_make_result self)
                     (said (XMLTestRunner.stream self) run_header (wrapped w))).
  { intros _. destruct w. by repeat split. }
  unfold call_test. cbn [calls escapes].
  rewrite bind_run_raw, (bind_run _ _ _ _ _ (lifecycles_exact _ tests _ Hready)).
  fold (world_after_collecting self tests w).
  destruct escapes_ as [e|]; [reflexivity|].
  cbn [mret M_ret]. cbv iota.
  destruct (collected_fresh self tests) as (Hinfos & Hrun & Henc & Hpt & Hst & Hvalid & Hpairs).
  set (result := collected (_make_result self) tests) in *.
  assert (Hprint : Forall (fun e => is_Pair e
                                     ∧ entry_info e < length (XMLTestResult.infos result))
                     (XMLTestResult.errors result ++ XMLTestResult.failures result)).
  { apply List.Forall_forall. intros e He. split.
    - rewrite List.Forall_forall in Hpairs. by apply Hpairs.
    - rewrite List.Forall_forall in Hvalid. apply Hvalid. unfold all_entries.
      rewrite !in_app_iff in *. tauto. }
  apply Forall_app in Hprint as [Herrors Hfailures].
  assert (Hpe : emits (printErrors result) tt (XMLTestRunner.stream self)
                  ((if XMLTestResult.dots result || XMLTestResult.showAll result
                    then [newline] else [])
                     ++ concat (map (error_report result (u "ERROR"))
                                  (XMLTestResult.errors result))
                     ++ concat (map (error_report result (u "FAIL"))
                                  (XMLTestResult.failures result)))).
  { unfold printErrors. rewrite <- Hst.
    eapply emits_bind.
    { unfold unless. destruct (XMLTestResult.dots result || XMLTestResult.showAll result);
        cbn [negb]; [apply emits_writeln|apply emits_ret]. }
    eapply emits_bind; by apply emits_printErrorList. }
  rewrite (emits_run _ _ _ _ _ _ Hpe).
  rewrite (emits_run _ _ _ _ _ _ (emits_writeln _ _)).
  rewrite (emits_run _ _ _ _ _ _ (emits_writeln _ _)).
  rewrite (emits_run _ _ _ _ _ _ (emits_writeln _ _)).
  rewrite (emits_run _ _ _ _ _ _ (emits_write _ _)).
  assert (Hsum : emits (match summary_infos result with
                        | [] => write (XMLTestRunner.stream self) (u (String "010" EmptyString))
                        | infos => writeln (XMLTestRunner.stream self)
                                     (u " (" ++ join (u ", ") infos ++ u ")")
                        end) tt (XMLTestRunner.stream self)
                   (match summary_infos result with
                    | [] => [newline]
                    | infos => [u " (" ++ join (u ", ") infos ++ u ")"; newline]
                    end)).
  { destruct (summary_infos result) as [|i infos]; [apply emits_write|].
    rewrite <- line_nonempty by done. apply emits_writeln. }
  rewrite (emits_run _ _ _ _ _ _ Hsum).
  rewrite (emits_run _ _ _ _ _ _ (emits_writeln _ _)).
  rewrite (emits_run _ _ _ _ _ _ (emits_writeln _ _)).
  rewrite !said_said. unfold world_before_reports. fold result.
  f_equal. f_equal. unfold run_footer.
  rewrite !line_empty, !line_nonempty by done.
  rewrite <- !app_assoc. reflexivity.
Qed.

Lemma restore_unwraps (w : world) :
  patched w → _restore_standard_output w = (Ok tt, unwrapped w).
Proof.
  intros [P1 P2]. destruct w as [so se co si cw fd ff]. cbn in P1, P2.
  destruct so as [|c1 d1]; [done|]. destruct se as [|c2 d2]; [done|]. reflexivity.
Qed.

Lemma world_after_collecting_patched (self : XMLTestRunner) (tests : list executed_test)
    (w : world) :
  patched (world_after_collecting self tests w).
Proof.
  unfold world_after_collecting, world_after_tests, patched. cbn [sys_stdout sys_stderr].
  destruct w as [so se co si cw fd ff]. cbn.
  by destruct (XMLTestRunner.per_test_output self).
Qed.

(** [run] for an engine that takes the tests through their lifecycles and
    then returns or lets an exception escape. *)
Lemma run_exact (self : XMLTestRunner) (tests : list executed_test)
    (escapes_ : option exn) (start_time stop_time : float) (w : world) :
  ∃ outcome w_body,
    run_body self {| calls := lifecycles tests; escapes := escapes_ |} start_time stop_time w
    = (outcome, w_body)
    ∧ run self {| calls := lifecycles tests; escapes := escapes_ |} start_time stop_time w
      = (outcome, unwrapped w_body)
    ∧ match escapes_ with
      | Some e => outcome = Raise e ∧ w_body = world_after_collecting self tests w
      | None =>
          generate_reports (collected (_make_result self) tests) self
            (world_before_reports self tests (stop_time - start_time)%float w)
          = (outcome, w_body)
          ∧ silent (world_before_reports self tests (stop_time - start_time)%float w) w_body
      end.
Proof.
  unfold run, try_finally. rewrite run_collects_exact.
  pose proof (world_after_collecting_patched self tests w) as Hp.
  destruct escapes_ as [e|].
  - exists (Raise e), (world_after_collecting self tests w).
    rewrite (restore_unwraps _ Hp). done.
  - destruct (preserves_run silent _
                (world_before_reports self tests (stop_time - start_time)%float w)
                (generate_reports_keeps_silent (collected (_make_result self) tests) self))
      as (outcome & w_body & Hrun & Hsilent).
    exists outcome, w_body. rewrite Hrun.
    assert (Hp' : patched w_body).
    { destruct Hsilent as (Ho & He & _). unfold patched. rewrite Ho, He.
      unfold world_before_reports, said. destruct Hp as [P1 P2].
      by destruct (world_after_collecting self tests w). }
    rewrite (restore_unwraps _ Hp'). done.
Qed.

Lemma unwrapped_after_collecting (self : XMLTestRunner) (tests : list executed_test)
    (w : world) (extra : list (list N)) :
  unwrapped (said (XMLTestRunner.stream self) extra (world_after_collecting self tests w))
  = World (absorb (sys_stdout w) (concat (map et_stdout tests)))
      (absorb (sys_stderr w) (concat (map et_stderr tests)))
      (console w ++ map (pair (XMLTestRunner.stream self)) run_header
         ++ concat (map (test_transcript (_make_result self) (underlying (sys_stdout w))
                           (underlying (sys_stderr w))) tests)
         ++ map (pair (XMLTestRunner.stream self)) extra)
      (sink w) (cwd w) (fs_dirs w) (fs_files w).
Proof.
  unfold world_after_collecting, world_after_tests, wrapped, said, unwrapped.
  destruct w as [so se co si cw fd ff].
  cbn [sys_stdout sys_stderr console sink cwd fs_dirs fs_files set_console set_sys_stdout
       set_sys_stderr underlying absorb _make_result XMLTestResult.__init__
       XMLTestResult.per_test_output].
  rewrite <- !app_assoc.
  by destruct (XMLTestRunner.per_test_output self).
Qed.

(** X6.  What a run shows: for an engine that takes the tests through their
    lifecycles and returns, whether report generation then succeeds or
    raises, the console has received, in this order, the header, for each
    test what [startTest] wrote, the test's own output (through the
    wrappers, on the streams that were bound before the run) and what
    [stopTest] wrote, and then the error reports and the summary; and the
    two channels are bound to the streams they were bound to, every
    wrapper an enclosing run had put there having captured the tests'
    output. *)
Theorem run_console_transcript (self : XMLTestRunner) (tests : list executed_test)
    (start_time stop_time : float) (w : world) :
  ∃ outcome w_end,
    run self {| calls := lifecycles tests; escapes := None |} start_time stop_time w
    = (outcome, w_end)
    ∧ console w_end
      = console w ++ map (pair (XMLTestRunner.stream self)) run_header
          ++ concat (map (test_transcript (_make_result self) (underlying (sys_stdout w))
                            (underlying (sys_stderr w))) tests)
          ++ map (pair (XMLTestRunner.stream self))
               (run_footer (collected (_make_result self) tests)
                  (stop_time - start_time)%float)
    ∧ sys_stdout w_end = absorb (sys_stdout w) (concat (map et_stdout tests))
    ∧ sys_stderr w_end = absorb (sys_stderr w) (concat (map et_stderr tests)).
Proof.
  destruct (run_exact self tests None start_time stop_time w)
    as (outcome & w_body & _ & Hrun & _ & Ho & He & Hc).
  exists outcome, (unwrapped w_body). split; [exact Hrun|].
  pose proof (unwrapped_after_collecting self tests w
                (run_footer (collected (_make_result self) tests)
                   (stop_time - start_time)%float)) as Hw.
  fold (world_before_reports self tests (stop_time - start_time)%float w) in Hw.
  set (w_g := world_before_reports self tests (stop_time - start_time)%float w) in *.
  assert (Hu : console (unwrapped w_body) = console (unwrapped w_g)
               ∧ sys_stdout (unwrapped w_body) = sys_stdout (unwrapped w_g)
               ∧ sys_stderr (unwrapped w_body) = sys_stderr (unwrapped w_g)).
  { unfold unwrapped. destruct w_body, w_g. cbn in *. by subst. }
  destruct Hu as (-> & -> & ->). rewrite Hw. done.
Qed.

(** X7.  An interrupted run: when the engine lets an exception escape after it
    has taken some tests through their lifecycles ([KeyboardInterrupt],
    say), [run] raises that exception with the channels restored; the
    console has the header and the tests' progress and output, but no
    error report and no summary, and no report is generated: the file
    system and the binary sinks are as they were. *)
Theorem run_interrupted (self : XMLTestRunner) (tests : list executed_test) (e : exn)
    (start_time stop_time : float) (w : world) :
  run self {| calls := lifecycles tests; escapes := Some e |} start_time stop_time w
  = (Raise e,
     World (absorb (sys_stdout w) (concat (map et_stdout tests)))
       (absorb (sys_stderr w) (concat (map et_stderr tests)))
       (console w ++ map (pair (XMLTestRunner.stream self)) run_header
          ++ concat (map (test_transcript (_make_result self) (underlying (sys_stdout w))
                            (underlying (sys_stderr w))) tests))
       (sink w) (cwd w) (fs_dirs w) (fs_files w)).
Proof.
  destruct (run_exact self tests (Some e) start_time stop_time w)
    as (outcome & w_body & _ & Hrun & -> & ->).
  rewrite Hrun. f_equal.
  rewrite <- (said_nil (XMLTestRunner.stream self) (world_after_collecting self tests w)).
  rewrite unwrapped_after_collecting. cbn [map]. by rewrite app_nil_r.
Qed.

Lemma world_before_reports_store (self : XMLTestRunner) (tests : list executed_test)
    (time_taken : float) (w : world) :
  let w_g := world_before_reports self tests time_taken w in
  fs_dirs w_g = fs_dirs w ∧ fs_files w_g = fs_files w ∧ cwd w_g = cwd w
  ∧ sink w_g = sink w ∧ patched w_g.
Proof.
  cbv zeta. pose proof (world_after_collecting_patched self tests w) as Hp.
  unfold world_before_reports, said, patched in *.
  unfold world_after_collecting, world_after_tests, said, wrapped in *.
  destruct w as [so se co si cw fd ff]. cbn in *. done.
Qed.

Lemma unwrapped_store (w : world) :
  fs_dirs (unwrapped w) = fs_dirs w ∧ fs_files (unwrapped w) = fs_files w
  ∧ sink (unwrapped w) = sink w.
Proof. by destruct w. Qed.


(** ** Capture, error reports and the summary *)

Lemma map_imap_record {B} (g : _TestInfo → B) (h : executed_test → B)
    (self : _XMLTestResult) (tests : list executed_test) :
  (∀ k e, g (nth_record self k e) = h e) →
  map g (imap (nth_record self) tests) = map h tests.
Proof.
  assert (H : ∀ (l : list executed_test) (f : nat → executed_test → _TestInfo),
             (∀ k e, g (f k e) = h e) → map g (imap f l) = map h l).
  { induction l as [|x l IH]; intros f Hf; [done|].
    cbn [imap map]. rewrite Hf. f_equal. apply IH. intros k e. apply Hf. }
  apply H.
Qed.

Lemma captured_of_absorb (s : stream) (t : list N) :
  captured_of (absorb s t) = if is_DelegateIO s then captured_of s ++ t else [].
Proof. by destruct s. Qed.

(** X9.  What is captured where.  The tests run their lifecycles while both
    channels are wrapped.  With per-test capture on, each test's record
    holds exactly what that test wrote to each channel, nothing of the
    tests before it, and the capture buffers are empty again at the end;
    with per-test capture off, no record holds any output and the buffers
    have grown by everything the tests wrote, in order. *)
Theorem capture_per_test_or_whole_run (self : _XMLTestResult)
    (tests : list executed_test) (w : world) :
  ready self w →
  patched w →
  ∃ (w' : world) (records : list _TestInfo),
    foldM do_call (lifecycles tests) self w = (Ok (collected self tests), w')
    ∧ XMLTestResult.infos (collected self tests) = XMLTestResult.infos self ++ records
    ∧ if XMLTestResult.per_test_output self then
        map TestInfo.std_output records = map (fun e => Some (et_stdout e)) tests
        ∧ map TestInfo.err_output records = map (fun e => Some (et_stderr e)) tests
        ∧ captured_of (sys_stdout w') = []
        ∧ captured_of (sys_stderr w') = []
      else
        map TestInfo.std_output records = map (fun _ => None) tests
        ∧ map TestInfo.err_output records = map (fun _ => None) tests
        ∧ captured_of (sys_stdout w')
          = captured_of (sys_stdout w) ++ concat (map et_stdout tests)
        ∧ captured_of (sys_stderr w')
          = captured_of (sys_stderr w) ++ concat (map et_stderr tests).
Proof.
  intros Hr [P1 P2].
  exists (world_after_tests self tests w), (imap (nth_record self) tests).
  split; [by apply lifecycles_exact|]. split; [apply collected_infos|].
  unfold world_after_tests. cbn [sys_stdout sys_stderr].
  destruct (XMLTestResult.per_test_output self) eqn:Hpt.
  - split; [|split].
    + apply map_imap_record. intros k e. unfold nth_record, recorded.
      cbn [TestInfo.std_output XMLTestResult.per_test_output XMLTestResult.set_test_index].
      by rewrite Hpt.
    + apply map_imap_record. intros k e. unfold nth_record, recorded.
      cbn [TestInfo.err_output XMLTestResult.per_test_output XMLTestResult.set_test_index].
      by rewrite Hpt.
    + destruct (sys_stdout w), (sys_stderr w); done.
  - split; [|split].
    + apply map_imap_record. intros k e. unfold nth_record, recorded.
      cbn [TestInfo.std_output XMLTestResult.per_test_output XMLTestResult.set_test_index].
      by rewrite Hpt.
    + apply map_imap_record. intros k e. unfold nth_record, recorded.
      cbn [TestInfo.err_output XMLTestResult.per_test_output XMLTestResult.set_test_index].
      by rewrite Hpt.
    + rewrite !captured_of_absorb, P1, P2. done.
Qed.

(** X10.  [printErrorList] writes, for each element of the list in turn, the
    double rule, the line [<flavour> [<elapsed>s]: <description>], the
    single rule and the record's formatted trace, each followed by a
    newline (an empty trace gives an empty line); when it meets an element
    that is a bare [_TestInfo] instead of a tuple, it raises [TypeError],
    the reports of the elements before it being written. *)
Theorem printErrorList_reports (self : _XMLTestResult) (flavour : list N)
    (errors rest : list entry) (w : world) :
  Forall (fun e => is_Pair e ∧ entry_info e < length (XMLTestResult.infos self)) errors →
  printErrorList self flavour errors w
  = (Ok tt,
     said (XMLTestResult.stream self) (concat (map (error_report self flavour) errors)) w)
  ∧ ∀ i,
      printErrorList self flavour (errors ++ Info i :: rest) w
      = (Raise TypeError,
         said (XMLTestResult.stream self)
           (concat (map (error_report self flavour) errors)) w).
Proof.
  intros He. split; [by apply emits_printErrorList|].
  intros i. unfold printErrorList.
  assert (Happ : ∀ (f : entry → M unit) (l1 l2 : list entry) (w0 : world),
             forM_ f (l1 ++ l2) w0 = (forM_ f l1 ≫= fun _ => forM_ f l2) w0).
  { intros f l1 l2. induction l1 as [|x l1 IH]; intros w0; [done|].
    cbn [forM_ app]. unfold mbind, M_bind in *.
    destruct (f x w0) as [[[]|err] w1]; [apply IH|done]. }
  rewrite Happ.
  pose proof (emits_printErrorList self flavour errors He w) as Hrun.
  unfold printErrorList in Hrun. rewrite (bind_run _ _ _ _ _ Hrun). reflexivity.
Qed.

Lemma collected_counts (self : _XMLTestResult) (tests : list executed_test) :
  let result := collected self tests in
  length (XMLTestResult.errors result)
  = length (XMLTestResult.errors self) + length (List.filter is_failed_or_errored tests)
  ∧ length (XMLTestResult.skipped result)
    = length (XMLTestResult.skipped self) + length (List.filter is_skipped tests)
  ∧ length (XMLTestResult.successes result)
    = length (XMLTestResult.successes self) + length (List.filter is_passed tests)
  ∧ XMLTestResult.expectedFailures result = XMLTestResult.expectedFailures self
  ∧ XMLTestResult.unexpectedSuccesses result = XMLTestResult.unexpectedSuccesses self.
Proof.
  cbv zeta. revert self. induction tests as [|e tests IH]; intros self.
  - cbn. repeat split; lia.
  - cbn [collected fold_left]. fold (collected (after_test self e [] []) tests).
    destruct (IH (after_test self e [] [])) as (He & Hs & Hp & Hx & Hu).
    rewrite He, Hs, Hp, Hx, Hu. unfold after_test, is_failed_or_errored, is_skipped,
      is_passed.
    cbn [XMLTestResult.errors XMLTestResult.skipped XMLTestResult.successes
         XMLTestResult.expectedFailures XMLTestResult.unexpectedSuccesses List.filter].
    rewrite !length_app.
    destruct (et_outcome e); cbn [length]; repeat split; lia.
Qed.


End Reports.

(** * The properties on the sample run *)

(** C1.  A test the engine reports through [addFailure] is stored with the
    outcome Error in the list of errors, and the list of failures stays
    empty; the element of its suite says [failures='0'] and [errors='1']. *)
Theorem addFailure_counted_as_error :
  ∃ (result : _XMLTestResult) (w' : world) (tests : list _TestInfo) (testsuite : node),
    foldM do_call (lifecycles [failing_test])
      (_make_result (sample_runner (u "out") true true)) patched_world
    = (Ok result, w')
    ∧ XMLTestResult.failures result = []
    ∧ length (XMLTestResult.errors result) = 1
    ∧ _get_info_by_testcase result (u "X") = Ok [(u "m.A", tests)]
    ∧ map TestInfo.outcome tests = [ERROR]
    ∧ _report_testsuite (u "m.A") (u "X") tests = Ok testsuite
    ∧ minidom.get_attr (u "failures") testsuite = Some (u "0")
    ∧ minidom.get_attr (u "errors") testsuite = Some (u "1").
Proof.
  eexists _, _, _, _.
  split; [vm_compute; reflexivity|].
  split; [reflexivity|]. split; [reflexivity|].
  split; [vm_compute; reflexivity|].
  split; [reflexivity|].
  split; [vm_compute; reflexivity|].
  split; reflexivity.
Qed.

(** C2.  With [elapsed_times] off, a test that started at 1.0 and stopped
    at 3.5 is stored with the elapsed time 2.5 all the same (the callback
    calls [test_finished] before it sets the two clock values to zero), and
    both the suite's element and the test case's say [time='2.500']. *)
Theorem elapsed_times_off_keeps_durations :
  ∃ (result : _XMLTestResult) (w' : world) (test_info : _TestInfo)
    (testsuite report testcase : node),
    XMLTestRunner.elapsed_times (sample_runner (u "out") false true) = false
    ∧ foldM do_call (lifecycles [passing_test])
        (_make_result (sample_runner (u "out") false true)) patched_world
      = (Ok result, w')
    ∧ XMLTestResult.start_time result = Some 0%float
    ∧ XMLTestResult.stop_time result = Some 0%float
    ∧ _get_info_by_testcase result (u "X") = Ok [(u "m.A", [test_info])]
    ∧ TestInfo.elapsed_time test_info = 2.5%float
    ∧ _report_testsuite (u "m.A") (u "X") [test_info] = Ok testsuite
    ∧ minidom.get_attr (u "time") testsuite = Some (u "2.500")
    ∧ _report_testcase decode_latin_1_or_ascii (u "m.A") test_info testsuite (u "latin-1")
      = Ok report
    ∧ minidom.children_named (u "testcase") report = [testcase]
    ∧ minidom.get_attr (u "time") testcase = Some (u "2.500").
Proof.
  eexists _, _, _, _, _, _.
  split; [reflexivity|].
  split; [vm_compute; reflexivity|].
  split; [reflexivity|]. split; [reflexivity|].
  split; [vm_compute; reflexivity|].
  split; [reflexivity|].
  split; [vm_compute; reflexivity|].
  split; [reflexivity|].
  split; [vm_compute; reflexivity|].
  split; reflexivity.
Qed.

(** C3, on the sample run: the world is ready, the four tests get the
    indices 0 to 3 in the order they complete, and the record of a test
    that fails gets its index when the test stops. *)
Lemma execution_indices_sample :
  ready (XMLTestResult.__init__ 2 true 1 true true (u "latin-1")) patched_world
  ∧ (∃ result w',
       foldM do_call (lifecycles sample_tests)
         (XMLTestResult.__init__ 2 true 1 true true (u "latin-1")) patched_world
       = (Ok result, w')
       ∧ map TestInfo.test_index (XMLTestResult.infos result) = [0; 1; 2; 3])
  ∧ XMLTestResult.start_time
      (XMLTestResult.set_start_time (Some 4%float)
         (XMLTestResult.__init__ 2 true 1 true true (u "latin-1")))
    = Some 4%float
  ∧ (∃ pending_result w1 stopped_result w2 finished_info,
       do_call (XMLTestResult.set_start_time (Some 4%float)
                  (XMLTestResult.__init__ 2 true 1 true true (u "latin-1")))
         (outcome_call (sample_case "A" "test_b") (Failed sample_error)) patched_world
       = (Ok pending_result, w1)
       ∧ do_call pending_result (call_stopTest (sample_case "A" "test_b") 4.25%float) w1
         = (Ok stopped_result, w2)
       ∧ XMLTestResult.infos stopped_result = [finished_info]
       ∧ TestInfo.test_index finished_info = 0
       ∧ XMLTestResult.test_index stopped_result = 1).
Proof.
  assert (Hready : ready (XMLTestResult.__init__ 2 true 1 true true (u "latin-1"))
                     patched_world).
  { intros _. repeat split; reflexivity. }
  split; [exact Hready|]. split.
  { destruct (proj1 execution_indices 2 true 1%Z true true (u "latin-1") sample_tests
                patched_world Hready) as (result & w' & Hrun & _ & Hindex & _).
    exists result, w'. split; [exact Hrun|exact Hindex]. }
  split; [reflexivity|].
  destruct (proj2 execution_indices
              (XMLTestResult.set_start_time (Some 4%float)
                 (XMLTestResult.__init__ 2 true 1 true true (u "latin-1")))
              (sample_case "A" "test_b") (Failed sample_error) 4.25%float 4%float
              patched_world)
    as (pending_result & w1 & created_info & stopped_result & w2 & finished_info
        & Hcall & _ & _ & _ & _ & Hstop & Hinfos & _ & Hindex & Hnext).
  { intros _. split; reflexivity. }
  { reflexivity. }
  exists pending_result, w1, stopped_result, w2, finished_info.
  split; [exact Hcall|]. split; [exact Hstop|]. split; [exact Hinfos|].
  split; [exact Hindex|exact Hnext].
Defined.

(** C4, on a byte string with a NUL character in it. *)
Lemma xml_safe_unicode_sample :
  decode_latin_1_or_ascii [Byte.x61; Byte.x00; Byte.x62] (u "latin-1")
  = Ok [97%N; 0%N; 98%N]
  ∧ ∃ safe : list N,
      xml_safe_unicode decode_latin_1_or_ascii (PyBytes [Byte.x61; Byte.x00; Byte.x62])
        (u "latin-1")
      = Ok safe
      ∧ (∀ c, In c safe → ¬ illegal_xml_char c)
      ∧ safe = List.filter (fun c => negb (bool_decide (illegal_xml_char c)))
                 [97%N; 0%N; 98%N].
Proof.
  split; [reflexivity|].
  apply (xml_safe_unicode_strips_illegal decode_latin_1_or_ascii
           (PyBytes [Byte.x61; Byte.x00; Byte.x62]) (u "latin-1") [97%N; 0%N; 98%N]).
  reflexivity.
Defined.

(** C5, on the result of the sample run: the four lists hold the places
    0; 1, 3; 2 (successes; errors; skipped), and the mapping lists the
    suite [m.A] before [m.B]. *)
Lemma get_info_by_testcase_sample :
  let self := collected (_make_result (sample_runner (u "out") true true)) sample_tests in
  let record := nth_record (_make_result (sample_runner (u "out") true true)) in
  let records :=
    [record 0 passing_test; record 1 failing_test; record 3 erroring_test;
     record 2 skipped_test] in
  Forall2 (fun e test_info => XMLTestResult.infos self !! entry_info e = Some test_info)
    (all_entries self) records
  ∧ ∃ groups,
      _get_info_by_testcase self (u "X") = Ok groups
      ∧ map fst groups = [u "m.A"; u "m.B"]
      ∧ (∀ suite tests, In (suite, tests) groups → StronglySorted index_le tests).
Proof.
  intros self record records.
  assert (Hrecords : Forall2 (fun e test_info =>
                                XMLTestResult.infos self !! entry_info e = Some test_info)
                       (all_entries self) records).
  { repeat (constructor; [reflexivity|]). constructor. }
  split; [exact Hrecords|].
  destruct (get_info_by_testcase_groups self (u "X") records Hrecords)
    as (_ & _ & _ & Hgroups & Hkeys & _ & Hsorted).
  eexists. split; [exact Hgroups|]. split.
  - rewrite Hkeys. vm_compute. reflexivity.
  - intros suite tests Hin. by apply Hsorted in Hin as [_ Hin].
Defined.

(** C6, on the record of the failing test of the sample run. *)
Lemma report_testcase_diagnostic_sample :
  let test_info := nth_record (_make_result (sample_runner (u "out") true true)) 1
                     failing_test in
  (TestInfo.outcome test_info = FAILURE ∨ TestInfo.outcome test_info = ERROR)
  ∧ TestInfo.err test_info = ErrExcInfo sample_error
  ∧ ∃ (testcase_attrs : list (list N * list N)) (message trace : list N)
      (blocks : list node),
      _report_testcase decode_latin_1_or_ascii (u "m.A") test_info
        (Element (u "testsuite") [] []) (u "latin-1")
      = Ok (Element (u "testsuite") []
              [Element (u "testcase") testcase_attrs
                 (Element (u "error")
                    [(u "type", u "AssertionError"); (u "message", message)]
                    [CDATASection trace]
                  :: blocks)])
      ∧ message = sub_empty (exc_value_str sample_error).
Proof.
  intros test_info.
  split; [by right|]. split; [reflexivity|].
  destruct (report_testcase_diagnostic decode_latin_1_or_ascii (u "m.A") test_info
              (u "testsuite") [] [] (u "latin-1") sample_error
              (or_intror eq_refl) eq_refl)
    as (testcase_attrs & message & trace & blocks & Hreport & _ & Hmessage & _).
  exists testcase_attrs, message, trace, blocks. split; [exact Hreport|exact Hmessage].
Defined.

(** The claim C6 as the specification words it fails on the sample error,
    whose text has two lines: the [message] attribute holds both, and the
    first line alone, sanitized, is another text. *)
Lemma message_holds_every_line :
  ∃ (test_info : _TestInfo) (report testcase diagnostic : node) (message : list N),
    TestInfo.__init__ true (sample_case "A" "test_b") ERROR (ErrExcInfo sample_error)
      None None
    = Ok test_info
    ∧ TestInfo.outcome test_info = ERROR
    ∧ _report_testcase decode_latin_1_or_ascii (u "m.A") test_info
        (Element (u "testsuite") [] []) (u "latin-1")
      = Ok report
    ∧ minidom.children_named (u "testcase") report = [testcase]
    ∧ minidom.children_named (u "error") testcase = [diagnostic]
    ∧ minidom.get_attr (u "message") diagnostic = Some message
    ∧ message = u "1 != 2" ++ [10%N] ++ u "values differ"
    ∧ xml_safe_unicode decode_latin_1_or_ascii
        (PyStr (first_line (exc_value_str sample_error))) (u "latin-1")
      = Ok (u "1 != 2")
    ∧ message ≠ u "1 != 2".
Proof.
  eexists _, _, _, _, _.
  split; [vm_compute; reflexivity|].
  split; [reflexivity|].
  split; [vm_compute; reflexivity|].
  split; [reflexivity|]. split; [reflexivity|]. split; [reflexivity|].
  split; [reflexivity|]. split; [reflexivity|].
  discriminate.
Qed.

(** C10, on the sample run: the record of the passing test, which printed
    [hello], and an outcome call made while the capture buffers are
    empty. *)
Lemma report_testcase_output_blocks_sample :
  let self := _make_result (sample_runner (u "out") true true) in
  let test_info := nth_record self 0 passing_test in
  consistent test_info
  ∧ (∃ testcase,
       _report_testcase decode_latin_1_or_ascii (u "m.A") test_info
         (Element (u "testsuite") [] []) (u "latin-1")
       = Ok (Element (u "testsuite") [] [testcase])
       ∧ minidom.children_named (u "system-out") testcase ≠ []
       ∧ minidom.children_named (u "system-err") testcase = [])
  ∧ XMLTestResult.per_test_output self = true
  ∧ sys_stdout patched_world = DelegateIO [] (RawStream 1)
  ∧ sys_stderr patched_world = DelegateIO [] (RawStream 2)
  ∧ (∃ self' w' created_info,
       do_call self (outcome_call (sample_case "A" "test_a") Succeeded) patched_world
       = (Ok self', w')
       ∧ XMLTestResult.infos self' = [created_info]
       ∧ TestInfo.std_output created_info = Some []
       ∧ TestInfo.err_output created_info = Some []).
Proof.
  intros self test_info.
  assert (Hc : consistent test_info) by exact I.
  split; [exact Hc|]. split.
  { destruct (proj1 (report_testcase_output_blocks decode_latin_1_or_ascii)
                (u "m.A") test_info (u "testsuite") [] [] (u "latin-1") Hc)
      as (testcase & Hreport & Hout & Herr).
    exists testcase. split; [exact Hreport|]. split.
    - apply Hout. by eexists _, _.
    - destruct (minidom.children_named (u "system-err") testcase); [done|].
      destruct (proj1 Herr) as (c & s & [=]). done. }
  split; [reflexivity|]. split; [reflexivity|]. split; [reflexivity|].
  destruct (proj2 (report_testcase_output_blocks decode_latin_1_or_ascii)
              self (sample_case "A" "test_a") Succeeded patched_world
              (RawStream 1) (RawStream 2) eq_refl eq_refl eq_refl)
    as (self' & w' & created_info & Hcall & Hinfos & _ & Hout & Herr).
  exists self', w', created_info. by repeat split.
Defined.




(** * Further properties of the module *)

(** ** [_DelegateIO] *)

Lemma stream_write_console (s : stream) (t : list N) (c : list (nat * list N)) :
  snd (stream_write s t c) = c ++ [(underlying s, t)]
  ∧ same_stream s (fst (stream_write s t c)).
Proof.
  induction s as [h|captured delegate IH]; cbn [stream_write underlying]; [done|].
  destruct (stream_write delegate t c) as [delegate' c'] eqn:E. cbn [fst snd] in *.
  destruct IH as [-> IH]. done.
Qed.

(** X12.  A write through a [_DelegateIO], however deep the chain of wrappers
    under it: the text reaches the ordinary stream at the bottom exactly
    once, the wrapper's buffer grows by the text, [getvalue()] returns the
    grown buffer, and after [reset()] the buffer is empty while the
    delegate is the one it was. *)
Theorem delegate_write_captures_and_forwards (captured : list N) (delegate : stream)
    (t : list N) (c : list (nat * list N)) :
  ∃ delegate',
    stream_write (DelegateIO captured delegate) t c
    = (DelegateIO (captured ++ t) delegate', c ++ [(underlying delegate, t)])
    ∧ same_stream delegate delegate'
    ∧ getvalue (DelegateIO (captured ++ t) delegate') = Ok (captured ++ t)
    ∧ (reset (DelegateIO (captured ++ t) delegate') ≫= getvalue) = Ok []
    ∧ (reset (DelegateIO (captured ++ t) delegate') ≫= delegate_of) = Ok delegate'.
Proof.
  destruct (stream_write_console delegate t c) as [Hc Hs].
  exists (fst (stream_write delegate t c)). cbn [stream_write].
  destruct (stream_write delegate t c) as [delegate' c']. cbn [fst snd] in *.
  subst c'. done.
Qed.

(** X13.  Capturing is transparent: patching the channels, writing to both, and
    restoring them leaves the process exactly as the two writes alone
    would have left it. *)
Theorem patch_write_restore_transparent (out err : list N) (w : world) :
  (_patch_standard_output ;; write_stdout out ;; write_stderr err ;;
   _restore_standard_output) w
  = (write_stdout out ;; write_stderr err) w.
Proof.
  destruct w as [so se c sk cw fd ff].
  unfold _patch_standard_output, _restore_standard_output, assign_sys_stdout,
    assign_sys_stderr, write_stdout, write_stderr, mbind, M_bind.
  cbn [sys_stdout sys_stderr console set_sys_stdout set_sys_stderr set_console
       stream_write sink cwd fs_dirs fs_files].
  destruct (stream_write so out c) as [so' c1].
  cbn [sys_stdout sys_stderr console set_sys_stdout set_sys_stderr set_console
       stream_write sink cwd fs_dirs fs_files].
  destruct (stream_write se err c1) as [se' c2].
  reflexivity.
Qed.

(** X14.  [_restore_standard_output] case by case: it unwraps both channels when
    both are wrappers; on an ordinary [sys.stdout] it raises
    [AttributeError] and changes nothing; on a wrapped [sys.stdout] and an
    ordinary [sys.stderr] it raises after it has unwrapped [sys.stdout]. *)
Theorem restore_standard_output_cases (w : world) :
  _restore_standard_output w
  = match sys_stdout w, sys_stderr w with
    | RawStream _, _ => (Raise AttributeError, w)
    | DelegateIO _ out, RawStream _ => (Raise AttributeError, set_sys_stdout out w)
    | DelegateIO _ out, DelegateIO _ err => (Ok tt, set_sys_stderr err (set_sys_stdout out w))
    end.
Proof.
  destruct w as [so se c sk cw fd ff].
  unfold _restore_standard_output, assign_sys_stdout, assign_sys_stderr, mbind, M_bind.
  cbn [sys_stdout sys_stderr]. destruct so as [h|c1 d1]; [reflexivity|].
  cbn [delegate_of set_sys_stdout sys_stdout sys_stderr console sink cwd fs_dirs fs_files].
  destruct se as [h|c2 d2]; reflexivity.
Qed.

(** ** The outcome methods outside a run *)

(** X15.  With per-test capture on, an outcome method called while one of the
    standard channels is an ordinary stream (the result used without
    [XMLTestRunner.run]) raises [AttributeError], for want of [getvalue],
    before anything is recorded or written. *)
Theorem outcome_call_needs_patched_channels (self : _XMLTestResult) (test : TestCase)
    (o : test_outcome) (w : world) :
  XMLTestResult.per_test_output self = true →
  is_DelegateIO (sys_stdout w) && is_DelegateIO (sys_stderr w) = false →
  do_call self (outcome_call test o) w = (Raise AttributeError, w).
Proof.
  intros Hp Hw.
  assert (Hm : ∀ outcome err,
             make_testinfo self test outcome err w = (Raise AttributeError, w)).
  { intros outcome err. unfold make_testinfo. rewrite Hp.
    unfold sys_stdout_getvalue, sys_stderr_getvalue, mbind, M_bind.
    destruct (sys_stdout w) as [h|c1 d1]; [reflexivity|].
    destruct (sys_stderr w) as [h|c2 d2]; [reflexivity|discriminate]. }
  destruct o; cbn [outcome_call do_call];
    unfold addSuccess, addFailure, addError, addSkip, mbind at 1, M_bind at 1;
    by rewrite Hm.
Qed.

(** X16.  [stopTest] with nothing pending (no outcome method was called since
    the last stop) writes nothing and only advances the counter and the
    stop time; with a callback pending on a result that never saw
    [startTest] it raises [AttributeError] (the result has no [start_time]
    yet), again without writing. *)
Theorem stopTest_edges (self : _XMLTestResult) (test : TestCase) (now : float) (w : world) :
  (XMLTestResult.callback self = None →
   stopTest self test now w
   = (Ok (XMLTestResult.set_test_index (S (XMLTestResult.test_index self))
            (XMLTestResult.set_stop_time (Some now) self)), w))
  ∧ (∀ cb test_info,
       XMLTestResult.callback self = Some cb →
       XMLTestResult.infos self !! cb_test_info cb = Some test_info →
       XMLTestResult.start_time self = None →
       stopTest self test now w = (Raise AttributeError, w)).
Proof.
  split.
  - intros Hcb. unfold stopTest. cbn [XMLTestResult.set_stop_time XMLTestResult.callback].
    rewrite Hcb. reflexivity.
  - intros cb test_info Hcb Hi Hs. unfold stopTest.
    cbn [XMLTestResult.set_stop_time XMLTestResult.callback]. rewrite Hcb.
    unfold call_callback, test_finished, info_at, mbind at 1 2 3, M_bind at 1 2 3.
    change (XMLTestResult.infos (XMLTestResult.set_stop_time (Some now) self))
      with (XMLTestResult.infos self).
    change (XMLTestResult.start_time (XMLTestResult.set_stop_time (Some now) self))
      with (XMLTestResult.start_time self).
    rewrite Hi, Hs. reflexivity.
Qed.

(** ** The method name of a test id *)

Lemma split_on_nonempty (sep : N) (s : list N) : split_on sep s ≠ [].
Proof.
  destruct s as [|c s]; cbn [split_on]; [done|].
  destruct (N.eqb c sep); [done|]. by destruct (split_on sep s).
Qed.

Lemma split_on_app (sep : N) (p n : list N) :
  split_on sep (p ++ sep :: n) = split_on sep p ++ split_on sep n.
Proof.
  induction p as [|c p IH]; cbn [app split_on].
  - by rewrite N.eqb_refl.
  - destruct (N.eqb c sep); [by rewrite IH|].
    rewrite IH. pose proof (split_on_nonempty sep p) as Hp.
    by destruct (split_on sep p).
Qed.

Lemma split_on_absent (sep : N) (s : list N) : ¬ In sep s → split_on sep s = [s].
Proof.
  induction s as [|c s IH]; intros Hs; cbn [split_on]; [done|].
  destruct (N.eqb_spec c sep) as [->|_]; [cbn in Hs; tauto|].
  rewrite IH; [done|]. cbn in Hs. tauto.
Qed.

Lemma split_on_last_clean (sep : N) (s : list N) :
  ¬ In sep (List.last (split_on sep s) []).
Proof.
  induction s as [|c s IH]; cbn [split_on]; [cbn; tauto|].
  pose proof (split_on_nonempty sep s) as Hs.
  destruct (N.eqb_spec c sep) as [->|Hc].
  - destruct (split_on sep s) as [|q qs]; [done|]. exact IH.
  - destruct (split_on sep s) as [|q [|q' qs]]; [done| |exact IH].
    cbn [List.last] in *. cbn. intros [H|H]; [by apply Hc|by apply IH].
Qed.

(** X17.  [_test_method_name] returns what follows the last dot of the id: the
    whole id when it has no dot, the method name [name] of an id
    [<prefix>.<name>], and never a text with a dot in it. *)
Theorem test_method_name_after_last_dot :
  (∀ prefix name : list N,
     ¬ In 46%N name → _test_method_name (prefix ++ u "." ++ name) = name)
  ∧ (∀ test_id : list N, ¬ In 46%N test_id → _test_method_name test_id = test_id)
  ∧ (∀ test_id : list N, ¬ In 46%N (_test_method_name test_id)).
Proof.
  unfold _test_method_name. split; [|split].
  - intros prefix name Hn. change (u "." ++ name) with (46%N :: name).
    rewrite split_on_app, (split_on_absent _ name Hn).
    by rewrite List.last_last.
  - intros test_id Hn. by rewrite (split_on_absent _ _ Hn).
  - intros test_id. apply split_on_last_clean.
Qed.

(** ** What every sequence of lifecycle calls keeps *)

Lemma new_TestInfo_result (self self' : _XMLTestResult) (test : TestCase)
    (outcome : outcome_t) (err : err_t) (so eo : option (list N)) (n : nat) :
  new_TestInfo self test outcome err so eo = Ok (n, self') →
  ∃ test_info,
    n = length (XMLTestResult.infos self)
    ∧ self' = XMLTestResult.set_infos (XMLTestResult.infos self ++ [test_info]) self
    ∧ TestInfo.outcome test_info = outcome
    ∧ TestInfo.err test_info = err.
Proof.
  unfold new_TestInfo, TestInfo.__init__. intros H.
  destruct (match outcome with SUCCESS | SKIP => Ok [] | _ => _exc_info_to_string err end)
    as [info|e]; [|done].
  cbn in H. injection H as <- <-. eexists. repeat split.
Qed.

Lemma make_testinfo_result (self self' : _XMLTestResult) (test : TestCase)
    (outcome : outcome_t) (err : err_t) (n : nat) (w w' : world) :
  make_testinfo self test outcome err w = (Ok (n, self'), w') →
  ∃ test_info,
    n = length (XMLTestResult.infos self)
    ∧ self' = XMLTestResult.set_infos (XMLTestResult.infos self ++ [test_info]) self
    ∧ TestInfo.outcome test_info = outcome
    ∧ TestInfo.err test_info = err.
Proof.
  unfold make_testinfo. destruct (XMLTestResult.per_test_output self).
  - unfold sys_stdout_getvalue, sys_stderr_getvalue, sys_stdout_reset, sys_stderr_reset,
      mbind at 1 2 3 4 5, M_bind at 1 2 3 4 5, lift.
    destruct (getvalue (sys_stdout w)) as [so|]; [|done].
    destruct (getvalue (sys_stderr w)) as [eo|]; [|done].
    destruct (new_TestInfo self test outcome err (Some so) (Some eo)) as [[n0 s0]|] eqn:E;
      [|done].
    destruct (reset (sys_stdout w)) as [s1|]; [|done].
    cbn [sys_stderr set_sys_stdout].
    destruct (reset (sys_stderr w)) as [s2|]; [|done].
    intros [= <- <- _]. by eapply new_TestInfo_result.
  - unfold lift. intros [= H _]. by eapply new_TestInfo_result.
Qed.

Lemma test_finished_result (i : nat) (self self' : _XMLTestResult) :
  test_finished i self = Ok self' →
  ∃ test_info elapsed,
    XMLTestResult.infos self !! i = Some test_info
    ∧ self' = XMLTestResult.set_infos
                (<[i := TestInfo.finished (XMLTestResult.test_index self) elapsed test_info]>
                   (XMLTestResult.infos self))
                self.
Proof.
  unfold test_finished, info_at.
  destruct (XMLTestResult.infos self !! i) as [test_info|]; [|done]. cbn.
  destruct (XMLTestResult.stop_time self) as [stop|]; [|done].
  destruct (XMLTestResult.start_time self) as [start|]; [|done].
  intros [= <-]. by eexists _, _.
Qed.

Lemma call_callback_result (cb : callback_t) (self r : _XMLTestResult) (w w' : world) :
  call_callback cb self w = (Ok r, w') →
  ∃ finished_,
    test_finished (cb_test_info cb) self = Ok finished_
    ∧ (r = finished_
       ∨ r = XMLTestResult.set_stop_time (Some 0%float)
               (XMLTestResult.set_start_time (Some 0%float) finished_)).
Proof.
  unfold call_callback. rewrite bind_lift.
  destruct (test_finished (cb_test_info cb) self) as [s1|]; [|done].
  intros H. exists s1. split; [done|].
  set (s2 := if XMLTestResult.elapsed_times s1 then s1 else _) in H.
  assert (Hs2 : s2 = s1 ∨ s2 = XMLTestResult.set_stop_time (Some 0%float)
                               (XMLTestResult.set_start_time (Some 0%float) s1)).
  { subst s2. destruct (XMLTestResult.elapsed_times s1); auto. }
  assert (Hr : r = s2); [|by rewrite Hr].
  clearbody s2. destruct (XMLTestResult.showAll s2).
  - rewrite bind_lift in H. destruct (info_at s2 (cb_test_info cb)); [|done].
    match type of H with
    | (writeln ?h ?t ≫= _) _ = _ =>
        destruct (writeln_keeps h t w) as (w1 & E & _);
        rewrite (bind_run _ _ _ _ _ E) in H
    end.
    by injection H as <- _.
  - destruct (XMLTestResult.dots s2).
    + match type of H with
      | (write ?h ?t ≫= _) _ = _ =>
          destruct (write_keeps h t w) as (w1 & E & _);
          rewrite (bind_run _ _ _ _ _ E) in H
      end.
      by injection H as <- _.
    + by injection H as <- _.
Qed.

Lemma Forall_entry_mono (l : list entry) (n m : nat) :
  n ≤ m → Forall (fun e => entry_info e < n) l → Forall (fun e => entry_info e < m) l.
Proof. intros Hnm Hl. eapply Forall_impl; [exact Hl|]. intros e He. cbn in He. lia. Qed.

Lemma finished_consistent (index : nat) (elapsed : float) (test_info : _TestInfo) :
  consistent test_info → consistent (TestInfo.finished index elapsed test_info).
Proof. by destruct test_info. Qed.

Lemma sound_grown (self : _XMLTestResult) (test_info : _TestInfo) (added : list entry)
    (r : _XMLTestResult) :
  sound self →
  consistent test_info →
  XMLTestResult.infos r = XMLTestResult.infos self ++ [test_info] →
  Permutation (all_entries r) (all_entries self ++ added) →
  Forall (fun e => entry_info e = length (XMLTestResult.infos self)) added →
  (∀ cb, XMLTestResult.callback r = Some cb →
         cb_test_info cb = length (XMLTestResult.infos self)) →
  sound r.
Proof.
  intros (He & Hcb & Hc) Hti Hinfos Hperm Hadded Hcb'. unfold sound.
  rewrite Hinfos, length_app. cbn [length]. split; [|split].
  - rewrite Hperm. apply Forall_app. split.
    + eapply Forall_entry_mono; [|exact He]. lia.
    + eapply Forall_impl; [exact Hadded|]. intros e Heq. cbn in Heq. lia.
  - intros cb H. rewrite (Hcb' cb H). lia.
  - apply Forall_app. split; [exact Hc|]. by constructor.
Qed.

Lemma do_call_keeps (self r : _XMLTestResult) (c : engine_call) (w w' : world) :
  sound self →
  do_call self c w = (Ok r, w') →
  sound r
  ∧ XMLTestResult.failures r = XMLTestResult.failures self
  ∧ settings r = settings self
  ∧ XMLTestResult.testsRun r
    = XMLTestResult.testsRun self + (if is_startTest c then 1 else 0)
  ∧ XMLTestResult.test_index r
    = XMLTestResult.test_index self + (if is_stopTest c then 1 else 0)
  ∧ length (XMLTestResult.infos r)
    = length (XMLTestResult.infos self) + (if is_outcome_call c then 1 else 0).
Proof.
  intros Hs H. destruct c as [test now|test now|test|test err|test err|test reason|t|t];
    cbn [do_call is_startTest is_stopTest is_outcome_call] in *.
  - destruct (startTest_runs self test now w) as (w1 & E & _). rewrite E in H.
    injection H as <- _. destruct self.
    unfold sound, all_entries, settings in *; cbn in *.
    repeat split; try done; try lia; apply Hs.
  - unfold stopTest in H.
    set (s0 := XMLTestResult.set_stop_time (Some now) self) in H.
    assert (Hs0 : sound s0) by (destruct self; exact Hs).
    assert (Heq : XMLTestResult.callback s0 = XMLTestResult.callback self)
      by (by destruct self).
    destruct (XMLTestResult.callback s0) as [cb|] eqn:Hcb.
    + unfold mbind at 1 2, M_bind at 1 2 in H.
      destruct (call_callback cb s0 w) as [[s1|e] w1] eqn:E; [|done].
      cbn in H. injection H as <- _.
      apply call_callback_result in E as (f & Hf & Hs1).
      apply test_finished_result in Hf as (test_info & elapsed & Hi & ->).
      destruct Hs0 as (He & Hc & Hcons).
      assert (Hti : consistent test_info).
      { rewrite List.Forall_forall in Hcons. apply Hcons.
        apply list_elem_of_In. by eapply list_elem_of_lookup_2. }
      assert (Hins : Forall consistent
                       (<[cb_test_info cb :=
                            TestInfo.finished (XMLTestResult.test_index s0) elapsed
                              test_info]> (XMLTestResult.infos s0))).
      { apply Forall_insert; [exact Hcons|by apply finished_consistent]. }
      pose proof (length_insert (XMLTestResult.infos s0) (cb_test_info cb)
                    (TestInfo.finished (XMLTestResult.test_index s0) elapsed test_info))
        as Hlen.
      destruct Hs1 as [-> | ->]; subst s0; destruct self;
        unfold sound, all_entries, settings in *; cbn in *; rewrite ?Hlen;
        (repeat split; try done; try lia).
    + cbn in H. injection H as <- _. subst s0. destruct self.
      unfold sound, all_entries, settings in *; cbn in *.
      repeat split; try done; try lia; apply Hs.
  - unfold addSuccess, mbind at 1, M_bind at 1 in H.
    destruct (make_testinfo self test SUCCESS ErrNone w) as [[[n s1]|e] w1] eqn:E; [|done].
    cbn in H. injection H as <- _.
    apply make_testinfo_result in E as (test_info & -> & -> & Ho & He).
    split.
    { apply (sound_grown self test_info [Info (length (XMLTestResult.infos self))]);
        try done.
      - unfold consistent. by rewrite Ho.
      - destruct self. unfold all_entries. cbn. solve_Permutation.
      - by constructor.
      - intros cb [= <-]. reflexivity. }
    destruct self. unfold settings. cbn. rewrite length_app. cbn.
    repeat split; lia.
  - unfold addFailure, mbind at 1, M_bind at 1 in H.
    destruct (make_testinfo self test ERROR (ErrExcInfo err) w) as [[[n s1]|e] w1] eqn:E;
      [|done].
    cbn in H. injection H as <- _.
    apply make_testinfo_result in E as (test_info & -> & -> & Ho & He).
    split.
    { apply (sound_grown self test_info
               [Pair (length (XMLTestResult.infos self)) (exc_formatted err)]); try done.
      - unfold consistent. rewrite Ho. eauto.
      - destruct self. unfold all_entries. cbn. solve_Permutation.
      - by constructor.
      - intros cb [= <-]. reflexivity. }
    destruct self. unfold settings. cbn. rewrite length_app. cbn.
    repeat split; lia.
  - unfold addError, mbind at 1, M_bind at 1 in H.
    destruct (make_testinfo self test ERROR (ErrExcInfo err) w) as [[[n s1]|e] w1] eqn:E;
      [|done].
    cbn in H. injection H as <- _.
    apply make_testinfo_result in E as (test_info & -> & -> & Ho & He).
    split.
    { apply (sound_grown self test_info
               [Pair (length (XMLTestResult.infos self)) (exc_formatted err)]); try done.
      - unfold consistent. rewrite Ho. eauto.
      - destruct self. unfold all_entries. cbn. solve_Permutation.
      - by constructor.
      - intros cb [= <-]. reflexivity. }
    destruct self. unfold settings. cbn. rewrite length_app. cbn.
    repeat split; lia.
  - unfold addSkip, mbind at 1, M_bind at 1 in H.
    destruct (make_testinfo self test SKIP (ErrReason reason) w) as [[[n s1]|e] w1] eqn:E;
      [|done].
    cbn in H. injection H as <- _.
    apply make_testinfo_result in E as (test_info & -> & -> & Ho & He).
    split.
    { apply (sound_grown self test_info
               [Pair (length (XMLTestResult.infos self)) reason]); try done.
      - unfold consistent. rewrite Ho. eauto.
      - destruct self. unfold all_entries. cbn. solve_Permutation.
      - by constructor.
      - intros cb [= <-]. reflexivity. }
    destruct self. unfold settings. cbn. rewrite length_app. cbn.
    repeat split; lia.
  - unfold write_stdout, mbind, M_bind in H.
    destruct (stream_write (sys_stdout w) t (console w)). cbn in H. injection H as <- _.
    repeat split; try done; try lia; apply Hs.
  - unfold write_stderr, mbind, M_bind in H.
    destruct (stream_write (sys_stderr w) t (console w)). cbn in H. injection H as <- _.
    repeat split; try done; try lia; apply Hs.
Qed.

(** X18.  Whatever the engine calls and in whatever order (lifecycle calls out
    of order, repeated or missing included): if the calls return, the
    result is still sound (its lists and callback refer to records that
    exist, every record's [err] fits its outcome), its settings and its
    list of failures are untouched, and [testsRun], [test_index] and the
    number of records have grown by the number of [startTest] calls, of
    [stopTest] calls and of outcome calls. *)
Theorem lifecycle_calls_keep_result_sound (cs : list engine_call)
    (self r : _XMLTestResult) (w w' : world) :
  sound self →
  foldM do_call cs self w = (Ok r, w') →
  sound r
  ∧ XMLTestResult.failures r = XMLTestResult.failures self
  ∧ settings r = settings self
  ∧ XMLTestResult.testsRun r = XMLTestResult.testsRun self + count_calls is_startTest cs
  ∧ XMLTestResult.test_index r = XMLTestResult.test_index self + count_calls is_stopTest cs
  ∧ length (XMLTestResult.infos r)
    = length (XMLTestResult.infos self) + count_calls is_outcome_call cs.
Proof.
  revert self w. induction cs as [|c cs IH]; intros self w Hs H.
  - cbn in H. injection H as <- _. unfold count_calls. cbn.
    split; [exact Hs|]. repeat split; lia.
  - cbn [foldM] in H. unfold mbind, M_bind in H.
    destruct (do_call self c w) as [[s1|e] w1] eqn:E; [|done].
    destruct (do_call_keeps _ _ _ _ _ Hs E) as (Hs1 & Hf1 & Hset1 & Hr1 & Hi1 & Hl1).
    destruct (IH _ _ Hs1 H) as (Hsr & Hf & Hset & Hr & Hi & Hl).
    split; [exact Hsr|]. split; [congruence|]. split; [congruence|].
    unfold count_calls in *. cbn [List.filter].
    destruct (is_startTest c), (is_stopTest c), (is_outcome_call c); cbn [length];
      repeat split; lia.
Qed.

(** ** Grouping keeps every record *)

Lemma odict_append_concat {V} (k : list N) (v : V) (d : list (list N * list V)) :
  Permutation (concat (map snd (odict_append k v d))) (concat (map snd d) ++ [v]).
Proof.
  induction d as [|[k' vs] d IH]; cbn [odict_append map concat snd app]; [done|].
  destruct (text_eqb k' k); cbn [map concat snd].
  - solve_Permutation.
  - rewrite IH. by rewrite app_assoc.
Qed.

Lemma grouped_concat {V} (l : list (list N * V)) :
  Permutation (concat (map snd (grouped l))) (map snd l).
Proof.
  rewrite <- group_fold.
  assert (H : ∀ d, Permutation
                     (concat (map snd (fold_left (fun d x => odict_append (fst x) (snd x) d)
                                         l d)))
                     (concat (map snd d) ++ map snd l)).
  { induction l as [|x l IH]; intros d; cbn [fold_left map].
    - by rewrite app_nil_r.
    - rewrite IH, odict_append_concat. rewrite <- app_assoc. done. }
  apply (H []).
Qed.

Lemma members_present {V} (k : list N) (l : list (list N * V)) :
  In k (map fst l) → members k l ≠ [].
Proof.
  unfold members. induction l as [|x l IH]; cbn [map List.filter]; [done|].
  intros [Hx|Hin].
  - subst k. by rewrite text_eqb_refl.
  - destruct (text_eqb (fst x) k); [done|]. by apply IH.
Qed.

(** X19.  On a sound result the grouping step does not raise, and it neither
    loses nor repeats a record: the suites' sequences together are the
    records the four lists refer to, each record under the suite of its
    test's class, no suite empty and no suite listed twice. *)
Theorem grouping_partitions_records (self : _XMLTestResult) (outsuffix : list N) :
  sound self →
  ∃ (records : list _TestInfo) (groups : list (list N * list _TestInfo)),
    Forall2 (fun e test_info => XMLTestResult.infos self !! entry_info e = Some test_info)
      (all_entries self) records
    ∧ _get_info_by_testcase self outsuffix = Ok groups
    ∧ Permutation (concat (map snd groups)) records
    ∧ List.NoDup (map fst groups)
    ∧ (∀ suite tests, In (suite, tests) groups →
         tests ≠ [] ∧ Forall (fun test_info => TestInfo.test_name test_info = suite) tests).
Proof.
  intros (He & _ & _).
  destruct (deref_exists self He) as [records Hrecords].
  exists records. eexists. split; [exact Hrecords|].
  split; [by apply get_info_by_testcase_grouped|].
  set (sorted := sort_by_key _ _).
  assert (Hsorted : Permutation (map snd sorted) records).
  { subst sorted. rewrite sort_by_key_perm, map_map. cbn. by rewrite map_id. }
  split; [by rewrite grouped_concat|].
  split; [rewrite grouped_keys; apply first_seen_NoDup|].
  intros suite tests Hin. apply grouped_elem in Hin as [Hk ->].
  split; [by apply members_present|].
  apply List.Forall_forall. intros test_info Hti.
  unfold members in Hti. apply in_map_iff in Hti as ([k ti] & <- & Hf).
  apply filter_In in Hf as [Hf Hk']. cbn [fst snd] in *. apply text_eqb_eq in Hk'.
  assert (Hn : In (k, ti) (map named records)).
  { eapply Permutation_in; [|exact Hf]. subst sorted. apply sort_by_key_perm. }
  apply in_map_iff in Hn as (ti' & [= <- <-] & _). done.
Qed.

(** ** The name of the single file *)

Lemma after_last_spec (c : N) (p : list N) :
  match posixpath.after_last c p with
  | 0 => ¬ In c p
  | S k => p !! k = Some c ∧ ¬ In c (drop (S k) p)
  end.
Proof.
  induction p as [|d p IH]; cbn [posixpath.after_last]; [cbn; tauto|].
  destruct (posixpath.after_last c p) as [|k].
  - destruct (N.eqb_spec d c) as [->|Hd].
    + split; [done|]. exact IH.
    + cbn. intros [H|H]; [done|by apply IH].
  - exact IH.
Qed.

Lemma in_drop_le {A} (x : A) (l : list A) (i j : nat) :
  i ≤ j → In x (drop j l) → In x (drop i l).
Proof.
  intros Hij Hin. replace j with (i + (j - i)) in Hin by lia.
  rewrite <- drop_drop in Hin. revert Hin. generalize (drop i l) as l'.
  induction (j - i) as [|n IH]; intros l' Hin; [by rewrite drop_0 in Hin|].
  destruct l' as [|y l']; [done|]. cbn [drop] in Hin. right. by apply IH.
Qed.


(** * The further properties on the sample run *)

(** An outcome method on a fresh result, while the channels are ordinary
    streams. *)
Lemma outcome_call_needs_patched_channels_sample :
  XMLTestResult.per_test_output sample_result = true
  ∧ is_DelegateIO (sys_stdout sample_world) && is_DelegateIO (sys_stderr sample_world)
    = false
  ∧ do_call sample_result (outcome_call (sample_case "A" "test_a") Succeeded) sample_world
    = (Raise AttributeError, sample_world).
Proof.
  split; [reflexivity|]. split; [reflexivity|].
  apply (outcome_call_needs_patched_channels sample_result (sample_case "A" "test_a")
           Succeeded sample_world); reflexivity.
Defined.

(** [stopTest] on a fresh result, and after [addSuccess] on a result that
    never saw [startTest]. *)
Lemma stopTest_edges_sample :
  let pending_result :=
    after_outcome_call sample_result (sample_case "A" "test_a") Succeeded patched_world in
  XMLTestResult.callback sample_result = None
  ∧ XMLTestResult.test_index
      (XMLTestResult.set_test_index (S (XMLTestResult.test_index sample_result))
         (XMLTestResult.set_stop_time (Some 2%float) sample_result)) = 1
  ∧ do_call sample_result (outcome_call (sample_case "A" "test_a") Succeeded) patched_world
    = (Ok pending_result, patched_world)
  ∧ XMLTestResult.callback pending_result = Some (pending 0 Succeeded)
  ∧ XMLTestResult.start_time pending_result = None
  ∧ stopTest pending_result (sample_case "A" "test_a") 2%float patched_world
    = (Raise AttributeError, patched_world).
Proof.
  intros pending_result.
  pose proof (proj1 (stopTest_edges sample_result (sample_case "A" "test_a") 2%float
                       patched_world) eq_refl) as Hfresh.
  split; [reflexivity|]. split; [reflexivity|]. split; [reflexivity|].
  split; [reflexivity|]. split; [reflexivity|].
  apply (proj2 (stopTest_edges pending_result (sample_case "A" "test_a") 2%float
                  patched_world)
           (pending 0 Succeeded)
           (created sample_result (sample_case "A" "test_a") Succeeded patched_world));
    reflexivity.
Defined.

(** The method name of the id [m.A.test_a]. *)
Lemma test_method_name_sample :
  ¬ In 46%N (u "test_a")
  ∧ _test_method_name (u "m.A" ++ u "." ++ u "test_a") = u "test_a"
  ∧ _test_method_name (u "test_a") = u "test_a".
Proof.
  assert (Hn : ¬ In 46%N (u "test_a")).
  { intros H. repeat (destruct H as [H|H]; [discriminate H|]). exact H. }
  split; [exact Hn|]. split.
  - apply (proj1 test_method_name_after_last_dot (u "m.A") (u "test_a") Hn).
  - apply (proj1 (proj2 test_method_name_after_last_dot) (u "test_a") Hn).
Defined.

(** The calls of the sample run, on a fresh result. *)
Lemma lifecycle_calls_keep_result_sound_sample :
  sound sample_result
  ∧ ∃ r w',
      foldM do_call (lifecycles sample_tests) sample_result patched_world = (Ok r, w')
      ∧ sound r
      ∧ XMLTestResult.failures r = []
      ∧ XMLTestResult.testsRun r = 4
      ∧ XMLTestResult.test_index r = 4
      ∧ length (XMLTestResult.infos r) = 4.
Proof.
  assert (Hs : sound sample_result).
  { split; [constructor|]. split; [intros cb H; discriminate H|constructor]. }
  split; [exact Hs|].
  eexists _, _.
  assert (Hrun : foldM do_call (lifecycles sample_tests) sample_result patched_world
                 = (Ok (collected sample_result sample_tests),
                    world_after_tests sample_result sample_tests patched_world))
    by (vm_compute; reflexivity).
  split; [exact Hrun|].
  destruct (lifecycle_calls_keep_result_sound _ _ _ _ _ Hs Hrun)
    as (Hr & Hf & _ & Ht & Hi & Hl).
  split; [exact Hr|]. split; [exact Hf|]. split; [exact Ht|]. split; [exact Hi|exact Hl].
Defined.

(** Grouping the result of the sample run. *)
Lemma grouping_partitions_records_sample :
  sound (collected sample_result sample_tests)
  ∧ ∃ groups,
      _get_info_by_testcase (collected sample_result sample_tests) (u "X") = Ok groups
      ∧ length (concat (map snd groups)) = 4
      ∧ List.NoDup (map fst groups).
Proof.
  assert (Hs : sound (collected sample_result sample_tests)).
  { split; [|split].
    - repeat (constructor; [cbn; lia|]). constructor.
    - intros cb H. discriminate H.
    - repeat (constructor; [first [exact I | eexists; reflexivity]|]). constructor. }
  split; [exact Hs|].
  destruct (grouping_partitions_records (collected sample_result sample_tests) (u "X") Hs)
    as (records & groups & Hrecords & Hgroups & Hperm & Hnodup & _).
  exists groups. split; [exact Hgroups|]. split; [|exact Hnodup].
  rewrite (Permutation_length Hperm).
  apply Forall2_length in Hrecords. rewrite <- Hrecords. reflexivity.
Defined.

(** The entries of the skipped and of the passing test of the sample
    run. *)
Lemma report_testcase_skipped_and_passed_sample :
  let skipped_info := nth_record sample_result 2 skipped_test in
  let passed_info := nth_record sample_result 0 passing_test in
  TestInfo.outcome skipped_info = SKIP
  ∧ TestInfo.err skipped_info = ErrReason (u "not today")
  ∧ TestInfo.outcome passed_info = SUCCESS
  ∧ (∃ attrs blocks,
       _report_testcase decode_latin_1_or_ascii (u "m.B") skipped_info
         (Element (u "testsuite") [] []) (u "latin-1")
       = Ok (Element (u "testsuite") []
               [Element (u "testcase") attrs
                  (Element (u "skipped")
                     [(u "type", u "skip"); (u "message", sub_empty (u "not today"))] []
                   :: blocks)]))
  ∧ (∃ attrs blocks,
       _report_testcase decode_latin_1_or_ascii (u "m.A") passed_info
         (Element (u "testsuite") [] []) (u "latin-1")
       = Ok (Element (u "testsuite") [] [Element (u "testcase") attrs blocks])).
Proof.
  intros skipped_info passed_info.
  split; [reflexivity|]. split; [reflexivity|]. split; [reflexivity|]. split.
  - destruct (report_testcase_skipped_and_passed decode_latin_1_or_ascii (u "m.B")
                skipped_info (u "testsuite") [] [] (u "latin-1"))
      as (attrs & blocks & _ & Hskip & _).
    exists attrs, blocks. exact (Hskip (u "not today") eq_refl eq_refl).
  - destruct (report_testcase_skipped_and_passed decode_latin_1_or_ascii (u "m.A")
                passed_info (u "testsuite") [] [] (u "latin-1"))
      as (attrs & blocks & _ & _ & Hpass).
    exists attrs, blocks. exact (Hpass eq_refl).
Defined.

(** The error report of the failing test of the sample run. *)
Lemma printErrorList_reports_sample :
  let self := collected sample_result [failing_test] in
  Forall (fun e => is_Pair e ∧ entry_info e < length (XMLTestResult.infos self))
    (XMLTestResult.errors self)
  ∧ ∃ lines,
      printErrorList self (u "ERROR") (XMLTestResult.errors self) sample_world
      = (Ok tt, said 2 lines sample_world)
      ∧ length lines = 8.
Proof.
  intros self.
  assert (He : Forall (fun e => is_Pair e
                                 ∧ entry_info e < length (XMLTestResult.infos self))
                 (XMLTestResult.errors self)).
  { constructor; [|constructor]. split; [exact I|cbn; lia]. }
  split; [exact He|].
  eexists. split.
  - exact (proj1 (printErrorList_reports self (u "ERROR") (XMLTestResult.errors self) []
                    sample_world He)).
  - reflexivity.
Defined.

(** Capture during the sample run, per test. *)
Lemma capture_per_test_or_whole_run_sample :
  ready sample_result patched_world
  ∧ patched patched_world
  ∧ ∃ w' records,
      foldM do_call (lifecycles sample_tests) sample_result patched_world
      = (Ok (collected sample_result sample_tests), w')
      ∧ map TestInfo.std_output records = [Some (u "hello"); Some []; Some []; Some []]
      ∧ map TestInfo.err_output records = [Some []; Some []; Some []; Some (u "oops")]
      ∧ captured_of (sys_stdout w') = [].
Proof.
  assert (Hr : ready sample_result patched_world) by (intros _; by repeat split).
  assert (Hp : patched patched_world) by (by split).
  split; [exact Hr|]. split; [exact Hp|].
  destruct (capture_per_test_or_whole_run sample_result sample_tests patched_world Hr Hp)
    as (w' & records & Hrun & _ & Hout & Herr & Hc & _).
  exists w', records. split; [exact Hrun|]. split; [exact Hout|]. split; [exact Herr|exact Hc].
Defined.

(** Stream mode on the result of the passing test. *)
Lemma generate_reports_on_stream_sample :
  let self := collected (_make_result stream_runner) [passing_test] in
  let groups := [(u "m.A", [nth_record (_make_result stream_runner) 0 passing_test])] in
  XMLTestRunner.output stream_runner = output_stream 7
  ∧ _get_info_by_testcase self (XMLTestRunner.outsuffix stream_runner) = Ok groups
  ∧ Forall (fun item => Forall consistent (snd item)) groups
  ∧ ∃ xml_content,
      generate_reports decode_latin_1_or_ascii plain_toprettyxml self stream_runner
        patched_world
      = (Ok tt, set_sink [(7, xml_content)] patched_world).
Proof.
  intros self groups.
  assert (Hg : _get_info_by_testcase self (XMLTestRunner.outsuffix stream_runner)
               = Ok groups) by reflexivity.
  assert (Hc : Forall (fun item : list N * list _TestInfo => Forall consistent (snd item))
                 groups).
  { constructor; [|constructor]. constructor; [exact I|constructor]. }
  split; [reflexivity|]. split; [exact Hg|]. split; [exact Hc|].
  pose proof (generate_reports_on_stream decode_latin_1_or_ascii plain_toprettyxml self
                stream_runner 7 groups patched_world eq_refl Hg Hc
                (fun _ => conj eq_refl eq_refl)) as H.
  match type of H with
  | match ?serialized with _ => _ end =>
      let v := eval vm_compute in serialized in
      change serialized with v in H
  end.
  cbv beta iota in H. eexists. exact H.
Defined.

